(** * Library management backend: loans and the copy ledger

    A shallow embedding of [main.py] and [schemas.py]: the three
    collections of the document store, the request handlers that read and
    write them, and the properties of the borrow / return life cycle. *)

From Stdlib Require Import ZArith NArith List String Ascii Bool Lia.
From Stdlib Require Import Permutation Sorted.
Import ListNotations.

Local Open Scope string_scope.
Local Open Scope list_scope.
Local Open Scope Z_scope.

(** ** bson.ObjectId

    An [ObjectId] holds bytes and [str] renders them as lower-case
    hexadecimal digits, so an identifier is kept here as that lower-case
    text.  [ObjectId(s)] takes a text of 24 characters and reads it with
    [bytes.fromhex]: two digits a byte, in either case, with ASCII
    whitespace skipped before a byte.  A text of 24 digits gives the
    usual twelve bytes; one with whitespace in it gives fewer. *)

Module Bson.

Inductive ObjectId : Type := Oid (hex : string).

Definition str (o : ObjectId) : string := let 'Oid h := o in h.

Definition is_hex_digit (c : ascii) : bool :=
  let n := N_of_ascii c in
  (((48 <=? n) && (n <=? 57)) || ((97 <=? n) && (n <=? 102))
   || ((65 <=? n) && (n <=? 70)))%N.

Definition lower (c : ascii) : ascii :=
  let n := N_of_ascii c in
  if ((65 <=? n) && (n <=? 70))%N then ascii_of_N (n + 32) else c.

(** A text of hexadecimal digits only, and a text in lower case: the
    form of the identifiers the driver makes up. *)
Fixpoint all_hex (s : string) : bool :=
  match s with
  | EmptyString => true
  | String c s' => is_hex_digit c && all_hex s'
  end.

Fixpoint lowercase (s : string) : string :=
  match s with
  | EmptyString => EmptyString
  | String c s' => String (lower c) (lowercase s')
  end.

(** The ASCII whitespace [bytes.fromhex] skips: space, tab, line feed,
    vertical tab, form feed and carriage return. *)
Definition is_space (c : ascii) : bool :=
  let n := N_of_ascii c in
  ((n =? 32) || ((9 <=? n) && (n <=? 13)))%N.

(** [bytes.fromhex(s)], the bytes kept as their lower-case digits:
    whitespace is skipped where a byte may start, and the two digits of a
    byte stand together.  [None] stands for [ValueError]. *)
Fixpoint fromhex (s : string) : option string :=
  match s with
  | EmptyString => Some EmptyString
  | String c s' =>
      if is_space c then fromhex s'
      else if is_hex_digit c then
        match s' with
        | String c' s'' =>
            if is_hex_digit c'
            then option_map (fun h => String (lower c) (String (lower c') h))
                            (fromhex s'')
            else None
        | EmptyString => None
        end
      else None
  end.

(** [ObjectId(s)]: [None] stands for [bson.errors.InvalidId]. *)
Definition parse (s : string) : option ObjectId :=
  if Nat.eqb (String.length s) 24
  then option_map Oid (fromhex s)
  else None.

Definition eqb (a b : ObjectId) : bool := String.eqb (str a) (str b).

(** The identifier the driver makes up for a new document.  The real one
    mixes time, a random value and a counter; the model numbers them. *)
Definition hex_digits : list ascii :=
  list_ascii_of_string "0123456789abcdef".

Definition hex_digit (n : N) : ascii :=
  nth (N.to_nat (n mod 16)) hex_digits "0"%char.

Fixpoint hex_of (k : nat) (n : N) (acc : string) : string :=
  match k with
  | O => acc
  | S k' => hex_of k' (n / 16) (String (hex_digit n) acc)
  end.

Definition generate (n : N) : ObjectId := Oid (hex_of 24 n EmptyString).

End Bson.

Abbreviation ObjectId := Bson.ObjectId.

(** ** datetime

    A [datetime] is a number of microseconds since 1970-01-01T00:00:00 and
    a [date] a number of days since 1970-01-01.  [datetime.min] is
    0001-01-01T00:00:00, [datetime.max] is 9999-12-31T23:59:59.999999, and
    a [timedelta] holds at most 999999999 days. *)

Module Datetime.

Definition datetime := Z.
Definition date := Z.
Definition timedelta := Z.

Definition us_per_day : Z := 86400 * 1000000.
Definition min : datetime := -719162 * us_per_day.
Definition max : datetime := 2932897 * us_per_day - 1.
Definition max_delta_days : Z := 999999999.

(** [timedelta(days=d)]: [None] stands for [OverflowError]. *)
Definition timedelta_days (d : Z) : option timedelta :=
  if (- max_delta_days <=? d) && (d <=? max_delta_days)
  then Some (d * us_per_day) else None.

(** [t + delta]: [None] stands for [OverflowError]. *)
Definition add (t : datetime) (delta : timedelta) : option datetime :=
  let r := t + delta in
  if (min <=? r) && (r <=? max) then Some r else None.

(** [t.date()] *)
Definition date_of (t : datetime) : date := t / us_per_day.

End Datetime.

Abbreviation datetime := Datetime.datetime.
Abbreviation date := Datetime.date.

(** ** Errors *)

Inductive error : Type :=
| HTTPException (status_code : Z) (detail : string)
| KeyError (key : string)
| OverflowError
| DuplicateKeyError
| ValidationError (fields : list string)
| OperationFailure.

(** The spec's names for the failures of the handlers. *)
Definition NotFound (detail : string) : error := HTTPException 404 detail.
Definition InvalidState (detail : string) : error := HTTPException 400 detail.
Definition InvalidInput : error := HTTPException 400 "Invalid ID format".

Inductive result (A : Type) : Type :=
| Ok (a : A)
| Raise (e : error).
Arguments Ok {A} a.
Arguments Raise {A} e.

(** ** schemas.py *)

Module Book.
Record t : Type := mk {
  title : string;
  author : string;
  isbn : option string;
  category : option string;
  total_copies : Z;
  available_copies : Z;
  tags : option (list string)
}.
End Book.

Module Member.
Record t : Type := mk {
  name : string;
  email : string;
  phone : option string;
  is_active : bool
}.
End Member.

(** [return_book] reads [book_id] with [loan.get], so a loan document may
    lack the field: [None] is that case. *)
Module Loan.
Record t : Type := mk {
  member_id : string;
  book_id : option string;
  due_date : option date;
  returned : bool
}.
End Loan.

(** ** The document store

    A stored document is the schema's fields with the [_id] the store gave
    it and the two timestamps; a collection keeps its documents in
    insertion order. *)

Record Stored (T : Type) : Type := mkStored {
  _id : ObjectId;
  fields : T;
  created_at : datetime;
  updated_at : datetime
}.
Arguments mkStored {T}.
Arguments _id {T}.
Arguments fields {T}.
Arguments created_at {T}.
Arguments updated_at {T}.

Record Database : Type := mkDatabase {
  book : list (Stored Book.t);
  member : list (Stored Member.t);
  loan : list (Stored Loan.t)
}.

(** What a handler runs in: the database, the clock that
    [datetime.utcnow()] reads ([clock k] is the k-th reading) and the
    count of identifiers handed out. *)
Record World : Type := mkWorld {
  db : Database;
  clock : nat -> datetime;
  tick : nat;
  next_oid : N
}.

(** ** Handlers as state transformers that may raise

    A raise keeps the writes made before it: the store has no
    transaction. *)

Definition M (A : Type) : Type := World -> result A * World.

Definition ret {A} (a : A) : M A := fun w => (Ok a, w).

Definition raise {A} (e : error) : M A := fun w => (Raise e, w).

Definition bind {A B} (m : M A) (k : A -> M B) : M B :=
  fun w =>
    match m w with
    | (Ok a, w') => k a w'
    | (Raise e, w') => (Raise e, w')
    end.

Notation "x <- m ;; k" := (bind m (fun x => k))
  (at level 61, m at next level, right associativity).
Notation "m ;;; k" := (bind m (fun _ => k))
  (at level 61, right associativity).

Definition get_db : M Database := fun w => (Ok (db w), w).

Definition put_db (d : Database) : M unit :=
  fun w => (Ok tt, mkWorld d (clock w) (tick w) (next_oid w)).

(** [datetime.utcnow()] *)
Definition utcnow : M datetime :=
  fun w => (Ok (clock w (tick w)),
            mkWorld (db w) (clock w) (S (tick w)) (next_oid w)).

Definition new_object_id : M ObjectId :=
  fun w => (Ok (Bson.generate (next_oid w)),
            mkWorld (db w) (clock w) (tick w) (N.succ (next_oid w))).

(** ** Collections (pymongo) *)

Section Collection.
Context {T : Type}.

(** The filter [{"_id": o}]. *)
Definition has_id (o : ObjectId) (d : Stored T) : bool :=
  Bson.eqb (_id d) o.

(** [find_one(filter)]: the first match in natural order. *)
Definition find_one (p : Stored T -> bool) (c : list (Stored T))
  : option (Stored T) := List.find p c.

(** [update_one(filter, update)]: rewrites the first match; the list
    with the number of documents matched. *)
Fixpoint update_one (p : Stored T -> bool) (f : Stored T -> Stored T)
         (c : list (Stored T)) : list (Stored T) * Z :=
  match c with
  | [] => ([], 0)
  | d :: c' =>
      if p d then (f d :: c', 1)
      else let '(c'', n) := update_one p f c' in (d :: c'', n)
  end.

(** [delete_one(filter)]: removes the first match; the list with the
    number of documents deleted. *)
Fixpoint delete_one (p : Stored T -> bool) (c : list (Stored T))
  : list (Stored T) * Z :=
  match c with
  | [] => ([], 0)
  | d :: c' =>
      if p d then (c', 1)
      else let '(c'', n) := delete_one p c' in (d :: c'', n)
  end.

(** [insert_one(doc)]: [_id] is unique in a collection, and [None]
    stands for [DuplicateKeyError]. *)
Definition insert_one (d : Stored T) (c : list (Stored T))
  : option (list (Stored T)) :=
  match find_one (has_id (_id d)) c with
  | Some _ => None
  | None => Some (c ++ [d])
  end.

(** [.sort("created_at", -1)]: newest first; documents created at
    the same time stay in natural order. *)
Fixpoint insert_desc (d : Stored T) (c : list (Stored T))
  : list (Stored T) :=
  match c with
  | [] => [d]
  | e :: c' =>
      if created_at e <=? created_at d then d :: e :: c'
      else e :: insert_desc d c'
  end.

Definition sort_created_desc (c : list (Stored T)) : list (Stored T) :=
  fold_right insert_desc [] c.

(** [.sort(key, 1)] on a text field: ascending by code units; documents
    with the same text stay in natural order. *)
Fixpoint insert_asc (key : Stored T -> string) (d : Stored T)
         (c : list (Stored T)) : list (Stored T) :=
  match c with
  | [] => [d]
  | e :: c' =>
      if String.leb (key d) (key e) then d :: e :: c'
      else e :: insert_asc key d c'
  end.

Definition sort_asc (key : Stored T -> string) (c : list (Stored T))
  : list (Stored T) :=
  fold_right (insert_asc key) [] c.

End Collection.

(** [db["book"]], [db["member"]] and [db["loan"]]: a collection of the
    database, read and written as a whole. *)
Record Collection (T : Type) : Type := mkCollection {
  docs : Database -> list (Stored T);
  with_docs : list (Stored T) -> Database -> Database
}.
Arguments docs {T}.
Arguments with_docs {T}.

Definition db_book : Collection Book.t :=
  mkCollection Book.t book (fun c d => mkDatabase c (member d) (loan d)).

Definition db_member : Collection Member.t :=
  mkCollection Member.t member (fun c d => mkDatabase (book d) c (loan d)).

Definition db_loan : Collection Loan.t :=
  mkCollection Loan.t loan (fun c d => mkDatabase (book d) (member d) c).

Section StoreCalls.
Context {T : Type} (coll : Collection T).

(** [find_one(filter)] *)
Definition find_one_in (p : Stored T -> bool) : M (option (Stored T)) :=
  d <- get_db ;; ret (find_one p (docs coll d)).

(** [find(filter)] *)
Definition find_in (p : Stored T -> bool) : M (list (Stored T)) :=
  d <- get_db ;; ret (filter p (docs coll d)).

(** The value is [matched_count]. *)
Definition update_one_in (p : Stored T -> bool)
           (f : Stored T -> Stored T) : M Z :=
  d <- get_db ;;
  let '(c, n) := update_one p f (docs coll d) in
  put_db (with_docs coll c d) ;;; ret n.

(** The value is [deleted_count]. *)
Definition delete_one_in (p : Stored T -> bool) : M Z :=
  d <- get_db ;;
  let '(c, n) := delete_one p (docs coll d) in
  put_db (with_docs coll c d) ;;; ret n.

(** Modelled from the spec: [database.create_document] is imported by
    [main.py] but its module is not part of the sources.  It is the
    store's [insertOne(collection, document) -> generatedId]: the
    document gets its creation time (the key the loan queries sort on)
    and update timestamp, the store gives it an identity, and the
    identity comes back as text. *)
Definition create_document (data : T) : M string :=
  now <- utcnow ;;
  o <- new_object_id ;;
  d <- get_db ;;
  match insert_one (mkStored o data now now) (docs coll d) with
  | None => raise DuplicateKeyError
  | Some c => put_db (with_docs coll c d) ;;; ret (Bson.str o)
  end.

End StoreCalls.

(** A loop over [l] that appends what [f] gives for each element. *)
Fixpoint for_each {A B : Type} (f : A -> M B) (l : list A) : M (list B) :=
  match l with
  | [] => ret []
  | x :: l' => y <- f x ;; ys <- for_each f l' ;; ret (y :: ys)
  end.

(** ** main.py: helpers *)

Definition to_object_id (id_str : string) : M ObjectId :=
  match Bson.parse id_str with
  | Some o => ret o
  | None => raise (HTTPException 400 "Invalid ID format")
  end.

(** A document as the handlers answer it: [_id] gives way to [id], its
    text.  [serialize] also renders every date and datetime value with
    [isoformat]; the rendering is one to one and the model keeps the
    value rendered. *)
Record Json (T : Type) : Type := mkJson {
  id : string;
  body : T;
  created : datetime;
  updated : datetime
}.
Arguments mkJson {T}.
Arguments id {T}.
Arguments body {T}.
Arguments created {T}.
Arguments updated {T}.

Definition serialize_doc {T} (d : Stored T) : Json T :=
  mkJson (Bson.str (_id d)) (fields d) (created_at d) (updated_at d).

(** [serialize(doc)]: [None] is answered as it is. *)
Definition serialize {T} (doc : option (Stored T)) : option (Json T) :=
  match doc with
  | None => None
  | Some d => Some (serialize_doc d)
  end.

(** ** main.py: request models *)

Module CreateBook.
Record t : Type := mk {
  title : string;
  author : string;
  isbn : option string;
  category : option string;
  total_copies : Z;
  available_copies : Z;
  tags : option (list string)
}.
End CreateBook.

Module UpdateBook.
Record t : Type := mk {
  title : option string;
  author : option string;
  isbn : option string;
  category : option string;
  total_copies : option Z;
  available_copies : option Z;
  tags : option (list string)
}.

(** One entry of the dictionary [model_dump(exclude_none=True)] builds. *)
Inductive entry : Type :=
| Title (v : string)
| Author (v : string)
| Isbn (v : string)
| Category (v : string)
| TotalCopies (v : Z)
| AvailableCopies (v : Z)
| Tags (v : list string).

Definition opt {A} (f : A -> entry) (o : option A) : list entry :=
  match o with
  | Some v => [f v]
  | None => []
  end.

Definition model_dump_exclude_none (p : t) : list entry :=
  opt Title (title p) ++ opt Author (author p) ++ opt Isbn (isbn p)
  ++ opt Category (category p) ++ opt TotalCopies (total_copies p)
  ++ opt AvailableCopies (available_copies p) ++ opt Tags (tags p).
End UpdateBook.

Module CreateMember.
Record t : Type := mk {
  name : string;
  email : string;
  phone : option string
}.
End CreateMember.

Module BorrowRequest.
Record t : Type := mk {
  member_id : string;
  book_id : string;
  days : Z
}.

(** The request as parsed from its body: [days] is 14 when left out. *)
Definition parse (member_id book_id : string) (days : option Z) : t :=
  mk member_id book_id (match days with Some d => d | None => 14 end).
End BorrowRequest.

Module ReturnRequest.
Record t : Type := mk { loan_id : string }.
End ReturnRequest.

(** ** main.py: updates sent to the store *)

(** [{"$set": {key: v}}] for one entry of an [UpdateBook] dictionary. *)
Definition set_entry (e : UpdateBook.entry) (b : Book.t) : Book.t :=
  match e with
  | UpdateBook.Title v =>
      Book.mk v (Book.author b) (Book.isbn b) (Book.category b)
              (Book.total_copies b) (Book.available_copies b) (Book.tags b)
  | UpdateBook.Author v =>
      Book.mk (Book.title b) v (Book.isbn b) (Book.category b)
              (Book.total_copies b) (Book.available_copies b) (Book.tags b)
  | UpdateBook.Isbn v =>
      Book.mk (Book.title b) (Book.author b) (Some v) (Book.category b)
              (Book.total_copies b) (Book.available_copies b) (Book.tags b)
  | UpdateBook.Category v =>
      Book.mk (Book.title b) (Book.author b) (Book.isbn b) (Some v)
              (Book.total_copies b) (Book.available_copies b) (Book.tags b)
  | UpdateBook.TotalCopies v =>
      Book.mk (Book.title b) (Book.author b) (Book.isbn b) (Book.category b)
              v (Book.available_copies b) (Book.tags b)
  | UpdateBook.AvailableCopies v =>
      Book.mk (Book.title b) (Book.author b) (Book.isbn b) (Book.category b)
              (Book.total_copies b) v (Book.tags b)
  | UpdateBook.Tags v =>
      Book.mk (Book.title b) (Book.author b) (Book.isbn b) (Book.category b)
              (Book.total_copies b) (Book.available_copies b) (Some v)
  end.

(** [{"$set": update}] where [update] also holds [updated_at]. *)
Definition set_update (update : list UpdateBook.entry) (now : datetime)
           (d : Stored Book.t) : Stored Book.t :=
  mkStored (_id d) (fold_left (fun b e => set_entry e b) update (fields d))
           (created_at d) now.

(** [{"$inc": {"available_copies": n}, "$set": {"updated_at": now}}] *)
Definition inc_available_copies (n : Z) (now : datetime)
           (d : Stored Book.t) : Stored Book.t :=
  let b := fields d in
  mkStored (_id d)
           (Book.mk (Book.title b) (Book.author b) (Book.isbn b)
                    (Book.category b) (Book.total_copies b)
                    (Book.available_copies b + n) (Book.tags b))
           (created_at d) now.

(** [{"$set": {"returned": True, "updated_at": now}}] *)
Definition set_returned (now : datetime) (d : Stored Loan.t)
  : Stored Loan.t :=
  let l := fields d in
  mkStored (_id d)
           (Loan.mk (Loan.member_id l) (Loan.book_id l) (Loan.due_date l)
                    true)
           (created_at d) now.

(** ** main.py: books *)

(** [BookSchema] built from the fields of the request: the schema
    declares both counts
    [ge=0], and the [ValidationError] names every field that fails. *)
Definition BookSchema (b : CreateBook.t) : M Book.t :=
  let failed :=
    (if CreateBook.total_copies b <? 0 then ["total_copies"] else [])
    ++ (if CreateBook.available_copies b <? 0
        then ["available_copies"] else []) in
  match failed with
  | [] =>
      ret (Book.mk (CreateBook.title b) (CreateBook.author b)
                   (CreateBook.isbn b) (CreateBook.category b)
                   (CreateBook.total_copies b)
                   (CreateBook.available_copies b) (CreateBook.tags b))
  | _ :: _ => raise (ValidationError failed)
  end.

Definition create_book (b : CreateBook.t) : M (option (Json Book.t)) :=
  doc <- BookSchema b ;;
  new_id <- create_document db_book doc ;;
  o <- to_object_id new_id ;;
  created <- find_one_in db_book (has_id o) ;;
  ret (serialize created).

Definition get_book (book_id : string) : M (option (Json Book.t)) :=
  o <- to_object_id book_id ;;
  doc <- find_one_in db_book (has_id o) ;;
  match doc with
  | None => raise (HTTPException 404 "Book not found")
  | Some _ => ret (serialize doc)
  end.

Definition update_book (book_id : string) (payload : UpdateBook.t)
  : M (option (Json Book.t)) :=
  let update := UpdateBook.model_dump_exclude_none payload in
  match update with
  | [] => get_book book_id
  | _ :: _ =>
      now <- utcnow ;;
      o <- to_object_id book_id ;;
      matched_count <- update_one_in db_book (has_id o)
                                     (set_update update now) ;;
      if matched_count =? 0
      then raise (HTTPException 404 "Book not found")
      else get_book book_id
  end.

Module Deleted.
Record t : Type := mk { status : string; id : string }.
End Deleted.

(** The filter [{"book_id": book_id, "returned": False}]. *)
Definition active_loan_of (book_id : string) (l : Stored Loan.t) : bool :=
  match Loan.book_id (fields l) with
  | Some s => String.eqb s book_id
  | None => false
  end && negb (Loan.returned (fields l)).

Definition delete_book (book_id : string) : M Deleted.t :=
  loan_exists <- find_one_in db_loan (active_loan_of book_id) ;;
  match loan_exists with
  | Some _ =>
      raise (HTTPException 400 "Cannot delete book with active loans")
  | None =>
      o <- to_object_id book_id ;;
      deleted_count <- delete_one_in db_book (has_id o) ;;
      if deleted_count =? 0
      then raise (HTTPException 404 "Book not found")
      else ret (Deleted.mk "deleted" book_id)
  end.

(** ** main.py: members *)

(** The filter [{"email": email}]. *)
Definition has_email (email : string) (m : Stored Member.t) : bool :=
  String.eqb (Member.email (fields m)) email.

Definition create_member (m : CreateMember.t)
  : M (option (Json Member.t)) :=
  existing <- find_one_in db_member (has_email (CreateMember.email m)) ;;
  match existing with
  | Some _ => ret (serialize existing)
  | None =>
      let doc :=
        Member.mk (CreateMember.name m) (CreateMember.email m)
                  (CreateMember.phone m) true in
      new_id <- create_document db_member doc ;;
      o <- to_object_id new_id ;;
      created <- find_one_in db_member (has_id o) ;;
      ret (serialize created)
  end.

(** ** main.py: loans *)

Module Enriched.
Record BookInfo : Type := mkBook { title : string; author : string }.
Record MemberInfo : Type := mkMember { name : string; email : string }.

(** A serialized loan with the two keys [active_loans] adds; [None] is
    the JSON null stored when the document looked up is absent. *)
Record t : Type := mk {
  loan : Json Loan.t;
  book : option BookInfo;
  member : option MemberInfo
}.
End Enriched.

(** The filter [{"returned": False}]. *)
Definition not_returned (l : Stored Loan.t) : bool :=
  negb (Loan.returned (fields l)).

(** [l["book_id"]] *)
Definition subscript_book_id (l : Stored Loan.t) : M string :=
  match Loan.book_id (fields l) with
  | Some s => ret s
  | None => raise (KeyError "book_id")
  end.

(** The body of the loop of [active_loans]. *)
Definition enrich (l : Stored Loan.t) : M Enriched.t :=
  book_id <- subscript_book_id l ;;
  b <- to_object_id book_id ;;
  book <- find_one_in db_book (has_id b) ;;
  m <- to_object_id (Loan.member_id (fields l)) ;;
  member <- find_one_in db_member (has_id m) ;;
  let book_info :=
    match book with
    | Some d => Some (Enriched.mkBook (Book.title (fields d))
                                      (Book.author (fields d)))
    | None => None
    end in
  let member_info :=
    match member with
    | Some d => Some (Enriched.mkMember (Member.name (fields d))
                                        (Member.email (fields d)))
    | None => None
    end in
  ret (Enriched.mk (serialize_doc l) book_info member_info).

Definition active_loans : M (list Enriched.t) :=
  found <- find_in db_loan not_returned ;;
  let loans := sort_created_desc found in
  for_each enrich loans.

(** [timedelta(days=d)] and [t + delta] as steps of a handler. *)
Definition timedelta (d : Z) : M Datetime.timedelta :=
  match Datetime.timedelta_days d with
  | Some delta => ret delta
  | None => raise OverflowError
  end.

Definition datetime_add (t : datetime) (delta : Datetime.timedelta)
  : M datetime :=
  match Datetime.add t delta with
  | Some r => ret r
  | None => raise OverflowError
  end.

Definition borrow_book (payload : BorrowRequest.t)
  : M (option (Json Loan.t)) :=
  b <- to_object_id (BorrowRequest.book_id payload) ;;
  book <- find_one_in db_book (has_id b) ;;
  match book with
  | None => raise (HTTPException 404 "Book not found")
  | Some bk =>
      if Book.available_copies (fields bk) <=? 0
      then raise (HTTPException 400 "No copies available")
      else
        m <- to_object_id (BorrowRequest.member_id payload) ;;
        member <- find_one_in db_member (has_id m) ;;
        match member with
        | None => raise (HTTPException 404 "Member not found")
        | Some _ =>
            now <- utcnow ;;
            delta <- timedelta (Z.max 1 (BorrowRequest.days payload)) ;;
            due <- datetime_add now delta ;;
            let loan_doc :=
              Loan.mk (BorrowRequest.member_id payload)
                      (Some (BorrowRequest.book_id payload))
                      (Some (Datetime.date_of due)) false in
            loan_id <- create_document db_loan loan_doc ;;
            b' <- to_object_id (BorrowRequest.book_id payload) ;;
            now' <- utcnow ;;
            update_one_in db_book (has_id b')
                          (inc_available_copies (-1) now') ;;;
            l <- to_object_id loan_id ;;
            created <- find_one_in db_loan (has_id l) ;;
            ret (serialize created)
        end
  end.

(** [if book_id:] holds for a text that is not empty. *)
Definition truthy (s : option string) : option string :=
  match s with
  | Some EmptyString => None
  | Some s' => Some s'
  | None => None
  end.

Definition return_book (payload : ReturnRequest.t)
  : M (option (Json Loan.t)) :=
  o <- to_object_id (ReturnRequest.loan_id payload) ;;
  loan <- find_one_in db_loan (has_id o) ;;
  match loan with
  | None => raise (HTTPException 404 "Loan not found")
  | Some l =>
      if Loan.returned (fields l) then ret (serialize loan)
      else
        o' <- to_object_id (ReturnRequest.loan_id payload) ;;
        now <- utcnow ;;
        update_one_in db_loan (has_id o') (set_returned now) ;;;
        match truthy (Loan.book_id (fields l)) with
        | Some book_id =>
            b <- to_object_id book_id ;;
            now' <- utcnow ;;
            update_one_in db_book (has_id b)
                          (inc_available_copies 1 now') ;;;
            ret tt
        | None => ret tt
        end ;;;
        o'' <- to_object_id (ReturnRequest.loan_id payload) ;;
        updated <- find_one_in db_loan (has_id o'') ;;
        ret (serialize updated)
  end.

(** ** main.py: the listings *)

Definition get_member_by_email (email : string)
  : M (option (Json Member.t)) :=
  m <- find_one_in db_member (has_email email) ;;
  match m with
  | None => raise (HTTPException 404 "Member not found")
  | Some _ => ret (serialize m)
  end.

Definition list_members : M (list (Json Member.t)) :=
  found <- find_in db_member (fun _ => true) ;;
  ret (map serialize_doc (sort_asc (fun d => Member.name (fields d)) found)).

(** The filter [list_loans] builds: [member_id] when it is given, and
    [returned] set to the opposite of [active] when that is given. *)
Definition loan_filter (member_id : option string) (active : option bool)
           (l : Stored Loan.t) : bool :=
  match truthy member_id with
  | Some m => String.eqb (Loan.member_id (fields l)) m
  | None => true
  end
  && match active with
     | Some a => Bool.eqb (Loan.returned (fields l)) (negb a)
     | None => true
     end.

Definition list_loans (member_id : option string) (active : option bool)
  : M (list (Json Loan.t)) :=
  found <- find_in db_loan (loan_filter member_id active) ;;
  ret (map serialize_doc (sort_created_desc found)).

Module BookLoan.
(** A serialized loan with the key [loans_by_email] adds. *)
Record t : Type := mk {
  loan : Json Loan.t;
  book : option Enriched.BookInfo
}.
End BookLoan.

(** The body of the loop of [loans_by_email]. *)
Definition enrich_book (l : Stored Loan.t) : M BookLoan.t :=
  book_id <- subscript_book_id l ;;
  b <- to_object_id book_id ;;
  book <- find_one_in db_book (has_id b) ;;
  let book_info :=
    match book with
    | Some d => Some (Enriched.mkBook (Book.title (fields d))
                                      (Book.author (fields d)))
    | None => None
    end in
  ret (BookLoan.mk (serialize_doc l) book_info).

(** The filter [{"member_id": member_id}]. *)
Definition loan_of_member (member_id : string) (l : Stored Loan.t) : bool :=
  String.eqb (Loan.member_id (fields l)) member_id.

Definition loans_by_email (email : string) : M (list BookLoan.t) :=
  member <- find_one_in db_member (has_email email) ;;
  match member with
  | None => raise (HTTPException 404 "Member not found")
  | Some m =>
      let member_id := Bson.str (_id m) in
      found <- find_in db_loan (loan_of_member member_id) ;;
      let loans := sort_created_desc found in
      for_each enrich_book loans
  end.

(** The store's regular expressions are not part of the sources:
    [regex q] is [None] when the store rejects the pattern [q], else the
    test "[q] is found in this text, whatever the letter case" that
    [{"$regex": q, "$options": "i"}] stands for. *)
Section Search.
Variable regex : string -> option (string -> bool).

(** The [$or] of the four tests of [list_books]; a field that is absent
    matches nothing, and [$elemMatch] asks for one tag that matches. *)
Definition book_matches (found_in : string -> bool) (d : Stored Book.t)
  : bool :=
  let b := fields d in
  found_in (Book.title b)
  || found_in (Book.author b)
  || match Book.category b with
     | Some c => found_in c
     | None => false
     end
  || match Book.tags b with
     | Some ts => existsb found_in ts
     | None => false
     end.

Definition list_books (q : option string) : M (list (Json Book.t)) :=
  filter_dict <-
    match truthy q with
    | None => ret (fun _ => true)
    | Some q' =>
        match regex q' with
        | Some found_in => ret (book_matches found_in)
        | None => raise OperationFailure
        end
    end ;;
  found <- find_in db_book filter_dict ;;
  ret (map serialize_doc (sort_asc (fun d => Book.title (fields d)) found)).

End Search.

(** ** Worlds a handler leaves behind *)

(** The world after one reading of the clock. *)
Definition advance (w : World) : World :=
  mkWorld (db w) (clock w) (S (tick w)) (next_oid w).

(** The world with another database. *)
Definition with_db (d : Database) (w : World) : World :=
  mkWorld d (clock w) (tick w) (next_oid w).

(** The world after the loan [o] is marked returned. *)
Definition marked_returned (o : ObjectId) (w : World) : World :=
  with_db (with_docs db_loan
             (fst (update_one (has_id o) (set_returned (clock w (tick w)))
                              (loan (db w))))
             (db w))
          (advance w).

(** The world after the book [b] gets one copy back. *)
Definition copy_given_back (b : ObjectId) (w : World) : World :=
  with_db (with_docs db_book
             (fst (update_one (has_id b)
                              (inc_available_copies 1 (clock w (tick w)))
                              (book (db w))))
             (db w))
          (advance w).

(** The loan [borrow_book] stores for the request [p] in the world
    [w]. *)
Definition new_loan (p : BorrowRequest.t) (w : World) : Stored Loan.t :=
  mkStored (Bson.generate (next_oid w))
           (Loan.mk (BorrowRequest.member_id p)
                    (Some (BorrowRequest.book_id p))
                    (Some (Datetime.date_of
                             (clock w (tick w)
                              + Z.max 1 (BorrowRequest.days p)
                                * Datetime.us_per_day)))
                    false)
           (clock w (S (tick w))) (clock w (S (tick w))).

(** The world after [borrow_book] lent a copy of the book [b]. *)
Definition lent (b : ObjectId) (p : BorrowRequest.t) (w : World) : World :=
  mkWorld
    (mkDatabase
       (fst (update_one (has_id b)
                        (inc_available_copies (-1) (clock w (S (S (tick w)))))
                        (book (db w))))
       (member (db w))
       (loan (db w) ++ [new_loan p w]))
    (clock w) (S (S (S (tick w)))) (N.succ (next_oid w)).

(** ** Vocabulary of the properties *)

(** The length of a loan in days as the spec words it: 14 when the
    request leaves [days] out, 1 when it gives 0 or less, else the number
    given. *)
Definition loan_days (days : option Z) : Z :=
  match days with
  | None => 14
  | Some d => if d <=? 0 then 1 else d
  end.

(** Two stored books that differ at most in [available_copies] and
    [updated_at]. *)
Definition same_book_but_copies (a b : Stored Book.t) : Prop :=
  _id a = _id b
  /\ created_at a = created_at b
  /\ Book.title (fields a) = Book.title (fields b)
  /\ Book.author (fields a) = Book.author (fields b)
  /\ Book.isbn (fields a) = Book.isbn (fields b)
  /\ Book.category (fields a) = Book.category (fields b)
  /\ Book.total_copies (fields a) = Book.total_copies (fields b)
  /\ Book.tags (fields a) = Book.tags (fields b).

(** Two stored loans that differ at most in [returned] and
    [updated_at]. *)
Definition same_loan_but_returned (a b : Stored Loan.t) : Prop :=
  _id a = _id b
  /\ created_at a = created_at b
  /\ Loan.member_id (fields a) = Loan.member_id (fields b)
  /\ Loan.book_id (fields a) = Loan.book_id (fields b)
  /\ Loan.due_date (fields a) = Loan.due_date (fields b).

(** The [UpdateBook] payload in which every field is absent. *)
Definition no_change : UpdateBook.t :=
  UpdateBook.mk None None None None None None None.

(** [a] was created no earlier than [b]. *)
Definition newer {T} (a b : Stored T) : Prop := created_at b <= created_at a.

(** A loan as [borrow_book] stores it: both references are the text of
    an identifier. *)
Definition loan_well_formed (l : Stored Loan.t) : Prop :=
  (exists s b, Loan.book_id (fields l) = Some s /\ Bson.parse s = Some b)
  /\ (exists m, Bson.parse (Loan.member_id (fields l)) = Some m).

Definition book_info (d : Stored Book.t) : Enriched.BookInfo :=
  Enriched.mkBook (Book.title (fields d)) (Book.author (fields d)).

Definition member_info (d : Stored Member.t) : Enriched.MemberInfo :=
  Enriched.mkMember (Member.name (fields d)) (Member.email (fields d)).

(** [e] is the loan [l] as answered, with the title and author of the
    book it names and the name and email of the member it names as the
    world [w] has them, or null where [w] has no such document. *)
Definition enriched_from (w : World) (l : Stored Loan.t) (e : Enriched.t)
  : Prop :=
  Enriched.loan e = serialize_doc l
  /\ exists s b m,
       Loan.book_id (fields l) = Some s
       /\ Bson.parse s = Some b
       /\ Bson.parse (Loan.member_id (fields l)) = Some m
       /\ Enriched.book e
          = option_map book_info (find_one (has_id b) (book (db w)))
       /\ Enriched.member e
          = option_map member_info (find_one (has_id m) (member (db w))).

(** The book [create_book] stores for the request [b] in the world
    [w]. *)
Definition new_book (b : CreateBook.t) (w : World) : Stored Book.t :=
  mkStored (Bson.generate (next_oid w))
           (Book.mk (CreateBook.title b) (CreateBook.author b)
                    (CreateBook.isbn b) (CreateBook.category b)
                    (CreateBook.total_copies b)
                    (CreateBook.available_copies b) (CreateBook.tags b))
           (clock w (tick w)) (clock w (tick w)).

(** The member [create_member] stores for the request [m] in the world
    [w]. *)
Definition new_member (m : CreateMember.t) (w : World) : Stored Member.t :=
  mkStored (Bson.generate (next_oid w))
           (Member.mk (CreateMember.name m) (CreateMember.email m)
                      (CreateMember.phone m) true)
           (clock w (tick w)) (clock w (tick w)).

(** The world after a document went into a collection. *)
Definition inserted {T} (c : Collection T) (d : Stored T) (w : World)
  : World :=
  mkWorld (with_docs c (docs c (db w) ++ [d]) (db w))
          (clock w) (S (tick w)) (N.succ (next_oid w)).

(** [a] comes no later than [b] in the order of the text [key]. *)
Definition text_le {T} (key : Stored T -> string) (a b : Stored T) : Prop :=
  String.leb (key a) (key b) = true.

(** A field after an update that may leave it alone. *)
Definition or_else {A} (new : option A) (old : A) : A :=
  match new with
  | Some v => v
  | None => old
  end.

Definition or_else_opt {A} (new old : option A) : option A :=
  match new with
  | Some v => Some v
  | None => old
  end.

(** ** Runs of borrows and returns *)

(** What a caller did and was answered. *)
Inductive event : Type :=
| Borrowed (payload : BorrowRequest.t) (answer : Json Loan.t)
| Returned (payload : ReturnRequest.t) (answer : Json Loan.t).

Definition answer (e : event) : Json Loan.t :=
  match e with
  | Borrowed _ a => a
  | Returned _ a => a
  end.

(** [runs w tr w']: the calls of [tr], made in order from [w], all
    succeed and end in [w']; every return in it is the first return of
    its loan, which is still out when the call is made. *)
Inductive runs : World -> list event -> World -> Prop :=
| runs_nil (w : World) : runs w [] w
| runs_borrow (w w1 w2 : World) (p : BorrowRequest.t) (a : Json Loan.t)
              (tr : list event) :
    borrow_book p w = (Ok (Some a), w1) ->
    runs w1 tr w2 ->
    runs w (Borrowed p a :: tr) w2
| runs_return (w w1 w2 : World) (p : ReturnRequest.t) (a : Json Loan.t)
              (o : ObjectId) (l : Stored Loan.t) (tr : list event) :
    Bson.parse (ReturnRequest.loan_id p) = Some o ->
    find_one (has_id o) (loan (db w)) = Some l ->
    Loan.returned (fields l) = false ->
    return_book p w = (Ok (Some a), w1) ->
    runs w1 tr w2 ->
    runs w (Returned p a :: tr) w2.

(** The identities of the loans the borrows of a run created, and of the
    loans its returns closed. *)
Fixpoint created_ids (tr : list event) : list string :=
  match tr with
  | [] => []
  | Borrowed _ a :: tr' => id a :: created_ids tr'
  | Returned _ _ :: tr' => created_ids tr'
  end.

Fixpoint returned_ids (tr : list event) : list string :=
  match tr with
  | [] => []
  | Borrowed _ _ :: tr' => returned_ids tr'
  | Returned _ a :: tr' => id a :: returned_ids tr'
  end.

(** The [book_id] of a loan is the text of the identifier [b]. *)
Definition names_book (b : ObjectId) (book_id : option string) : bool :=
  match book_id with
  | Some s =>
      match Bson.parse s with
      | Some o => Bson.eqb o b
      | None => false
      end
  | None => false
  end.

(** Copies of the book [b] given back less copies lent over a run. *)
Fixpoint net_copies (b : ObjectId) (tr : list event) : Z :=
  match tr with
  | [] => 0
  | Borrowed _ a :: tr' =>
      (if names_book b (Loan.book_id (body a)) then -1 else 0)
      + net_copies b tr'
  | Returned _ a :: tr' =>
      (if names_book b (Loan.book_id (body a)) then 1 else 0)
      + net_copies b tr'
  end.

(** The world [w] holds the loan answered as [a], under the book it was
    answered with. *)
Definition knows (w : World) (a : Json Loan.t) : Prop :=
  exists l,
    find_one (has_id (Bson.Oid (id a))) (loan (db w)) = Some l
    /\ Loan.book_id (fields l) = Loan.book_id (body a).

(** Whether the loan stored in [w] under the identity [i] names the book
    [b]. *)
Definition loan_names_book (w : World) (b : ObjectId) (i : string) : bool :=
  match find_one (has_id (Bson.Oid i)) (loan (db w)) with
  | Some l => names_book b (Loan.book_id (fields l))
  | None => false
  end.

(** ** Vocabulary of the further properties *)

(** The loans [list_loans] is asked for. *)
Definition asked_for (member_id : option string) (active : option bool)
           (l : Stored Loan.t) : Prop :=
  match member_id with
  | Some m => m = "" \/ Loan.member_id (fields l) = m
  | None => True
  end
  /\ match active with
     | Some a => Loan.returned (fields l) = negb a
     | None => True
     end.

(** A loan whose [book_id] is the text of an identifier. *)
Definition names_a_book (l : Stored Loan.t) : Prop :=
  exists s b, Loan.book_id (fields l) = Some s /\ Bson.parse s = Some b.

(** [e] is the loan [l] as answered, with the title and author of the
    book it names as the world [w] has them, or null where [w] has no
    such book. *)
Definition with_book_from (w : World) (l : Stored Loan.t) (e : BookLoan.t)
  : Prop :=
  BookLoan.loan e = serialize_doc l
  /\ exists s b,
       Loan.book_id (fields l) = Some s
       /\ Bson.parse s = Some b
       /\ BookLoan.book e
          = option_map book_info (find_one (has_id b) (book (db w))).

(** The open loans of [w] that name the book [b]. *)
Definition on_loan (b : ObjectId) (w : World) : Z :=
  Z.of_nat
    (List.length
       (filter (fun l => not_returned l
                         && names_book b (Loan.book_id (fields l)))
               (loan (db w)))).

(** A request that may write, and the world it leaves whether it
    succeeds or raises. *)
Inductive request : Type :=
| CreateBook (b : CreateBook.t)
| UpdateBook (book_id : string) (payload : UpdateBook.t)
| DeleteBook (book_id : string)
| CreateMember (m : CreateMember.t)
| Borrow (p : BorrowRequest.t)
| Return (p : ReturnRequest.t).

Definition handle (w : World) (r : request) : World :=
  match r with
  | CreateBook b => snd (create_book b w)
  | UpdateBook book_id payload => snd (update_book book_id payload w)
  | DeleteBook book_id => snd (delete_book book_id w)
  | CreateMember m => snd (create_member m w)
  | Borrow p => snd (borrow_book p w)
  | Return p => snd (return_book p w)
  end.

(** ** A small library to run the handlers on

    One book with one copy and one member, made by the handlers
    themselves; the copy is then lent and given back. *)

Module Sample.

Definition clock (k : nat) : datetime := Z.of_nat k + 1700000000000000.

Definition empty : World := mkWorld (mkDatabase [] [] []) clock 0 10.

Definition after {A} (m : M A) (w : World) : World := snd (m w).

Definition book_id : string := "00000000000000000000000a".
Definition member_id : string := "00000000000000000000000b".
Definition loan_id : string := "00000000000000000000000c".
Definition nobody : string := "0000000000000000000000ff".

(** The documents these runs store. *)
Definition emma : Stored Book.t :=
  mkStored (Bson.Oid book_id) (Book.mk "Emma" "Austen" None None 1 1 None)
           (clock 0) (clock 0).

Definition emma_lent : Stored Book.t :=
  mkStored (Bson.Oid book_id) (Book.mk "Emma" "Austen" None None 1 0 None)
           (clock 0) (clock 4).

Definition ada : Stored Member.t :=
  mkStored (Bson.Oid member_id)
           (Member.mk "Ada" "ada@example.org" None true)
           (clock 1) (clock 1).

Definition loan_out : Stored Loan.t :=
  mkStored (Bson.Oid loan_id)
           (Loan.mk member_id (Some book_id) (Some 19689) false)
           (clock 3) (clock 3).

Definition loan_back : Stored Loan.t :=
  mkStored (Bson.Oid loan_id)
           (Loan.mk member_id (Some book_id) (Some 19689) true)
           (clock 3) (clock 5).

Definition stocked : World :=
  after (create_member (CreateMember.mk "Ada" "ada@example.org" None))
        (after (create_book
                  (CreateBook.mk "Emma" "Austen" None None 1 1 None))
               empty).

Definition lent_out : World :=
  after (borrow_book (BorrowRequest.parse member_id book_id None)) stocked.

Definition given_back : World :=
  after (return_book (ReturnRequest.mk loan_id)) lent_out.

(** The same copy lent under the upper-case text of the book's
    identifier, and the book then deleted under the lower-case one. *)
Definition book_id_upper : string := "00000000000000000000000A".

Definition loan_out_upper : Stored Loan.t :=
  mkStored (Bson.Oid loan_id)
           (Loan.mk member_id (Some book_id_upper) (Some 19689) false)
           (clock 3) (clock 3).

Definition lent_out_upper : World :=
  after (borrow_book (BorrowRequest.parse member_id book_id_upper None))
        stocked.

Definition book_gone : World := after (delete_book book_id) lent_out_upper.

(** The library before anyone joined, and after the copy came back and
    the book was deleted. *)
Definition emma_request : CreateBook.t :=
  CreateBook.mk "Emma" "Austen" None None 1 1 None.

Definition ada_request : CreateMember.t :=
  CreateMember.mk "Ada" "ada@example.org" None.

Definition shelved : World := after (create_book emma_request) empty.

Definition emma_back : Stored Book.t :=
  mkStored (Bson.Oid book_id) (Book.mk "Emma" "Austen" None None 1 1 None)
           (clock 0) (clock 6).

Definition cleared : World := after (delete_book book_id) given_back.

(** A request for more days than a [timedelta] holds. *)
Definition for_ever : BorrowRequest.t :=
  BorrowRequest.parse member_id book_id (Some 1000000000).

(** A store filled by other means than the handlers: its one loan names
    its book by a title. *)
Definition stray_loan : Stored Loan.t :=
  mkStored (Bson.Oid loan_id) (Loan.mk member_id (Some "Emma") None false)
           (clock 3) (clock 3).

Definition imported : World :=
  mkWorld (mkDatabase [emma] [ada] [stray_loan]) clock 4 13.

(** The same store with a loan whose [book_id] is a text of 24
    characters that [bytes.fromhex] reads as two bytes. *)
Definition spaced : string := "00                    0a".

Definition spaced_loan : Stored Loan.t :=
  mkStored (Bson.Oid loan_id) (Loan.mk member_id (Some spaced) None false)
           (clock 3) (clock 3).

Definition spaced_loan_back : Stored Loan.t :=
  mkStored (Bson.Oid loan_id) (Loan.mk member_id (Some spaced) None true)
           (clock 3) (clock 4).

Definition imported_spaced : World :=
  mkWorld (mkDatabase [emma] [ada] [spaced_loan]) clock 4 13.

(** A second member, who joins while the copy is out. *)
Definition bob_request : CreateMember.t :=
  CreateMember.mk "Bob" "bob@example.org" (Some "555").

(** A day at the desk. *)
Definition a_day : list request :=
  [CreateBook emma_request;
   CreateMember ada_request;
   Borrow (BorrowRequest.parse member_id book_id None);
   Borrow (BorrowRequest.parse member_id book_id None);
   UpdateBook book_id (UpdateBook.mk None None None None None (Some (-2)) None);
   DeleteBook book_id;
   Return (ReturnRequest.mk loan_id);
   Return (ReturnRequest.mk nobody);
   DeleteBook book_id].

(** A matcher for queries without special characters: the query is
    found where it occurs, whatever the letter case; an open bracket
    alone is a pattern the store rejects. *)
Definition fold_case (c : ascii) : ascii :=
  let n := N_of_ascii c in
  if ((65 <=? n) && (n <=? 90))%N then ascii_of_N (n + 32) else c.

Fixpoint fold_cases (s : string) : string :=
  match s with
  | EmptyString => EmptyString
  | String c s' => String (fold_case c) (fold_cases s')
  end.

Fixpoint occurs (q s : string) : bool :=
  String.prefix q s
  || match s with
     | EmptyString => false
     | String _ s' => occurs q s'
     end.

Definition found_whatever_case (q s : string) : bool :=
  occurs (fold_cases q) (fold_cases s).

Definition plain_regex (q : string) : option (string -> bool) :=
  if String.eqb q "(" then None else Some (found_whatever_case q).

End Sample.

(** * Properties *)

(** ** Running a handler step by step *)

Lemma bind_run {A B} (m : M A) (k : A -> M B) (w : World) :
  bind m k w =
  match m w with
  | (Ok a, w') => k a w'
  | (Raise e, w') => (Raise e, w')
  end.
Proof. reflexivity. Qed.

Lemma bind_ok {A B} (m : M A) (k : A -> M B) (w w' : World) (a : A) :
  m w = (Ok a, w') -> bind m k w = k a w'.
Proof. intros H. unfold bind. now rewrite H. Qed.

Lemma bind_raise {A B} (m : M A) (k : A -> M B) (w w' : World) (e : error) :
  m w = (Raise e, w') -> bind m k w = (Raise e, w').
Proof. intros H. unfold bind. now rewrite H. Qed.

Lemma to_object_id_ok (s : string) (o : ObjectId) (w : World) :
  Bson.parse s = Some o -> to_object_id s w = (Ok o, w).
Proof. intros H. unfold to_object_id. now rewrite H. Qed.

Lemma to_object_id_invalid (s : string) (w : World) :
  Bson.parse s = None -> to_object_id s w = (Raise InvalidInput, w).
Proof. intros H. unfold to_object_id. now rewrite H. Qed.

Lemma find_one_in_run {T} (c : Collection T) (p : Stored T -> bool)
      (w : World) :
  find_one_in c p w = (Ok (find_one p (docs c (db w))), w).
Proof. reflexivity. Qed.

(** C1: [borrow_book] checks the book, then its copies, then the member.
    With a well-formed book id: no such book is NotFound; a book whose
    [available_copies] is not above 0 is InvalidState "No copies
    available", whatever its [total_copies] and whoever the member; a
    book with copies and a well-formed member id that names no member is
    NotFound.  Each failure leaves the world as it was: no loan is made
    and no book is touched. *)
Theorem borrow_book_checks (payload : BorrowRequest.t) (w : World)
        (b : ObjectId) :
  Bson.parse (BorrowRequest.book_id payload) = Some b ->
  (find_one (has_id b) (book (db w)) = None ->
   borrow_book payload w = (Raise (NotFound "Book not found"), w))
  /\ (forall bk,
        find_one (has_id b) (book (db w)) = Some bk ->
        Book.available_copies (fields bk) <= 0 ->
        borrow_book payload w
        = (Raise (InvalidState "No copies available"), w))
  /\ (forall bk m,
        find_one (has_id b) (book (db w)) = Some bk ->
        0 < Book.available_copies (fields bk) ->
        Bson.parse (BorrowRequest.member_id payload) = Some m ->
        find_one (has_id m) (member (db w)) = None ->
        borrow_book payload w = (Raise (NotFound "Member not found"), w)).
Proof.
  intros Hb. unfold borrow_book.
  rewrite (bind_ok _ _ _ _ _ (to_object_id_ok _ _ w Hb)).
  rewrite (bind_ok _ _ _ _ _ (find_one_in_run db_book (has_id b) w)).
  cbn [docs db_book].
  repeat split.
  - intros Hnone. now rewrite Hnone.
  - intros bk Hbk Hle. rewrite Hbk.
    destruct (Z.leb_spec (Book.available_copies (fields bk)) 0); [reflexivity | lia].
  - intros bk m Hbk Hlt Hm Hnone. rewrite Hbk.
    destruct (Z.leb_spec (Book.available_copies (fields bk)) 0); [lia |].
    rewrite (bind_ok _ _ _ _ _ (to_object_id_ok _ _ w Hm)).
    rewrite (bind_ok _ _ _ _ _ (find_one_in_run db_member (has_id m) w)).
    cbn [docs db_member]. now rewrite Hnone.
Qed.

(** ** Identifiers *)

Lemma oid_eqb_eq (a b : ObjectId) : Bson.eqb a b = true <-> a = b.
Proof.
  destruct a as [x], b as [y]. unfold Bson.eqb. cbn.
  rewrite String.eqb_eq. split; congruence.
Qed.

Lemma oid_eqb_refl (a : ObjectId) : Bson.eqb a a = true.
Proof. now apply oid_eqb_eq. Qed.

Lemma oid_eqb_neq (a b : ObjectId) : Bson.eqb a b = false <-> a <> b.
Proof.
  rewrite <- oid_eqb_eq. destruct (Bson.eqb a b); split; congruence.
Qed.

Lemma oid_eqb_sym (a b : ObjectId) : Bson.eqb a b = Bson.eqb b a.
Proof.
  destruct (Bson.eqb b a) eqn:E.
  - apply oid_eqb_eq in E. subst. apply oid_eqb_refl.
  - apply oid_eqb_neq. apply oid_eqb_neq in E. congruence.
Qed.

Lemma oid_str (o : ObjectId) : Bson.Oid (Bson.str o) = o.
Proof. now destruct o. Qed.

Lemma hex_digit_not_space (c : ascii) :
  Bson.is_hex_digit c = true -> Bson.is_space c = false.
Proof.
  destruct c as [[] [] [] [] [] [] [] []]; vm_compute; congruence.
Qed.

(** A text of digits, two a byte, reads as itself in lower case. *)
Lemma fromhex_all_hex (s : string) :
  (Bson.all_hex s = true -> Nat.even (String.length s) = true ->
   Bson.fromhex s = Some (Bson.lowercase s))
  /\ (forall c,
        Bson.all_hex (String c s) = true ->
        Nat.even (String.length (String c s)) = true ->
        Bson.fromhex (String c s) = Some (Bson.lowercase (String c s))).
Proof.
  induction s as [| c' s [IH IH']].
  - split; [reflexivity |]. intros c _ H. discriminate H.
  - split; [apply IH' |].
    intros c Hh He. cbn [Bson.all_hex] in Hh.
    apply andb_prop in Hh. destruct Hh as [H1 Hh].
    apply andb_prop in Hh. destruct Hh as [H2 Hh].
    change (Nat.even (String.length s) = true) in He.
    cbn [Bson.fromhex Bson.lowercase].
    rewrite (hex_digit_not_space _ H1), H1, H2, (IH Hh He).
    reflexivity.
Qed.

(** A text of 24 digits, in either case, is an identifier: the same
    digits in lower case. *)
Lemma parse_digits (s : string) :
  String.length s = 24%nat -> Bson.all_hex s = true ->
  Bson.parse s = Some (Bson.Oid (Bson.lowercase s)).
Proof.
  intros Hlen Hhex. unfold Bson.parse. rewrite Hlen.
  rewrite (proj1 (fromhex_all_hex s) Hhex); [reflexivity |].
  now rewrite Hlen.
Qed.

Lemma hex_digit_lower (n : N) :
  Bson.is_hex_digit (Bson.hex_digit n) = true
  /\ Bson.lower (Bson.hex_digit n) = Bson.hex_digit n.
Proof.
  unfold Bson.hex_digit.
  assert (Hall : Forall (fun c => Bson.is_hex_digit c = true
                                  /\ Bson.lower c = c)
                        ("0"%char :: Bson.hex_digits)).
  { repeat constructor. }
  rewrite Forall_forall in Hall. apply Hall.
  destruct (nth_in_or_default (N.to_nat (n mod 16)) Bson.hex_digits "0"%char)
    as [Hin | ->]; [now right | now left].
Qed.

Lemma hex_of_lower (k : nat) (n : N) (acc : string) :
  Bson.all_hex acc = true -> Bson.lowercase acc = acc ->
  Bson.all_hex (Bson.hex_of k n acc) = true
  /\ Bson.lowercase (Bson.hex_of k n acc) = Bson.hex_of k n acc
  /\ String.length (Bson.hex_of k n acc) = (k + String.length acc)%nat.
Proof.
  revert n acc. induction k as [| k IH]; intros n acc Hh Hl; cbn [Bson.hex_of].
  - auto.
  - destruct (hex_digit_lower n) as [H1 H2].
    destruct (IH (n / 16)%N (String (Bson.hex_digit n) acc)) as (A & B & C).
    + cbn [Bson.all_hex]. now rewrite H1, Hh.
    + cbn [Bson.lowercase]. now rewrite H2, Hl.
    + repeat split; auto. rewrite C. cbn [String.length]. lia.
Qed.

(** The text of a generated identifier reads back as that identifier. *)
Lemma parse_str_generate (n : N) :
  Bson.parse (Bson.str (Bson.generate n)) = Some (Bson.generate n).
Proof.
  unfold Bson.generate. cbn [Bson.str].
  destruct (hex_of_lower 24 n EmptyString eq_refl eq_refl) as (A & B & C).
  now rewrite (parse_digits _ C A), B.
Qed.

(** ** Collections *)

Section CollectionFacts.
Context {T : Type}.
Implicit Types (c : list (Stored T)) (d : Stored T) (o : ObjectId).
Implicit Types (p : Stored T -> bool) (f : Stored T -> Stored T).

Lemma find_one_app c1 c2 p :
  find_one p (c1 ++ c2) =
  match find_one p c1 with
  | Some d => Some d
  | None => find_one p c2
  end.
Proof.
  unfold find_one. induction c1 as [| d c1 IH]; cbn; [reflexivity |].
  now destruct (p d).
Qed.

Lemma find_one_some c p d : find_one p c = Some d -> In d c /\ p d = true.
Proof. apply find_some. Qed.

Lemma find_one_none c p :
  find_one p c = None -> forall d, In d c -> p d = false.
Proof. apply find_none. Qed.

Lemma find_one_has_id c o d : find_one (has_id o) c = Some d -> _id d = o.
Proof.
  intros H. apply find_one_some in H. destruct H as [_ H].
  now apply oid_eqb_eq in H.
Qed.

(** [matched_count] is 1 when [find_one] finds a document, else 0. *)
Lemma update_one_count c p f :
  snd (update_one p f c) =
  match find_one p c with Some _ => 1 | None => 0 end.
Proof.
  unfold find_one. induction c as [| d c IH]; cbn; [reflexivity |].
  destruct (p d); [reflexivity |].
  destruct (update_one p f c) as [c' n]. exact IH.
Qed.

Lemma update_one_none c p f :
  find_one p c = None -> fst (update_one p f c) = c.
Proof.
  unfold find_one. induction c as [| d c IH]; cbn; [reflexivity |].
  destruct (p d); [discriminate |]. intros H.
  specialize (IH H). destruct (update_one p f c) as [c' n]. cbn in *.
  now rewrite IH.
Qed.

(** The first match is rewritten in place and nothing else moves. *)
Lemma update_one_split c p f d :
  find_one p c = Some d ->
  exists c1 c2,
    c = c1 ++ d :: c2
    /\ fst (update_one p f c) = c1 ++ f d :: c2
    /\ (forall e, In e c1 -> p e = false).
Proof.
  unfold find_one. induction c as [| e c IH]; cbn; [discriminate |].
  destruct (p e) eqn:He.
  - intros [= ->]. exists [], c. cbn. intuition.
  - intros H. destruct (IH H) as (c1 & c2 & E1 & E2 & E3).
    exists (e :: c1), c2. destruct (update_one p f c) as [c' n].
    cbn in *. subst. split; [reflexivity |]. split; [reflexivity |].
    intros e' [<- | Hin]; auto.
Qed.

(** Reading by identifier after an update by identifier that keeps
    [_id]. *)
Lemma find_one_update_one c o o' f :
  (forall d, _id (f d) = _id d) ->
  find_one (has_id o') (fst (update_one (has_id o) f c)) =
  if Bson.eqb o o'
  then option_map f (find_one (has_id o) c)
  else find_one (has_id o') c.
Proof.
  intros Hf. unfold find_one.
  induction c as [| d c IH]; cbn.
  - now destruct (Bson.eqb o o').
  - destruct (has_id o d) eqn:Hd; cbn.
    + unfold has_id in *. rewrite Hf. apply oid_eqb_eq in Hd. rewrite Hd.
      now destruct (Bson.eqb o o').
    + destruct (update_one (has_id o) f c) as [c' n]. cbn in *.
      destruct (has_id o' d) eqn:Hd'.
      * destruct (Bson.eqb o o') eqn:Hoo; [| reflexivity].
        apply oid_eqb_eq in Hoo. congruence.
      * exact IH.
Qed.

Lemma delete_one_count c p :
  snd (delete_one p c) =
  match find_one p c with Some _ => 1 | None => 0 end.
Proof.
  unfold find_one. induction c as [| d c IH]; cbn; [reflexivity |].
  destruct (p d); [reflexivity |].
  destruct (delete_one p c) as [c' n]. exact IH.
Qed.

Lemma delete_one_none c p :
  find_one p c = None -> fst (delete_one p c) = c.
Proof.
  unfold find_one. induction c as [| d c IH]; cbn; [reflexivity |].
  destruct (p d); [discriminate |]. intros H.
  specialize (IH H). destruct (delete_one p c) as [c' n]. cbn in *.
  now rewrite IH.
Qed.

(** The first match is taken out and nothing else moves. *)
Lemma delete_one_split c p d :
  find_one p c = Some d ->
  exists c1 c2,
    c = c1 ++ d :: c2
    /\ fst (delete_one p c) = c1 ++ c2
    /\ (forall e, In e c1 -> p e = false).
Proof.
  unfold find_one. induction c as [| e c IH]; cbn; [discriminate |].
  destruct (p e) eqn:He.
  - intros [= ->]. exists [], c. cbn. intuition.
  - intros H. destruct (IH H) as (c1 & c2 & E1 & E2 & E3).
    exists (e :: c1), c2. destruct (delete_one p c) as [c' n].
    cbn in *. subst. split; [reflexivity |]. split; [reflexivity |].
    intros e' [<- | Hin]; auto.
Qed.

Lemma insert_one_some c c' d :
  insert_one d c = Some c' ->
  c' = c ++ [d] /\ find_one (has_id (_id d)) c = None.
Proof.
  unfold insert_one. destruct (find_one (has_id (_id d)) c); [discriminate |].
  intros [= <-]. auto.
Qed.

(** A document just inserted is the one its identifier finds. *)
Lemma find_one_inserted c d :
  find_one (has_id (_id d)) c = None ->
  find_one (has_id (_id d)) (c ++ [d]) = Some d.
Proof.
  intros H. rewrite find_one_app, H. cbn. unfold has_id.
  now rewrite oid_eqb_refl.
Qed.

End CollectionFacts.

(** ** Inverting a run that succeeded *)

Lemma bind_inv {A B} (m : M A) (k : A -> M B) (w w' : World) (r : B) :
  bind m k w = (Ok r, w') ->
  exists a w1, m w = (Ok a, w1) /\ k a w1 = (Ok r, w').
Proof.
  unfold bind. destruct (m w) as [[a | e] w1]; [eauto | discriminate].
Qed.

Lemma ret_inv {A} (a r : A) (w w' : World) :
  ret a w = (Ok r, w') -> r = a /\ w' = w.
Proof. unfold ret. intros [= <- <-]. auto. Qed.

Lemma to_object_id_inv (s : string) (w w' : World) (o : ObjectId) :
  to_object_id s w = (Ok o, w') -> Bson.parse s = Some o /\ w' = w.
Proof.
  unfold to_object_id. destruct (Bson.parse s); cbn; [| discriminate].
  intros [= <- <-]. auto.
Qed.

Lemma find_one_in_inv {T} (c : Collection T) (p : Stored T -> bool)
      (w w' : World) (x : option (Stored T)) :
  find_one_in c p w = (Ok x, w') ->
  x = find_one p (docs c (db w)) /\ w' = w.
Proof. cbn. intros [= <- <-]. auto. Qed.

Lemma utcnow_inv (w w' : World) (t : datetime) :
  utcnow w = (Ok t, w') -> t = clock w (tick w) /\ w' = advance w.
Proof. cbn. intros [= <- <-]. auto. Qed.

Lemma update_one_in_run {T} (c : Collection T) (p : Stored T -> bool)
      (f : Stored T -> Stored T) (w : World) :
  update_one_in c p f w =
  (Ok (snd (update_one p f (docs c (db w)))),
   with_db (with_docs c (fst (update_one p f (docs c (db w)))) (db w)) w).
Proof.
  unfold update_one_in, bind, get_db.
  now destruct (update_one p f (docs c (db w))).
Qed.

Lemma delete_one_in_run {T} (c : Collection T) (p : Stored T -> bool)
      (w : World) :
  delete_one_in c p w =
  (Ok (snd (delete_one p (docs c (db w)))),
   with_db (with_docs c (fst (delete_one p (docs c (db w)))) (db w)) w).
Proof.
  unfold delete_one_in, bind, get_db.
  now destruct (delete_one p (docs c (db w))).
Qed.

Lemma create_document_inv {T} (c : Collection T) (data : T)
      (w w' : World) (s : string) :
  create_document c data w = (Ok s, w') ->
  let o := Bson.generate (next_oid w) in
  let d := mkStored o data (clock w (tick w)) (clock w (tick w)) in
  find_one (has_id o) (docs c (db w)) = None
  /\ s = Bson.str o
  /\ w' = mkWorld (with_docs c (docs c (db w) ++ [d]) (db w))
                  (clock w) (S (tick w)) (N.succ (next_oid w)).
Proof.
  intros H o d. revert H.
  unfold create_document, bind, utcnow, new_object_id, get_db.
  cbv beta iota zeta. cbn [db clock tick next_oid].
  fold o. fold d.
  destruct (insert_one d (docs c (db w))) as [c' |] eqn:E;
    [| discriminate].
  apply insert_one_some in E. destruct E as [-> E].
  unfold put_db, ret. cbn [db clock tick next_oid].
  intros H. injection H as H1 H2. subst s w'.
  repeat split. exact E.
Qed.

Ltac inv_bind H :=
  let a := fresh "a" in
  let w1 := fresh "w" in
  let E := fresh "E" in
  apply bind_inv in H; destruct H as (a & w1 & E & H).

Ltac inv_oid H :=
  let a := fresh "o" in
  let w1 := fresh "w" in
  let E := fresh "E" in
  apply bind_inv in H; destruct H as (a & w1 & E & H);
  apply to_object_id_inv in E; destruct E as [E ->].

Ltac inv_find H :=
  let a := fresh "x" in
  let w1 := fresh "w" in
  let E := fresh "E" in
  apply bind_inv in H; destruct H as (a & w1 & E & H);
  apply find_one_in_inv in E; destruct E as [-> ->].

Ltac inv_now H :=
  let a := fresh "t" in
  let w1 := fresh "w" in
  let E := fresh "E" in
  apply bind_inv in H; destruct H as (a & w1 & E & H);
  apply utcnow_inv in E; destruct E as [-> ->].

Ltac inv_update H :=
  let a := fresh "n" in
  let w1 := fresh "w" in
  let E := fresh "E" in
  apply bind_inv in H; destruct H as (a & w1 & E & H);
  rewrite update_one_in_run in E; injection E as <- <-.

Lemma loan_days_max (d : Z) : Z.max 1 d = loan_days (Some d).
Proof. cbn. destruct (Z.leb_spec d 0); lia. Qed.

Lemma timedelta_inv (d : Z) (w w' : World) (delta : Datetime.timedelta) :
  timedelta d w = (Ok delta, w') ->
  delta = d * Datetime.us_per_day /\ w' = w.
Proof.
  unfold timedelta, Datetime.timedelta_days.
  destruct (_ && _); cbn; [| discriminate]. intros [= <- <-]. auto.
Qed.

Lemma datetime_add_inv (t : datetime) (delta : Datetime.timedelta)
      (w w' : World) (r : datetime) :
  datetime_add t delta w = (Ok r, w') -> r = t + delta /\ w' = w.
Proof.
  unfold datetime_add, Datetime.add.
  destruct (_ && _); cbn; [| discriminate]. intros [= <- <-]. auto.
Qed.

Lemma inc_available_copies_same (n : Z) (t : datetime) (d : Stored Book.t) :
  same_book_but_copies (inc_available_copies n t d) d.
Proof. unfold same_book_but_copies. cbn. intuition. Qed.

Lemma inc_available_copies_id (n : Z) (t : datetime) (d : Stored Book.t) :
  _id (inc_available_copies n t d) = _id d.
Proof. reflexivity. Qed.

Lemma set_returned_id (t : datetime) (d : Stored Loan.t) :
  _id (set_returned t d) = _id d.
Proof. reflexivity. Qed.

(** A [borrow_book] that succeeds, read backwards. *)
Lemma borrow_book_inv (p : BorrowRequest.t) (w w' : World)
      (r : option (Json Loan.t)) :
  borrow_book p w = (Ok r, w') ->
  exists (b : ObjectId) (bk : Stored Book.t),
    Bson.parse (BorrowRequest.book_id p) = Some b
    /\ find_one (has_id b) (book (db w)) = Some bk
    /\ find_one (has_id (_id (new_loan p w))) (loan (db w)) = None
    /\ r = Some (serialize_doc (new_loan p w))
    /\ w' = lent b p w.
Proof.
  intros H. unfold borrow_book in H.
  inv_oid H. inv_find H. cbn [docs db_book] in H.
  destruct (find_one (has_id o) (book (db w))) as [bk |] eqn:Hbk;
    [| discriminate].
  destruct (Book.available_copies (fields bk) <=? 0); [discriminate |].
  inv_oid H. inv_find H. cbn [docs db_member] in H.
  destruct (find_one (has_id o0) (member (db w))) as [mb |]; [| discriminate].
  inv_now H. inv_bind H. apply timedelta_inv in E1. destruct E1 as [-> ->].
  inv_bind H. apply datetime_add_inv in E1. destruct E1 as [-> ->].
  inv_bind H. apply create_document_inv in E1. cbv zeta in E1.
  destruct E1 as (Hfresh & -> & ->).
  inv_oid H. rewrite E in E1. injection E1 as <-.
  inv_now H. inv_update H. inv_oid H.
  rewrite parse_str_generate in E1. injection E1 as <-.
  inv_find H. apply ret_inv in H. destruct H as [-> ->].
  cbn [db advance with_db docs with_docs db_book db_loan book member loan
       clock tick next_oid] in *.
  fold (new_loan p w) in *.
  exists o, bk. repeat split; try assumption.
  change (Bson.generate (next_oid w)) with (_id (new_loan p w)).
  now rewrite (find_one_inserted _ (new_loan p w) Hfresh).
Qed.

Lemma utcnow_run (w : World) : utcnow w = (Ok (clock w (tick w)), advance w).
Proof. reflexivity. Qed.

Lemma create_document_run {T} (c : Collection T) (data : T) (w : World) :
  let o := Bson.generate (next_oid w) in
  let d := mkStored o data (clock w (tick w)) (clock w (tick w)) in
  find_one (has_id o) (docs c (db w)) = None ->
  create_document c data w
  = (Ok (Bson.str o),
     mkWorld (with_docs c (docs c (db w) ++ [d]) (db w))
             (clock w) (S (tick w)) (N.succ (next_oid w))).
Proof.
  intros o d Hfresh.
  unfold create_document, bind, utcnow, new_object_id, get_db.
  cbv beta iota zeta. cbn [db clock tick next_oid].
  fold o. fold d. unfold insert_one. cbn [_id d]. now rewrite Hfresh.
Qed.

(** When [borrow_book] succeeds: the book is there with a copy, the
    member is there, the due date is a date the calendar has, and the
    identity made up for the loan is not taken. *)
Lemma borrow_book_succeeds (p : BorrowRequest.t) (w : World)
      (b m : ObjectId) (bk : Stored Book.t) (mb : Stored Member.t)
      (delta : Datetime.timedelta) (due : datetime) :
  Bson.parse (BorrowRequest.book_id p) = Some b ->
  find_one (has_id b) (book (db w)) = Some bk ->
  0 < Book.available_copies (fields bk) ->
  Bson.parse (BorrowRequest.member_id p) = Some m ->
  find_one (has_id m) (member (db w)) = Some mb ->
  Datetime.timedelta_days (Z.max 1 (BorrowRequest.days p)) = Some delta ->
  Datetime.add (clock w (tick w)) delta = Some due ->
  find_one (has_id (Bson.generate (next_oid w))) (loan (db w)) = None ->
  borrow_book p w = (Ok (Some (serialize_doc (new_loan p w))), lent b p w).
Proof.
  intros Hb Hbk Hpos Hm Hmb Hdelta Hdue Hfresh. unfold borrow_book.
  rewrite (bind_ok _ _ _ _ _ (to_object_id_ok _ _ w Hb)).
  rewrite (bind_ok _ _ _ _ _ (find_one_in_run db_book (has_id b) w)).
  cbn [docs db_book]. rewrite Hbk.
  destruct (Z.leb_spec (Book.available_copies (fields bk)) 0); [lia |].
  rewrite (bind_ok _ _ _ _ _ (to_object_id_ok _ _ w Hm)).
  rewrite (bind_ok _ _ _ _ _ (find_one_in_run db_member (has_id m) w)).
  cbn [docs db_member]. rewrite Hmb.
  rewrite (bind_ok _ _ _ _ _ (utcnow_run w)).
  assert (Ht : timedelta (Z.max 1 (BorrowRequest.days p)) (advance w)
               = (Ok delta, advance w)).
  { unfold timedelta. now rewrite Hdelta. }
  rewrite (bind_ok _ _ _ _ _ Ht).
  assert (Ha : datetime_add (clock w (tick w)) delta (advance w)
               = (Ok due, advance w)).
  { unfold datetime_add. now rewrite Hdue. }
  rewrite (bind_ok _ _ _ _ _ Ha).
  assert (Hdate : due = clock w (tick w)
                        + Z.max 1 (BorrowRequest.days p)
                          * Datetime.us_per_day).
  { unfold Datetime.timedelta_days in Hdelta.
    destruct (_ && _) in Hdelta; [| discriminate]. injection Hdelta as <-.
    unfold Datetime.add in Hdue.
    destruct (_ && _) in Hdue; [| discriminate]. now injection Hdue as <-. }
  subst due.
  rewrite (bind_ok _ _ _ _ _
             (create_document_run db_loan _ (advance w) Hfresh)).
  cbn [advance db clock tick next_oid docs with_docs db_loan].
  fold (new_loan p w).
  rewrite (bind_ok _ _ _ _ _ (to_object_id_ok _ _ _ Hb)).
  rewrite (bind_ok _ _ _ _ _ (utcnow_run _)).
  rewrite (bind_ok _ _ _ _ _ (update_one_in_run db_book _ _ _)).
  rewrite (bind_ok _ _ _ _ _
             (to_object_id_ok _ _ _ (parse_str_generate (next_oid w)))).
  rewrite (bind_ok _ _ _ _ _ (find_one_in_run db_loan _ _)).
  cbn [advance with_db db clock tick next_oid docs with_docs db_loan
       db_book book member loan].
  change (Bson.generate (next_oid w)) with (_id (new_loan p w)).
  rewrite (find_one_inserted _ (new_loan p w) Hfresh).
  reflexivity.
Qed.

(** C2: a [borrow_book] that succeeds appends one loan that is not
    returned, is due on the date of the current time plus the days of
    the loan (14 when the request leaves them out, 1 when it gives 0 or
    less), and carries the two identifiers of the request; the book
    named loses exactly one available copy and has its update timestamp
    stamped, nothing else about it or any other book changes; and the
    answer is the new loan under its generated identity. *)
Theorem borrow_book_effect (member_id book_id : string) (days : option Z)
        (w w' : World) (r : option (Json Loan.t)) :
  borrow_book (BorrowRequest.parse member_id book_id days) w = (Ok r, w') ->
  exists (b : ObjectId) (bk bk' : Stored Book.t) (c1 c2 : list (Stored Book.t))
         (new : Stored Loan.t),
    Bson.parse book_id = Some b
    /\ find_one (has_id b) (book (db w)) = Some bk
    /\ loan (db w') = loan (db w) ++ [new]
    /\ find_one (has_id (_id new)) (loan (db w)) = None
    /\ Loan.returned (fields new) = false
    /\ Loan.due_date (fields new)
       = Some (Datetime.date_of
                 (clock w (tick w) + loan_days days * Datetime.us_per_day))
    /\ Loan.member_id (fields new) = member_id
    /\ Loan.book_id (fields new) = Some book_id
    /\ r = Some (mkJson (Bson.str (_id new)) (fields new)
                        (created_at new) (updated_at new))
    /\ book (db w) = c1 ++ bk :: c2
    /\ book (db w') = c1 ++ bk' :: c2
    /\ Book.available_copies (fields bk')
       = Book.available_copies (fields bk) - 1
    /\ (exists k, (tick w <= k < tick w')%nat
                  /\ updated_at bk' = clock w k)
    /\ same_book_but_copies bk' bk
    /\ member (db w') = member (db w).
Proof.
  intros H. apply borrow_book_inv in H.
  destruct H as (b & bk & Hb & Hbk & Hfresh & -> & ->).
  cbn [BorrowRequest.parse BorrowRequest.book_id] in Hb.
  destruct (update_one_split (book (db w)) (has_id b)
              (inc_available_copies (-1) (clock w (S (S (tick w))))) bk Hbk)
    as (c1 & c2 & Hc & Hc' & _).
  exists b, bk, (inc_available_copies (-1) (clock w (S (S (tick w)))) bk),
    c1, c2, (new_loan (BorrowRequest.parse member_id book_id days) w).
  repeat split; try assumption; try reflexivity.
  - cbn. f_equal. f_equal. destruct days as [d |]; [| reflexivity].
    now rewrite loan_days_max.
  - exists (S (S (tick w))). cbn [lent tick]. split; [lia | reflexivity].
Qed.

(** ** Returning a loan *)

(** [return_book] on a loan that is not returned yet, step by step. *)
Lemma return_book_run (payload : ReturnRequest.t) (w : World)
      (o : ObjectId) (l : Stored Loan.t) :
  Bson.parse (ReturnRequest.loan_id payload) = Some o ->
  find_one (has_id o) (loan (db w)) = Some l ->
  Loan.returned (fields l) = false ->
  return_book payload w =
  let w1 := marked_returned o w in
  match truthy (Loan.book_id (fields l)) with
  | None => (Ok (serialize (find_one (has_id o) (loan (db w1)))), w1)
  | Some s =>
      match Bson.parse s with
      | None => (Raise InvalidInput, w1)
      | Some b =>
          let w2 := copy_given_back b w1 in
          (Ok (serialize (find_one (has_id o) (loan (db w2)))), w2)
      end
  end.
Proof.
  intros Ho Hl Hr. unfold return_book.
  rewrite (bind_ok _ _ _ _ _ (to_object_id_ok _ _ w Ho)).
  rewrite (bind_ok _ _ _ _ _ (find_one_in_run db_loan (has_id o) w)).
  cbn [docs db_loan]. rewrite Hl, Hr.
  rewrite (bind_ok _ _ _ _ _ (to_object_id_ok _ _ w Ho)).
  rewrite (bind_ok _ _ _ _ _ (utcnow_run w)).
  rewrite (bind_ok _ _ _ _ _ (update_one_in_run db_loan _ _ (advance w))).
  cbv zeta. fold (marked_returned o w).
  destruct (truthy (Loan.book_id (fields l))) as [s |].
  - destruct (Bson.parse s) as [b |] eqn:Hs.
    + rewrite (bind_ok _ _ (marked_returned o w) (copy_given_back b (marked_returned o w)) tt).
      * rewrite (bind_ok _ _ _ _ _ (to_object_id_ok _ _ _ Ho)).
        now rewrite (bind_ok _ _ _ _ _ (find_one_in_run db_loan (has_id o) _)).
      * rewrite (bind_ok _ _ _ _ _ (to_object_id_ok _ _ _ Hs)).
        rewrite (bind_ok _ _ _ _ _ (utcnow_run _)).
        now rewrite (bind_ok _ _ _ _ _ (update_one_in_run db_book _ _ _)).
    + erewrite bind_raise; [reflexivity |].
      erewrite bind_raise; [reflexivity |].
      now apply to_object_id_invalid.
  - rewrite (bind_ok _ _ (marked_returned o w) (marked_returned o w) tt eq_refl).
    rewrite (bind_ok _ _ _ _ _ (to_object_id_ok _ _ _ Ho)).
    now rewrite (bind_ok _ _ _ _ _ (find_one_in_run db_loan (has_id o) _)).
Qed.

Lemma marked_returned_find (o : ObjectId) (w : World) (l : Stored Loan.t) :
  find_one (has_id o) (loan (db w)) = Some l ->
  find_one (has_id o) (loan (db (marked_returned o w)))
  = Some (set_returned (clock w (tick w)) l).
Proof.
  intros H. cbn [marked_returned with_db db with_docs db_loan loan].
  rewrite (find_one_update_one _ o o _ (set_returned_id _)).
  now rewrite oid_eqb_refl, H.
Qed.

Lemma marked_returned_split (o : ObjectId) (w : World) (l : Stored Loan.t) :
  find_one (has_id o) (loan (db w)) = Some l ->
  exists c1 c2,
    loan (db w) = c1 ++ l :: c2
    /\ loan (db (marked_returned o w))
       = c1 ++ set_returned (clock w (tick w)) l :: c2.
Proof.
  intros H.
  destruct (update_one_split _ _ (set_returned (clock w (tick w))) _ H)
    as (c1 & c2 & H1 & H2 & _).
  exists c1, c2. split; [exact H1 | exact H2].
Qed.

Lemma parse_truthy (s : string) (b : ObjectId) :
  Bson.parse s = Some b -> truthy (Some s) = Some s.
Proof. destruct s; [discriminate | reflexivity]. Qed.

Lemma set_returned_same (t : datetime) (l : Stored Loan.t) :
  same_loan_but_returned (set_returned t l) l.
Proof. unfold same_loan_but_returned. cbn. intuition. Qed.

(** C4: with a well-formed loan id, [return_book] is NotFound when no
    loan has it; on a loan that is not returned and whose book exists it
    succeeds, sets [returned] and stamps the loan's update timestamp, adds
    exactly one to the book's [available_copies] and stamps the book's
    update timestamp, touches nothing else, and answers the loan as
    updated. *)
Theorem return_book_effect (payload : ReturnRequest.t) (w : World)
        (o : ObjectId) :
  Bson.parse (ReturnRequest.loan_id payload) = Some o ->
  (find_one (has_id o) (loan (db w)) = None ->
   return_book payload w = (Raise (NotFound "Loan not found"), w))
  /\ (forall l s b bk,
        find_one (has_id o) (loan (db w)) = Some l ->
        Loan.returned (fields l) = false ->
        Loan.book_id (fields l) = Some s ->
        Bson.parse s = Some b ->
        find_one (has_id b) (book (db w)) = Some bk ->
        exists l' bk' c1 c2 d1 d2 w',
          return_book payload w = (Ok (Some (serialize_doc l')), w')
          /\ loan (db w) = c1 ++ l :: c2
          /\ loan (db w') = c1 ++ l' :: c2
          /\ Loan.returned (fields l') = true
          /\ updated_at l' = clock w (tick w)
          /\ same_loan_but_returned l' l
          /\ book (db w) = d1 ++ bk :: d2
          /\ book (db w') = d1 ++ bk' :: d2
          /\ Book.available_copies (fields bk')
             = Book.available_copies (fields bk) + 1
          /\ updated_at bk' = clock w (S (tick w))
          /\ same_book_but_copies bk' bk
          /\ member (db w') = member (db w)).
Proof.
  intros Ho. split.
  - intros Hnone. unfold return_book.
    rewrite (bind_ok _ _ _ _ _ (to_object_id_ok _ _ w Ho)).
    rewrite (bind_ok _ _ _ _ _ (find_one_in_run db_loan (has_id o) w)).
    cbn [docs db_loan]. now rewrite Hnone.
  - intros l s b bk Hl Hr Hs Hb Hbk.
    rewrite (return_book_run payload w o l Ho Hl Hr). cbv zeta.
    rewrite Hs, (parse_truthy s b Hb), Hb.
    destruct (marked_returned_split o w l Hl) as (c1 & c2 & Hc & Hc').
    assert (Hbk1 : find_one (has_id b) (book (db (marked_returned o w)))
                   = Some bk) by exact Hbk.
    destruct (update_one_split _ _
                (inc_available_copies 1 (clock w (S (tick w)))) _ Hbk1)
      as (d1 & d2 & Hd & Hd' & _).
    exists (set_returned (clock w (tick w)) l),
      (inc_available_copies 1 (clock w (S (tick w))) bk), c1, c2, d1, d2,
      (copy_given_back b (marked_returned o w)).
    split.
    { change (loan (db (copy_given_back b (marked_returned o w))))
        with (loan (db (marked_returned o w))).
      now rewrite (marked_returned_find o w l Hl). }
    repeat split; try assumption; try reflexivity.
Qed.

(** C9: [return_book] on a loan that is not returned succeeds all the
    same when the loan has no [book_id], or when its [book_id] names no
    book: the loan is marked returned and answered, and the book
    collection is left exactly as it was. *)
Theorem return_book_without_book (payload : ReturnRequest.t) (w : World)
        (o : ObjectId) (l : Stored Loan.t) :
  Bson.parse (ReturnRequest.loan_id payload) = Some o ->
  find_one (has_id o) (loan (db w)) = Some l ->
  Loan.returned (fields l) = false ->
  Loan.book_id (fields l) = None
  \/ (exists s b,
        Loan.book_id (fields l) = Some s
        /\ Bson.parse s = Some b
        /\ find_one (has_id b) (book (db w)) = None) ->
  exists l' c1 c2 w',
    return_book payload w = (Ok (Some (serialize_doc l')), w')
    /\ loan (db w) = c1 ++ l :: c2
    /\ loan (db w') = c1 ++ l' :: c2
    /\ Loan.returned (fields l') = true
    /\ same_loan_but_returned l' l
    /\ book (db w') = book (db w)
    /\ member (db w') = member (db w).
Proof.
  intros Ho Hl Hr Hcase.
  rewrite (return_book_run payload w o l Ho Hl Hr). cbv zeta.
  destruct (marked_returned_split o w l Hl) as (c1 & c2 & Hc & Hc').
  exists (set_returned (clock w (tick w)) l), c1, c2.
  destruct Hcase as [Hnone | (s & b & Hs & Hb & Hbk)].
  - rewrite Hnone. cbn [truthy].
    exists (marked_returned o w).
    rewrite (marked_returned_find o w l Hl).
    repeat split; try assumption; reflexivity.
  - rewrite Hs, (parse_truthy s b Hb), Hb.
    exists (copy_given_back b (marked_returned o w)).
    split.
    { change (loan (db (copy_given_back b (marked_returned o w))))
        with (loan (db (marked_returned o w))).
      now rewrite (marked_returned_find o w l Hl). }
    repeat split; try assumption; try reflexivity.
    cbn [copy_given_back with_db db with_docs db_book book].
    apply update_one_none. exact Hbk.
Qed.

(** [return_book] on a loan already returned: the loan as it is, and
    the world as it was. *)
Lemma return_book_returned (payload : ReturnRequest.t) (w : World)
      (o : ObjectId) (l : Stored Loan.t) :
  Bson.parse (ReturnRequest.loan_id payload) = Some o ->
  find_one (has_id o) (loan (db w)) = Some l ->
  Loan.returned (fields l) = true ->
  return_book payload w = (Ok (Some (serialize_doc l)), w).
Proof.
  intros Ho Hl Hr. unfold return_book.
  rewrite (bind_ok _ _ _ _ _ (to_object_id_ok _ _ w Ho)).
  rewrite (bind_ok _ _ _ _ _ (find_one_in_run db_loan (has_id o) w)).
  cbn [docs db_loan]. now rewrite Hl, Hr.
Qed.

(** A [return_book] that succeeds leaves the loan returned, and answers
    it. *)
Lemma return_book_ok_returned (payload : ReturnRequest.t) (w w1 : World)
      (r : option (Json Loan.t)) :
  return_book payload w = (Ok r, w1) ->
  exists o l,
    Bson.parse (ReturnRequest.loan_id payload) = Some o
    /\ find_one (has_id o) (loan (db w1)) = Some l
    /\ Loan.returned (fields l) = true
    /\ r = Some (serialize_doc l).
Proof.
  intros H.
  destruct (Bson.parse (ReturnRequest.loan_id payload)) as [o |] eqn:Ho.
  2:{ unfold return_book in H.
      rewrite (bind_raise _ _ _ _ _ (to_object_id_invalid _ w Ho)) in H.
      discriminate. }
  destruct (find_one (has_id o) (loan (db w))) as [l |] eqn:Hl.
  2:{ unfold return_book in H.
      rewrite (bind_ok _ _ _ _ _ (to_object_id_ok _ _ w Ho)) in H.
      rewrite (bind_ok _ _ _ _ _ (find_one_in_run db_loan (has_id o) w)) in H.
      cbn [docs db_loan] in H. rewrite Hl in H. discriminate. }
  destruct (Loan.returned (fields l)) eqn:Hr.
  - rewrite (return_book_returned payload w o l Ho Hl Hr) in H.
    injection H as <- <-. exists o, l. auto.
  - rewrite (return_book_run payload w o l Ho Hl Hr) in H. cbv zeta in H.
    pose proof (marked_returned_find o w l Hl) as Hl1.
    exists o, (set_returned (clock w (tick w)) l).
    destruct (truthy (Loan.book_id (fields l))) as [s |].
    + destruct (Bson.parse s) as [b |]; [| discriminate].
      change (loan (db (copy_given_back b (marked_returned o w))))
        with (loan (db (marked_returned o w))) in H.
      rewrite Hl1 in H. injection H as <- <-. auto.
    + rewrite Hl1 in H. injection H as <- <-. auto.
Qed.

(** C3: [return_book] on a loan already returned answers the loan as it
    is and leaves the world as it was, so nothing is written and no copy
    is added; a second [return_book] after one that succeeded answers the
    same and changes nothing; and so two calls in a row on a loan that was
    out add one copy to its book, not two. *)
Theorem return_book_idempotent (payload : ReturnRequest.t) (w : World) :
  (forall o l,
      Bson.parse (ReturnRequest.loan_id payload) = Some o ->
      find_one (has_id o) (loan (db w)) = Some l ->
      Loan.returned (fields l) = true ->
      return_book payload w = (Ok (Some (serialize_doc l)), w))
  /\ (forall r w1,
        return_book payload w = (Ok r, w1) ->
        return_book payload w1 = (Ok r, w1)
        /\ (return_book payload ;;; return_book payload) w = (Ok r, w1))
  /\ (forall o l s b bk,
        Bson.parse (ReturnRequest.loan_id payload) = Some o ->
        find_one (has_id o) (loan (db w)) = Some l ->
        Loan.returned (fields l) = false ->
        Loan.book_id (fields l) = Some s ->
        Bson.parse s = Some b ->
        find_one (has_id b) (book (db w)) = Some bk ->
        exists r w2 bk',
          (return_book payload ;;; return_book payload) w = (Ok r, w2)
          /\ find_one (has_id b) (book (db w2)) = Some bk'
          /\ Book.available_copies (fields bk')
             = Book.available_copies (fields bk) + 1).
Proof.
  assert (Htwice : forall r w1,
             return_book payload w = (Ok r, w1) ->
             return_book payload w1 = (Ok r, w1)).
  { intros r w1 H.
    destruct (return_book_ok_returned payload w w1 r H)
      as (o & l & Ho & Hl & Hr & ->).
    now apply return_book_returned with (o := o). }
  split; [| split].
  - intros o l. apply return_book_returned.
  - intros r w1 H. split; [now apply Htwice |].
    rewrite (bind_ok _ _ _ _ _ H). now apply Htwice.
  - intros o l s b bk Ho Hl Hr Hs Hb Hbk.
    pose proof (return_book_run payload w o l Ho Hl Hr) as Hrun.
    cbv zeta in Hrun. rewrite Hs, (parse_truthy s b Hb), Hb in Hrun.
    eexists _, _, (inc_available_copies 1 (clock w (S (tick w))) bk).
    split; [| split].
    + rewrite (bind_ok _ _ _ _ _ Hrun). apply Htwice. exact Hrun.
    + cbn [copy_given_back marked_returned with_db advance db with_docs
           db_book db_loan book clock tick].
      rewrite (find_one_update_one _ b b _ (inc_available_copies_id _ _)).
      now rewrite oid_eqb_refl, Hbk.
    + reflexivity.
Qed.

(** ** Members and books *)

Lemma find_one_exists {T} (p : Stored T -> bool) (c : list (Stored T)) :
  (exists d, In d c /\ p d = true) <-> (exists d, find_one p c = Some d).
Proof.
  split.
  - intros (d & Hin & Hp).
    destruct (find_one p c) as [e |] eqn:E; [eauto |].
    pose proof (find_one_none c p E d Hin). congruence.
  - intros (d & H). exists d. now apply find_one_some.
Qed.

(** C8: [create_member] with an email some stored member already has
    answers a stored member with that email and leaves the world as it
    was: nothing is inserted, nothing is updated, and the name and phone
    of the request go nowhere. *)
Theorem create_member_existing_email (m : CreateMember.t) (w : World) :
  (exists e0, In e0 (member (db w))
              /\ Member.email (fields e0) = CreateMember.email m) ->
  exists e,
    In e (member (db w))
    /\ Member.email (fields e) = CreateMember.email m
    /\ create_member m w = (Ok (Some (serialize_doc e)), w).
Proof.
  intros (e0 & Hin & Hemail).
  destruct (proj1 (find_one_exists (has_email (CreateMember.email m))
                                   (member (db w)))) as (e & He).
  { exists e0. split; [exact Hin |]. unfold has_email.
    now apply String.eqb_eq. }
  exists e. destruct (find_one_some _ _ _ He) as [Hin' Hp].
  split; [exact Hin' |]. split; [now apply String.eqb_eq in Hp |].
  unfold create_member.
  rewrite (bind_ok _ _ _ _ _ (find_one_in_run db_member _ w)).
  cbn [docs db_member]. now rewrite He.
Qed.

Lemma active_loan_of_spec (book_id : string) (l : Stored Loan.t) :
  active_loan_of book_id l = true
  <-> Loan.book_id (fields l) = Some book_id
      /\ Loan.returned (fields l) = false.
Proof.
  unfold active_loan_of.
  destruct (Loan.book_id (fields l)) as [s |],
           (Loan.returned (fields l)); cbn [negb];
    rewrite ?andb_true_r, ?andb_false_r.
  - split; [discriminate | intros [_ H]; discriminate].
  - rewrite String.eqb_eq. split.
    + intros ->. auto.
    + intros [[= ->] _]. reflexivity.
  - split; [discriminate | intros [H _]; discriminate].
  - split; [discriminate | intros [H _]; discriminate].
Qed.

Lemma with_db_same (w : World) :
  with_db (mkDatabase (book (db w)) (member (db w)) (loan (db w))) w = w.
Proof. destruct w as [[b m l] c t n]. reflexivity. Qed.

(** [delete_book], step by step. *)
Lemma delete_book_run (book_id : string) (w : World) :
  delete_book book_id w =
  match find_one (active_loan_of book_id) (loan (db w)) with
  | Some _ =>
      (Raise (InvalidState "Cannot delete book with active loans"), w)
  | None =>
      match Bson.parse book_id with
      | None => (Raise InvalidInput, w)
      | Some b =>
          match find_one (has_id b) (book (db w)) with
          | None => (Raise (NotFound "Book not found"), w)
          | Some _ =>
              (Ok (Deleted.mk "deleted" book_id),
               with_db (with_docs db_book
                          (fst (delete_one (has_id b) (book (db w))))
                          (db w)) w)
          end
      end
  end.
Proof.
  unfold delete_book.
  rewrite (bind_ok _ _ _ _ _ (find_one_in_run db_loan _ w)).
  cbn [docs db_loan].
  destruct (find_one (active_loan_of book_id) (loan (db w)));
    [reflexivity |].
  destruct (Bson.parse book_id) as [b |] eqn:Hb.
  2:{ now rewrite (bind_raise _ _ _ _ _ (to_object_id_invalid _ w Hb)). }
  rewrite (bind_ok _ _ _ _ _ (to_object_id_ok _ _ w Hb)).
  rewrite (bind_ok _ _ _ _ _ (delete_one_in_run db_book _ w)).
  cbn [docs db_book]. rewrite delete_one_count.
  destruct (find_one (has_id b) (book (db w))) eqn:Hbk; cbn [Z.eqb].
  - reflexivity.
  - unfold raise. rewrite (delete_one_none _ _ Hbk).
    cbn [with_docs db_book]. now rewrite with_db_same.
Qed.

(** [delete_book] looks for open loans by the text of the request: it
    is refused with InvalidState "Cannot delete book with active loans"
    exactly when some loan whose [book_id] is that very text has
    [returned] false.  When there is none and the text is an identifier,
    the deletion goes on: NotFound when no book has the identifier, else
    that book and only it is taken out of the collection. *)
Theorem delete_book_guard (book_id : string) (w : World) :
  ((exists l, In l (loan (db w))
              /\ Loan.book_id (fields l) = Some book_id
              /\ Loan.returned (fields l) = false)
   <-> delete_book book_id w
       = (Raise (InvalidState "Cannot delete book with active loans"), w))
  /\ (forall b,
        ~ (exists l, In l (loan (db w))
                     /\ Loan.book_id (fields l) = Some book_id
                     /\ Loan.returned (fields l) = false) ->
        Bson.parse book_id = Some b ->
        (find_one (has_id b) (book (db w)) = None ->
         delete_book book_id w = (Raise (NotFound "Book not found"), w))
        /\ (forall bk,
              find_one (has_id b) (book (db w)) = Some bk ->
              exists c1 c2 w',
                delete_book book_id w
                = (Ok (Deleted.mk "deleted" book_id), w')
                /\ book (db w) = c1 ++ bk :: c2
                /\ book (db w') = c1 ++ c2
                /\ loan (db w') = loan (db w)
                /\ member (db w') = member (db w))).
Proof.
  assert (Hact : (exists l, In l (loan (db w))
                            /\ Loan.book_id (fields l) = Some book_id
                            /\ Loan.returned (fields l) = false)
                 <-> exists d, find_one (active_loan_of book_id)
                                        (loan (db w)) = Some d).
  { rewrite <- find_one_exists. split; intros (l & Hin & H); exists l;
      (split; [exact Hin | now apply active_loan_of_spec]). }
  rewrite delete_book_run. split.
  - rewrite Hact. split.
    + intros (d & ->). reflexivity.
    + destruct (find_one (active_loan_of book_id) (loan (db w))) as [d |];
        [eauto |].
      destruct (Bson.parse book_id) as [b |]; [| discriminate].
      destruct (find_one (has_id b) (book (db w))); discriminate.
  - intros b Hnone Hb. rewrite Hact in Hnone.
    destruct (find_one (active_loan_of book_id) (loan (db w))) as [d |];
      [exfalso; eauto |].
    rewrite Hb. split.
    + now intros ->.
    + intros bk Hbk. rewrite Hbk.
      destruct (delete_one_split _ _ _ Hbk) as (c1 & c2 & H1 & H2 & _).
      exists c1, c2. eexists. split; [reflexivity |].
      repeat split; assumption || reflexivity.
Qed.

Lemma get_book_run (book_id : string) (w : World) :
  get_book book_id w =
  match Bson.parse book_id with
  | None => (Raise InvalidInput, w)
  | Some b =>
      match find_one (has_id b) (book (db w)) with
      | None => (Raise (NotFound "Book not found"), w)
      | Some bk => (Ok (Some (serialize_doc bk)), w)
      end
  end.
Proof.
  unfold get_book. destruct (Bson.parse book_id) as [b |] eqn:Hb.
  - rewrite (bind_ok _ _ _ _ _ (to_object_id_ok _ _ w Hb)).
    rewrite (bind_ok _ _ _ _ _ (find_one_in_run db_book _ w)).
    cbn [docs db_book]. now destruct (find_one (has_id b) (book (db w))).
  - now rewrite (bind_raise _ _ _ _ _ (to_object_id_invalid _ w Hb)).
Qed.

Lemma model_dump_nil (payload : UpdateBook.t) :
  UpdateBook.model_dump_exclude_none payload = [] -> payload = no_change.
Proof.
  destruct payload as [[a |] [b |] [c |] [d |] [e |] [f |] [g |]];
    cbn; intros H; try discriminate H; reflexivity.
Qed.

Lemma set_update_id (u : list UpdateBook.entry) (t : datetime)
      (d : Stored Book.t) :
  _id (set_update u t d) = _id d.
Proof. reflexivity. Qed.

(** C10: [update_book] with a payload whose fields are all absent is
    [get_book]: it writes nothing and leaves the world, the book's
    [updated_at] with it, as it was; it answers the book as stored, or
    NotFound when no book has the identifier.  With any other payload and
    a book that exists, the book answered and stored carries the reading
    of the clock in [updated_at]. *)
Theorem update_book_empty_payload (book_id : string) (w : World) :
  update_book book_id no_change w = get_book book_id w
  /\ snd (get_book book_id w) = w
  /\ (forall b bk,
        Bson.parse book_id = Some b ->
        find_one (has_id b) (book (db w)) = Some bk ->
        update_book book_id no_change w = (Ok (Some (serialize_doc bk)), w))
  /\ (forall b,
        Bson.parse book_id = Some b ->
        find_one (has_id b) (book (db w)) = None ->
        update_book book_id no_change w
        = (Raise (NotFound "Book not found"), w))
  /\ (forall payload b bk,
        payload <> no_change ->
        Bson.parse book_id = Some b ->
        find_one (has_id b) (book (db w)) = Some bk ->
        exists bk' c1 c2 w',
          update_book book_id payload w = (Ok (Some (serialize_doc bk')), w')
          /\ book (db w) = c1 ++ bk :: c2
          /\ book (db w') = c1 ++ bk' :: c2
          /\ updated_at bk' = clock w (tick w)
          /\ _id bk' = _id bk
          /\ created_at bk' = created_at bk).
Proof.
  split; [reflexivity |]. split.
  { rewrite get_book_run. destruct (Bson.parse book_id) as [b |];
      [| reflexivity].
    now destruct (find_one (has_id b) (book (db w))). }
  split; [| split].
  - intros b bk Hb Hbk. change (update_book book_id no_change w)
      with (get_book book_id w).
    now rewrite get_book_run, Hb, Hbk.
  - intros b Hb Hbk. change (update_book book_id no_change w)
      with (get_book book_id w).
    now rewrite get_book_run, Hb, Hbk.
  - intros payload b bk Hne Hb Hbk. unfold update_book.
    destruct (UpdateBook.model_dump_exclude_none payload) as [| e u] eqn:Hu.
    { now apply model_dump_nil in Hu. }
    rewrite (bind_ok _ _ _ _ _ (utcnow_run w)).
    rewrite (bind_ok _ _ _ _ _ (to_object_id_ok _ _ _ Hb)).
    rewrite (bind_ok _ _ _ _ _ (update_one_in_run db_book _ _ _)).
    cbn [docs db_book advance db]. rewrite update_one_count, Hbk.
    cbn [Z.eqb]. rewrite get_book_run, Hb.
    cbn [with_db db with_docs db_book book advance clock tick].
    rewrite (find_one_update_one _ b b _ (set_update_id _ _)).
    rewrite oid_eqb_refl, Hbk. cbn [option_map].
    destruct (update_one_split _ _ (set_update (e :: u) (clock w (tick w)))
                               _ Hbk) as (c1 & c2 & H1 & H2 & _).
    exists (set_update (e :: u) (clock w (tick w)) bk), c1, c2.
    eexists. split; [reflexivity |].
    repeat split; assumption || reflexivity.
Qed.

(** ** Active loans *)

Section Sorting.
Context {T : Type}.
Implicit Types (c : list (Stored T)) (d : Stored T).

Lemma insert_desc_perm d c : Permutation (insert_desc d c) (d :: c).
Proof.
  induction c as [| e c IH]; cbn; [reflexivity |].
  destruct (created_at e <=? created_at d); [reflexivity |].
  rewrite IH. apply perm_swap.
Qed.

Lemma sort_created_desc_perm c : Permutation (sort_created_desc c) c.
Proof.
  induction c as [| d c IH]; cbn; [reflexivity |].
  rewrite insert_desc_perm. now constructor.
Qed.

Lemma insert_desc_sorted d c :
  StronglySorted newer c -> StronglySorted newer (insert_desc d c).
Proof.
  induction c as [| e c IH]; intros Hs; cbn.
  - repeat constructor.
  - apply StronglySorted_inv in Hs. destruct Hs as [Hs He].
    destruct (Z.leb_spec (created_at e) (created_at d)) as [Hle | Hlt].
    + constructor; [now constructor |].
      constructor; [exact Hle |].
      rewrite Forall_forall in *. intros x Hx. specialize (He x Hx).
      unfold newer in *. lia.
    + constructor; [now apply IH |].
      apply (Permutation_Forall (Permutation_sym (insert_desc_perm d c))).
      constructor; [unfold newer; lia | exact He].
Qed.

Lemma sort_created_desc_sorted c :
  StronglySorted newer (sort_created_desc c).
Proof.
  induction c as [| d c IH]; cbn; [constructor |].
  now apply insert_desc_sorted.
Qed.

End Sorting.

Lemma enrich_run (w : World) (l : Stored Loan.t) :
  loan_well_formed l ->
  exists e, enrich l w = (Ok e, w) /\ enriched_from w l e.
Proof.
  intros [(s & b & Hs & Hb) (m & Hm)]. unfold enrich.
  assert (Hsub : subscript_book_id l w = (Ok s, w)).
  { unfold subscript_book_id. now rewrite Hs. }
  rewrite (bind_ok _ _ _ _ _ Hsub).
  rewrite (bind_ok _ _ _ _ _ (to_object_id_ok _ _ w Hb)).
  rewrite (bind_ok _ _ _ _ _ (find_one_in_run db_book _ w)).
  rewrite (bind_ok _ _ _ _ _ (to_object_id_ok _ _ w Hm)).
  rewrite (bind_ok _ _ _ _ _ (find_one_in_run db_member _ w)).
  cbn [docs db_book db_member]. eexists. split; [reflexivity |].
  split; [reflexivity |]. exists s, b, m. cbn [Enriched.book Enriched.member].
  repeat split; assumption.
Qed.

Lemma for_each_enrich (w : World) (ls : list (Stored Loan.t)) :
  Forall loan_well_formed ls ->
  exists r, for_each enrich ls w = (Ok r, w) /\ Forall2 (enriched_from w) ls r.
Proof.
  induction 1 as [| l ls Hl _ IH]; cbn [for_each].
  - exists []. split; [reflexivity | constructor].
  - destruct (enrich_run w l Hl) as (e & He & Hfrom).
    destruct IH as (r & Hr & Hall).
    exists (e :: r). split; [| now constructor].
    rewrite (bind_ok _ _ _ _ _ He). now rewrite (bind_ok _ _ _ _ _ Hr).
Qed.

(** C7: on a store whose open loans are as [borrow_book] stores them,
    [active_loans] answers, writes nothing, and its answer lists exactly
    the loans whose [returned] is false, newest first; each is the loan
    as stored with the title and author of its book and the name and
    email of its member as they are at the time of the query. *)
Theorem active_loans_spec (w : World) :
  Forall loan_well_formed (filter not_returned (loan (db w))) ->
  exists (ls : list (Stored Loan.t)) (r : list Enriched.t),
    active_loans w = (Ok r, w)
    /\ Permutation ls (filter not_returned (loan (db w)))
    /\ (forall l, In l ls <->
                  In l (loan (db w)) /\ Loan.returned (fields l) = false)
    /\ StronglySorted newer ls
    /\ Forall2 (enriched_from w) ls r.
Proof.
  intros Hwf.
  set (ls := sort_created_desc (filter not_returned (loan (db w)))).
  assert (Hperm : Permutation ls (filter not_returned (loan (db w))))
    by apply sort_created_desc_perm.
  destruct (for_each_enrich w ls) as (r & Hr & Hall).
  { now apply (Permutation_Forall (Permutation_sym Hperm)). }
  exists ls, r. split; [| split; [exact Hperm | split; [| split]]].
  - unfold active_loans. unfold find_in, get_db.
    now rewrite !bind_run.
  - intros l. split.
    + intros Hin. apply (Permutation_in _ Hperm) in Hin.
      apply filter_In in Hin. destruct Hin as [Hin Hn]. split; [exact Hin |].
      unfold not_returned in Hn. now apply negb_true_iff in Hn.
    + intros [Hin Hn]. apply (Permutation_in _ (Permutation_sym Hperm)).
      apply filter_In. split; [exact Hin |].
      unfold not_returned. now rewrite Hn.
  - apply sort_created_desc_sorted.
  - exact Hall.
Qed.

(** ** The copy ledger over a run *)

Lemma truthy_some (x : option string) (s : string) :
  truthy x = Some s -> x = Some s.
Proof. destruct x as [[| c x] |]; cbn; congruence. Qed.

Lemma truthy_none (x : option string) (b : ObjectId) :
  truthy x = None -> names_book b x = false.
Proof. destruct x as [[| c x] |]; cbn; [reflexivity | discriminate | reflexivity]. Qed.

(** One borrow takes one copy from the book its answer names and none
    from any other. *)
Lemma borrow_step_book (p : BorrowRequest.t) (w w1 : World)
      (a : Json Loan.t) (b : ObjectId) (bk : Stored Book.t) :
  borrow_book p w = (Ok (Some a), w1) ->
  find_one (has_id b) (book (db w)) = Some bk ->
  exists bk',
    find_one (has_id b) (book (db w1)) = Some bk'
    /\ Book.available_copies (fields bk')
       = Book.available_copies (fields bk)
         + (if names_book b (Loan.book_id (body a)) then -1 else 0).
Proof.
  intros H Hbk. apply borrow_book_inv in H.
  destruct H as (b0 & bk0 & Hb0 & Hbk0 & _ & Ha & ->).
  injection Ha as ->.
  cbn [serialize_doc body new_loan fields Loan.book_id names_book].
  rewrite Hb0. cbn [lent db book].
  rewrite (find_one_update_one _ b0 b _ (inc_available_copies_id _ _)).
  destruct (Bson.eqb b0 b) eqn:Hbb.
  - apply oid_eqb_eq in Hbb. subst b0. rewrite Hbk. cbn [option_map].
    eexists. split; [reflexivity |]. cbn. lia.
  - exists bk. split; [exact Hbk | lia].
Qed.

(** One first return gives one copy back to the book its answer names
    and none to any other. *)
Lemma return_step_book (p : ReturnRequest.t) (w w1 : World)
      (a : Json Loan.t) (o : ObjectId) (l : Stored Loan.t)
      (b : ObjectId) (bk : Stored Book.t) :
  Bson.parse (ReturnRequest.loan_id p) = Some o ->
  find_one (has_id o) (loan (db w)) = Some l ->
  Loan.returned (fields l) = false ->
  return_book p w = (Ok (Some a), w1) ->
  find_one (has_id b) (book (db w)) = Some bk ->
  exists bk',
    find_one (has_id b) (book (db w1)) = Some bk'
    /\ Book.available_copies (fields bk')
       = Book.available_copies (fields bk)
         + (if names_book b (Loan.book_id (body a)) then 1 else 0).
Proof.
  intros Ho Hl Hr H Hbk.
  rewrite (return_book_run p w o l Ho Hl Hr) in H. cbv zeta in H.
  pose proof (marked_returned_find o w l Hl) as Hl1.
  destruct (truthy (Loan.book_id (fields l))) as [s |] eqn:Ht.
  - apply truthy_some in Ht.
    destruct (Bson.parse s) as [b0 |] eqn:Hs; [| discriminate].
    change (loan (db (copy_given_back b0 (marked_returned o w))))
      with (loan (db (marked_returned o w))) in H.
    rewrite Hl1 in H. injection H as <- <-.
    cbn [serialize_doc body set_returned fields Loan.book_id].
    rewrite Ht. cbn [names_book]. rewrite Hs.
    cbn [copy_given_back marked_returned with_db advance db with_docs
         db_book db_loan book clock tick].
    rewrite (find_one_update_one _ b0 b _ (inc_available_copies_id _ _)).
    destruct (Bson.eqb b0 b) eqn:Hbb.
    + apply oid_eqb_eq in Hbb. subst b0. rewrite Hbk. cbn [option_map].
      eexists. split; [reflexivity |]. cbn. lia.
    + exists bk. split; [exact Hbk | lia].
  - rewrite Hl1 in H. injection H as <- <-.
    cbn [serialize_doc body set_returned fields Loan.book_id].
    rewrite (truthy_none _ b Ht).
    exists bk. split; [exact Hbk | lia].
Qed.

(** Over a run the copies of a book move by the returns less the
    borrows that name it. *)
Lemma runs_ledger (w w' : World) (tr : list event) :
  runs w tr w' ->
  forall b bk,
    find_one (has_id b) (book (db w)) = Some bk ->
    exists bk',
      find_one (has_id b) (book (db w')) = Some bk'
      /\ Book.available_copies (fields bk')
         = Book.available_copies (fields bk) + net_copies b tr.
Proof.
  induction 1 as [w | w w1 w2 p a tr Hstep _ IH
                    | w w1 w2 p a o l tr Ho Hl Hr Hstep _ IH];
    intros b bk Hbk; cbn [net_copies].
  - exists bk. split; [exact Hbk | lia].
  - destruct (borrow_step_book p w w1 a b bk Hstep Hbk) as (bk1 & H1 & E1).
    destruct (IH b bk1 H1) as (bk2 & H2 & E2).
    exists bk2. split; [exact H2 | lia].
  - destruct (return_step_book p w w1 a o l b bk Ho Hl Hr Hstep Hbk)
      as (bk1 & H1 & E1).
    destruct (IH b bk1 H1) as (bk2 & H2 & E2).
    exists bk2. split; [exact H2 | lia].
Qed.

(** A loan once stored stays stored, under the same book. *)
Lemma borrow_keeps (p : BorrowRequest.t) (w w1 : World)
      (r : option (Json Loan.t)) (a : Json Loan.t) :
  borrow_book p w = (Ok r, w1) -> knows w a -> knows w1 a.
Proof.
  intros H (l & Hl & Hb). apply borrow_book_inv in H.
  destruct H as (b0 & bk0 & _ & _ & _ & _ & ->).
  exists l. split; [| exact Hb].
  cbn [lent db loan]. now rewrite find_one_app, Hl.
Qed.

Lemma borrow_knows (p : BorrowRequest.t) (w w1 : World) (a : Json Loan.t) :
  borrow_book p w = (Ok (Some a), w1) -> knows w1 a.
Proof.
  intros H. apply borrow_book_inv in H.
  destruct H as (b0 & bk0 & _ & _ & Hfresh & Ha & ->).
  injection Ha as ->.
  exists (new_loan p w). split; [| reflexivity].
  cbn [serialize_doc id]. rewrite oid_str.
  cbn [lent db loan]. now apply find_one_inserted.
Qed.

Lemma return_keeps (p : ReturnRequest.t) (w w1 : World)
      (r : option (Json Loan.t)) (a : Json Loan.t) :
  return_book p w = (Ok r, w1) -> knows w a -> knows w1 a.
Proof.
  intros H (l' & Hl' & Hb'). unfold knows.
  remember (Bson.Oid (id a)) as o' eqn:Eo'. clear Eo'.
  destruct (Bson.parse (ReturnRequest.loan_id p)) as [o |] eqn:Ho.
  2:{ unfold return_book in H.
      rewrite (bind_raise _ _ _ _ _ (to_object_id_invalid _ w Ho)) in H.
      discriminate. }
  destruct (find_one (has_id o) (loan (db w))) as [l |] eqn:Hl.
  2:{ unfold return_book in H.
      rewrite (bind_ok _ _ _ _ _ (to_object_id_ok _ _ w Ho)) in H.
      rewrite (bind_ok _ _ _ _ _ (find_one_in_run db_loan (has_id o) w)) in H.
      cbn [docs db_loan] in H. rewrite Hl in H. discriminate. }
  destruct (Loan.returned (fields l)) eqn:Hr.
  - rewrite (return_book_returned p w o l Ho Hl Hr) in H.
    injection H as <- <-. exists l'. auto.
  - rewrite (return_book_run p w o l Ho Hl Hr) in H. cbv zeta in H.
    assert (Hw1 : loan (db w1) = loan (db (marked_returned o w))).
    { destruct (truthy (Loan.book_id (fields l))) as [s |].
      - destruct (Bson.parse s) as [b |]; [| discriminate].
        now injection H as <- <-.
      - now injection H as <- <-. }
    assert (Hfind : find_one (has_id o') (loan (db w1))
                    = if Bson.eqb o o'
                      then Some (set_returned (clock w (tick w)) l')
                      else Some l').
    { rewrite Hw1. cbn [marked_returned with_db db with_docs db_loan loan].
      rewrite (find_one_update_one _ o o' _ (set_returned_id _)).
      destruct (Bson.eqb o o') eqn:Hoo; [| exact Hl'].
      apply oid_eqb_eq in Hoo. subst o'. now rewrite Hl'. }
    destruct (Bson.eqb o o'); eexists;
      (split; [exact Hfind | exact Hb']).
Qed.

Lemma return_knows (p : ReturnRequest.t) (w w1 : World) (a : Json Loan.t) :
  return_book p w = (Ok (Some a), w1) -> knows w1 a.
Proof.
  intros H. apply return_book_ok_returned in H.
  destruct H as (o & l & Ho & Hl & _ & Ha). injection Ha as ->.
  exists l. split; [| reflexivity].
  cbn [serialize_doc id]. rewrite oid_str.
  now rewrite (find_one_has_id _ _ _ Hl).
Qed.

Lemma runs_keeps (w w' : World) (tr : list event) (a : Json Loan.t) :
  runs w tr w' -> knows w a -> knows w' a.
Proof.
  induction 1 as [w | w w1 w2 p a' tr Hstep _ IH
                    | w w1 w2 p a' o l tr Ho Hl Hr Hstep _ IH];
    intros Hk; [exact Hk | |].
  - apply IH. now apply (borrow_keeps p w w1 (Some a')).
  - apply IH. now apply (return_keeps p w w1 (Some a')).
Qed.

(** At the end of a run the store holds every loan the run answered. *)
Lemma runs_knows (w w' : World) (tr : list event) :
  runs w tr w' -> Forall (fun e => knows w' (answer e)) tr.
Proof.
  induction 1 as [w | w w1 w2 p a tr Hstep Hrest IH
                    | w w1 w2 p a o l tr Ho Hl Hr Hstep Hrest IH];
    constructor; try exact IH; cbn [answer].
  - apply (runs_keeps w1 w2 tr a Hrest). now apply borrow_knows in Hstep.
  - apply (runs_keeps w1 w2 tr a Hrest). now apply return_knows in Hstep.
Qed.

Lemma knows_names_book (w : World) (a : Json Loan.t) (b : ObjectId) :
  knows w a ->
  names_book b (Loan.book_id (body a)) = loan_names_book w b (id a).
Proof.
  intros (l & Hl & Hb). unfold loan_names_book.
  now rewrite Hl, Hb.
Qed.

Lemma filter_length_perm {A} (f : A -> bool) (l1 l2 : list A) :
  Permutation l1 l2 -> List.length (filter f l1) = List.length (filter f l2).
Proof.
  induction 1 as [| x l1 l2 _ IH | x y l | l1 l2 l3 _ IH1 _ IH2]; cbn.
  - reflexivity.
  - destruct (f x); cbn; congruence.
  - destruct (f x), (f y); reflexivity.
  - congruence.
Qed.

(** The net movement of a book's copies over a run, counted on the
    identities of the loans created and closed. *)
Lemma net_copies_count (w' : World) (b : ObjectId) (tr : list event) :
  Forall (fun e => knows w' (answer e)) tr ->
  net_copies b tr
  = Z.of_nat (List.length (filter (loan_names_book w' b) (returned_ids tr)))
    - Z.of_nat (List.length (filter (loan_names_book w' b) (created_ids tr))).
Proof.
  induction 1 as [| e tr He _ IH]; [reflexivity |].
  destruct e as [p a | p a]; cbn [net_copies created_ids returned_ids filter];
    cbn [answer] in He; rewrite (knows_names_book w' a b He), IH;
    destruct (loan_names_book w' b (id a)); cbn [List.length]; lia.
Qed.

(** C5: over any run of borrows and returns that all succeed, in which
    every return is the first return of its loan, if the loans returned
    are the loans the run created, each once, then every book that was
    there at the start is there at the end with the [available_copies] it
    started with. *)
Theorem borrow_return_round_trip (w w' : World) (tr : list event) :
  runs w tr w' ->
  Permutation (created_ids tr) (returned_ids tr) ->
  forall b bk,
    find_one (has_id b) (book (db w)) = Some bk ->
    exists bk',
      find_one (has_id b) (book (db w')) = Some bk'
      /\ Book.available_copies (fields bk')
         = Book.available_copies (fields bk).
Proof.
  intros Hrun Hperm b bk Hbk.
  destruct (runs_ledger w w' tr Hrun b bk Hbk) as (bk' & Hbk' & Hnet).
  exists bk'. split; [exact Hbk' |].
  rewrite (net_copies_count w' b tr (runs_knows w w' tr Hrun)) in Hnet.
  rewrite (filter_length_perm _ _ _ Hperm) in Hnet. lia.
Qed.

(** ** Loans stay well formed *)

Lemma borrow_book_member (p : BorrowRequest.t) (w w' : World)
      (r : option (Json Loan.t)) :
  borrow_book p w = (Ok r, w') ->
  exists m mb,
    Bson.parse (BorrowRequest.member_id p) = Some m
    /\ find_one (has_id m) (member (db w)) = Some mb.
Proof.
  intros H. unfold borrow_book in H.
  inv_oid H. inv_find H. cbn [docs db_book] in H.
  destruct (find_one (has_id o) (book (db w))) as [bk |]; [| discriminate].
  destruct (Book.available_copies (fields bk) <=? 0); [discriminate |].
  inv_oid H. inv_find H. cbn [docs db_member] in H.
  destruct (find_one (has_id o0) (member (db w))) as [mb |] eqn:Hm;
    [| discriminate].
  eauto.
Qed.

Lemma update_one_forall {T} (P : Stored T -> Prop) (p : Stored T -> bool)
      (f : Stored T -> Stored T) (c : list (Stored T)) :
  (forall d, P d -> P (f d)) -> Forall P c -> Forall P (fst (update_one p f c)).
Proof.
  intros Hf. induction 1 as [| d c Hd Hc IH]; cbn; [constructor |].
  destruct (p d); cbn; [constructor; auto |].
  destruct (update_one p f c) as [c' n]. cbn in *. now constructor.
Qed.

(** [borrow_book] stores a well-formed loan and keeps the others. *)
Lemma borrow_book_well_formed (p : BorrowRequest.t) (w w' : World)
      (r : option (Json Loan.t)) :
  borrow_book p w = (Ok r, w') ->
  Forall loan_well_formed (loan (db w)) ->
  Forall loan_well_formed (loan (db w')).
Proof.
  intros H Hwf.
  destruct (borrow_book_member p w w' r H) as (m & mb & Hm & _).
  apply borrow_book_inv in H.
  destruct H as (b & bk & Hb & _ & _ & _ & ->).
  cbn [lent db loan]. apply Forall_app. split; [exact Hwf |].
  constructor; [| constructor]. split.
  - exists (BorrowRequest.book_id p), b. auto.
  - exists m. exact Hm.
Qed.

(** [return_book] keeps every loan well formed, whether it succeeds or
    raises half way. *)
Lemma return_book_well_formed (p : ReturnRequest.t) (w : World) :
  Forall loan_well_formed (loan (db w)) ->
  Forall loan_well_formed (loan (db (snd (return_book p w)))).
Proof.
  intros Hwf.
  destruct (Bson.parse (ReturnRequest.loan_id p)) as [o |] eqn:Ho.
  2:{ unfold return_book.
      now rewrite (bind_raise _ _ _ _ _ (to_object_id_invalid _ w Ho)). }
  destruct (find_one (has_id o) (loan (db w))) as [l |] eqn:Hl.
  2:{ unfold return_book.
      rewrite (bind_ok _ _ _ _ _ (to_object_id_ok _ _ w Ho)).
      rewrite (bind_ok _ _ _ _ _ (find_one_in_run db_loan (has_id o) w)).
      cbn [docs db_loan]. now rewrite Hl. }
  destruct (Loan.returned (fields l)) eqn:Hr.
  - now rewrite (return_book_returned p w o l Ho Hl Hr).
  - rewrite (return_book_run p w o l Ho Hl Hr). cbv zeta.
    assert (H1 : Forall loan_well_formed (loan (db (marked_returned o w)))).
    { cbn [marked_returned with_db db with_docs db_loan loan].
      apply update_one_forall; [| exact Hwf]. intros d Hd. exact Hd. }
    destruct (truthy (Loan.book_id (fields l))) as [s |]; [| exact H1].
    destruct (Bson.parse s) as [b |]; exact H1.
Qed.

(** ** The theorems at work on the small library *)

Ltac run := vm_compute; reflexivity.

Lemma borrow_book_checks_witness :
  borrow_book (BorrowRequest.parse Sample.member_id Sample.book_id None)
              Sample.empty
  = (Raise (NotFound "Book not found"), Sample.empty)
  /\ borrow_book (BorrowRequest.parse Sample.nobody Sample.book_id None)
                 Sample.lent_out
     = (Raise (InvalidState "No copies available"), Sample.lent_out)
  /\ borrow_book (BorrowRequest.parse Sample.nobody Sample.book_id None)
                 Sample.stocked
     = (Raise (NotFound "Member not found"), Sample.stocked).
Proof.
  pose (b := Bson.Oid Sample.book_id).
  assert (Hb : forall m,
             Bson.parse (BorrowRequest.book_id
                           (BorrowRequest.parse m Sample.book_id None))
             = Some b) by (intros m; run).
  assert (H0 : find_one (has_id b) (book (db Sample.empty)) = None) by run.
  assert (H1 : find_one (has_id b) (book (db Sample.lent_out))
               = Some Sample.emma_lent) by run.
  assert (H2 : find_one (has_id b) (book (db Sample.stocked))
               = Some Sample.emma) by run.
  assert (H3 : find_one (has_id (Bson.Oid Sample.nobody))
                        (member (db Sample.stocked)) = None) by run.
  split; [| split].
  - exact (proj1 (borrow_book_checks _ Sample.empty b (Hb _)) H0).
  - refine (proj1 (proj2 (borrow_book_checks _ Sample.lent_out b (Hb _)))
                  Sample.emma_lent H1 _).
    vm_compute. discriminate.
  - refine (proj2 (proj2 (borrow_book_checks _ Sample.stocked b (Hb _)))
                  Sample.emma (Bson.Oid Sample.nobody) H2 _ _ H3).
    + reflexivity.
    + run.
Defined.

Lemma borrow_book_effect_witness :
  borrow_book (BorrowRequest.parse Sample.member_id Sample.book_id None)
              Sample.stocked
  = (Ok (Some (serialize_doc Sample.loan_out)), Sample.lent_out)
  /\ exists bk bk' new,
       Book.available_copies (fields bk')
       = Book.available_copies (fields bk) - 1
       /\ In bk (book (db Sample.stocked))
       /\ In bk' (book (db Sample.lent_out))
       /\ loan (db Sample.lent_out) = loan (db Sample.stocked) ++ [new]
       /\ Loan.returned (fields new) = false
       /\ Loan.due_date (fields new) = Some 19689.
Proof.
  assert (Hrun : borrow_book (BorrowRequest.parse Sample.member_id
                                                  Sample.book_id None)
                             Sample.stocked
                 = (Ok (Some (serialize_doc Sample.loan_out)),
                    Sample.lent_out)) by run.
  split; [exact Hrun |].
  destruct (borrow_book_effect Sample.member_id Sample.book_id None
              Sample.stocked Sample.lent_out _ Hrun)
    as (b & bk & bk' & c1 & c2 & new & _ & _ & Hl & _ & Hr & Hd & _ & _
        & _ & Hc & Hc' & Hn & _).
  exists bk, bk', new. split; [exact Hn |].
  split; [rewrite Hc; apply in_elt |].
  split; [rewrite Hc'; apply in_elt |].
  split; [exact Hl |]. split; [exact Hr |].
  rewrite Hd. run.
Defined.

Lemma return_book_idempotent_witness :
  return_book (ReturnRequest.mk Sample.loan_id) Sample.lent_out
  = (Ok (Some (serialize_doc Sample.loan_back)), Sample.given_back)
  /\ return_book (ReturnRequest.mk Sample.loan_id) Sample.given_back
     = (Ok (Some (serialize_doc Sample.loan_back)), Sample.given_back).
Proof.
  assert (Hrun : return_book (ReturnRequest.mk Sample.loan_id)
                             Sample.lent_out
                 = (Ok (Some (serialize_doc Sample.loan_back)),
                    Sample.given_back)) by run.
  split; [exact Hrun |].
  exact (proj1 (proj1 (proj2 (return_book_idempotent
                                (ReturnRequest.mk Sample.loan_id)
                                Sample.lent_out))
                      _ _ Hrun)).
Defined.

Lemma return_book_effect_witness :
  return_book (ReturnRequest.mk Sample.nobody) Sample.lent_out
  = (Raise (NotFound "Loan not found"), Sample.lent_out)
  /\ exists l' bk' w',
       return_book (ReturnRequest.mk Sample.loan_id) Sample.lent_out
       = (Ok (Some (serialize_doc l')), w')
       /\ Loan.returned (fields l') = true
       /\ In bk' (book (db w'))
       /\ Book.available_copies (fields bk')
          = Book.available_copies (fields Sample.emma_lent) + 1.
Proof.
  assert (Hn : Bson.parse Sample.nobody = Some (Bson.Oid Sample.nobody))
    by run.
  assert (H0 : find_one (has_id (Bson.Oid Sample.nobody))
                        (loan (db Sample.lent_out)) = None) by run.
  assert (Ho : Bson.parse Sample.loan_id = Some (Bson.Oid Sample.loan_id))
    by run.
  assert (Hl : find_one (has_id (Bson.Oid Sample.loan_id))
                        (loan (db Sample.lent_out)) = Some Sample.loan_out)
    by run.
  assert (Hb : Bson.parse Sample.book_id = Some (Bson.Oid Sample.book_id))
    by run.
  assert (Hbk : find_one (has_id (Bson.Oid Sample.book_id))
                         (book (db Sample.lent_out)) = Some Sample.emma_lent)
    by run.
  split.
  - exact (proj1 (return_book_effect (ReturnRequest.mk Sample.nobody)
                    Sample.lent_out (Bson.Oid Sample.nobody) Hn) H0).
  - destruct (proj2 (return_book_effect (ReturnRequest.mk Sample.loan_id)
                       Sample.lent_out (Bson.Oid Sample.loan_id) Ho)
                    Sample.loan_out Sample.book_id (Bson.Oid Sample.book_id)
                    Sample.emma_lent Hl eq_refl eq_refl Hb Hbk)
      as (l' & bk' & c1 & c2 & d1 & d2 & w' & Hrun & _ & _ & Hr & _ & _
          & _ & Hd' & Hn' & _).
    exists l', bk', w'. split; [exact Hrun |]. split; [exact Hr |].
    split; [rewrite Hd'; apply in_elt | exact Hn'].
Defined.

Lemma borrow_return_round_trip_witness :
  runs Sample.stocked
       [Borrowed (BorrowRequest.parse Sample.member_id Sample.book_id None)
                 (serialize_doc Sample.loan_out);
        Returned (ReturnRequest.mk Sample.loan_id)
                 (serialize_doc Sample.loan_back)]
       Sample.given_back
  /\ exists bk',
       find_one (has_id (Bson.Oid Sample.book_id))
                (book (db Sample.given_back)) = Some bk'
       /\ Book.available_copies (fields bk')
          = Book.available_copies (fields Sample.emma).
Proof.
  assert (Hrun : runs Sample.stocked
       [Borrowed (BorrowRequest.parse Sample.member_id Sample.book_id None)
                 (serialize_doc Sample.loan_out);
        Returned (ReturnRequest.mk Sample.loan_id)
                 (serialize_doc Sample.loan_back)]
       Sample.given_back).
  { apply runs_borrow with (w1 := Sample.lent_out); [run |].
    apply runs_return with (w1 := Sample.given_back)
                           (o := Bson.Oid Sample.loan_id)
                           (l := Sample.loan_out);
      [run | run | reflexivity | run |].
    apply runs_nil. }
  assert (Hbk : find_one (has_id (Bson.Oid Sample.book_id))
                         (book (db Sample.stocked)) = Some Sample.emma)
    by run.
  split; [exact Hrun |].
  exact (borrow_return_round_trip _ _ _ Hrun (Permutation_refl _)
           (Bson.Oid Sample.book_id) Sample.emma Hbk).
Defined.

Lemma delete_book_guard_witness :
  delete_book Sample.book_id Sample.lent_out
  = (Raise (InvalidState "Cannot delete book with active loans"),
     Sample.lent_out)
  /\ delete_book Sample.nobody Sample.given_back
     = (Raise (NotFound "Book not found"), Sample.given_back)
  /\ exists w',
       delete_book Sample.book_id Sample.given_back
       = (Ok (Deleted.mk "deleted" Sample.book_id), w')
       /\ book (db w') = [].
Proof.
  assert (Hnone : forall s,
             ~ (exists l, In l (loan (db Sample.given_back))
                          /\ Loan.book_id (fields l) = Some s
                          /\ Loan.returned (fields l) = false)).
  { intros s (l & Hin & _ & Hr). vm_compute in Hin.
    destruct Hin as [<- | []]. discriminate Hr. }
  assert (Hn : Bson.parse Sample.nobody = Some (Bson.Oid Sample.nobody))
    by run.
  assert (H0 : find_one (has_id (Bson.Oid Sample.nobody))
                        (book (db Sample.given_back)) = None) by run.
  assert (Hb : Bson.parse Sample.book_id = Some (Bson.Oid Sample.book_id))
    by run.
  pose (bk := inc_available_copies 1 (Sample.clock 6) Sample.emma_lent).
  assert (Hbk : find_one (has_id (Bson.Oid Sample.book_id))
                         (book (db Sample.given_back)) = Some bk) by run.
  split; [| split].
  - apply (delete_book_guard Sample.book_id Sample.lent_out).
    exists Sample.loan_out.
    split; [vm_compute; left; reflexivity |]. split; reflexivity.
  - exact (proj1 (proj2 (delete_book_guard Sample.nobody Sample.given_back)
                        (Bson.Oid Sample.nobody) (Hnone _) Hn) H0).
  - destruct (proj2 (proj2 (delete_book_guard Sample.book_id
                              Sample.given_back)
                           (Bson.Oid Sample.book_id) (Hnone _) Hb)
                    bk Hbk)
      as (c1 & c2 & w' & Hrun & Hc & Hc' & _).
    exists w'. split; [exact Hrun |]. rewrite Hc'.
    vm_compute in Hc.
    destruct c1 as [| d1 [| d1' c1]]; try discriminate Hc.
    now injection Hc as <-.
Defined.

Lemma active_loans_spec_witness :
  Forall loan_well_formed (filter not_returned (loan (db Sample.lent_out)))
  /\ exists ls r,
       active_loans Sample.lent_out = (Ok r, Sample.lent_out)
       /\ Permutation ls [Sample.loan_out]
       /\ Forall2 (enriched_from Sample.lent_out) ls r.
Proof.
  assert (Hf : filter not_returned (loan (db Sample.lent_out))
               = [Sample.loan_out]) by run.
  assert (Hwf : Forall loan_well_formed
                       (filter not_returned (loan (db Sample.lent_out)))).
  { rewrite Hf. repeat constructor.
    - exists Sample.book_id, (Bson.Oid Sample.book_id). split; run.
    - exists (Bson.Oid Sample.member_id). run. }
  split; [exact Hwf |].
  destruct (active_loans_spec Sample.lent_out Hwf)
    as (ls & r & Hrun & Hperm & _ & _ & Hall).
  exists ls, r. split; [exact Hrun |].
  split; [now rewrite <- Hf | exact Hall].
Defined.

Lemma create_member_existing_email_witness :
  exists e,
    In e (member (db Sample.stocked))
    /\ create_member (CreateMember.mk "Countess" "ada@example.org"
                                      (Some "555"))
                     Sample.stocked
       = (Ok (Some (serialize_doc e)), Sample.stocked).
Proof.
  destruct (create_member_existing_email
              (CreateMember.mk "Countess" "ada@example.org" (Some "555"))
              Sample.stocked)
    as (e & Hin & _ & Hrun).
  { exists Sample.ada. split; [vm_compute; left; reflexivity | reflexivity]. }
  exists e. split; [exact Hin | exact Hrun].
Defined.

Lemma return_book_without_book_witness :
  book (db Sample.book_gone) = []
  /\ exists l' w',
       return_book (ReturnRequest.mk Sample.loan_id) Sample.book_gone
       = (Ok (Some (serialize_doc l')), w')
       /\ Loan.returned (fields l') = true
       /\ book (db w') = [].
Proof.
  assert (Hgone : book (db Sample.book_gone) = []) by run.
  assert (Ho : Bson.parse Sample.loan_id = Some (Bson.Oid Sample.loan_id))
    by run.
  assert (Hl : find_one (has_id (Bson.Oid Sample.loan_id))
                        (loan (db Sample.book_gone))
               = Some Sample.loan_out_upper) by run.
  assert (Hb : Bson.parse Sample.book_id_upper
               = Some (Bson.Oid Sample.book_id)) by run.
  assert (Hbk : find_one (has_id (Bson.Oid Sample.book_id))
                         (book (db Sample.book_gone)) = None) by run.
  split; [exact Hgone |].
  destruct (return_book_without_book (ReturnRequest.mk Sample.loan_id)
              Sample.book_gone (Bson.Oid Sample.loan_id)
              Sample.loan_out_upper Ho Hl eq_refl)
    as (l' & c1 & c2 & w' & Hrun & _ & _ & Hr & _ & Hbooks & _).
  { right. exists Sample.book_id_upper, (Bson.Oid Sample.book_id).
    split; [reflexivity |]. split; [exact Hb | exact Hbk]. }
  exists l', w'. split; [exact Hrun |]. split; [exact Hr |].
  now rewrite Hbooks.
Defined.

Lemma update_book_empty_payload_witness :
  update_book Sample.book_id no_change Sample.stocked
  = (Ok (Some (serialize_doc Sample.emma)), Sample.stocked)
  /\ update_book Sample.nobody no_change Sample.stocked
     = (Raise (NotFound "Book not found"), Sample.stocked)
  /\ exists bk' w',
       update_book Sample.book_id
                   (UpdateBook.mk None None None None (Some 3) None None)
                   Sample.stocked
       = (Ok (Some (serialize_doc bk')), w')
       /\ In bk' (book (db w'))
       /\ updated_at bk' = Sample.clock 2.
Proof.
  assert (Hn : Bson.parse Sample.nobody = Some (Bson.Oid Sample.nobody))
    by run.
  assert (H0 : find_one (has_id (Bson.Oid Sample.nobody))
                        (book (db Sample.stocked)) = None) by run.
  assert (Hb : Bson.parse Sample.book_id = Some (Bson.Oid Sample.book_id))
    by run.
  assert (Hbk : find_one (has_id (Bson.Oid Sample.book_id))
                         (book (db Sample.stocked)) = Some Sample.emma)
    by run.
  pose proof (update_book_empty_payload Sample.book_id Sample.stocked)
    as (_ & _ & Hsome & _ & Hset).
  pose proof (update_book_empty_payload Sample.nobody Sample.stocked)
    as (_ & _ & _ & Hmiss & _).
  split; [| split].
  - exact (Hsome _ _ Hb Hbk).
  - exact (Hmiss _ Hn H0).
  - destruct (Hset (UpdateBook.mk None None None None (Some 3) None None)
                   _ _ ltac:(discriminate) Hb Hbk)
      as (bk' & c1 & c2 & w' & Hrun & _ & Hc' & Hu & _).
    exists bk', w'. split; [exact Hrun |].
    split; [rewrite Hc'; apply in_elt |].
    rewrite Hu. run.
Defined.

(** C6, where the code departs from the claim.  A stored [book_id] is
    read as an identifier by [borrow_book], [return_book], [active_loans]
    and [loans_by_email], whatever its letter case; [delete_book] alone
    compares it as text.  Here the one copy of the book is borrowed under
    the upper-case text of its identifier: the loan is open and
    [active_loans] lists it with the book's title.  [delete_book] under
    the lower-case text is not refused: the book goes while the loan that
    references it is still open. *)
Theorem delete_book_other_spelling :
  borrow_book (BorrowRequest.parse Sample.member_id Sample.book_id_upper None)
              Sample.stocked
  = (Ok (Some (serialize_doc Sample.loan_out_upper)), Sample.lent_out_upper)
  /\ Bson.parse Sample.book_id_upper = Bson.parse Sample.book_id
  /\ find_one (has_id (Bson.Oid Sample.book_id))
              (book (db Sample.lent_out_upper)) = Some Sample.emma_lent
  /\ loan (db Sample.lent_out_upper) = [Sample.loan_out_upper]
  /\ Loan.returned (fields Sample.loan_out_upper) = false
  /\ active_loans Sample.lent_out_upper
     = (Ok [Enriched.mk (serialize_doc Sample.loan_out_upper)
                        (Some (book_info Sample.emma_lent))
                        (Some (member_info Sample.ada))],
        Sample.lent_out_upper)
  /\ delete_book Sample.book_id Sample.lent_out_upper
     = (Ok (Deleted.mk "deleted" Sample.book_id), Sample.book_gone)
  /\ book (db Sample.book_gone) = []
  /\ loan (db Sample.book_gone) = [Sample.loan_out_upper].
Proof.
  split; [run |]. split; [run |]. split; [run |]. split; [run |].
  split; [reflexivity |]. split; [run |]. split; [run |].
  split; run.
Qed.

(** * Further properties *)

(** ** Books *)

Lemma BookSchema_run (b : CreateBook.t) (w : World) :
  BookSchema b w =
  if (CreateBook.total_copies b <? 0) || (CreateBook.available_copies b <? 0)
  then (Raise (ValidationError
                 ((if CreateBook.total_copies b <? 0
                   then ["total_copies"] else [])
                  ++ (if CreateBook.available_copies b <? 0
                      then ["available_copies"] else []))), w)
  else (Ok (fields (new_book b w)), w).
Proof.
  unfold BookSchema.
  destruct (CreateBook.total_copies b <? 0),
           (CreateBook.available_copies b <? 0); reflexivity.
Qed.

(** X1: [create_book] with a negative count is refused by the schema
    before anything is read or written; the error names the fields that
    fail. *)
Theorem create_book_negative_count (b : CreateBook.t) (w : World) :
  CreateBook.total_copies b < 0 \/ CreateBook.available_copies b < 0 ->
  exists fs,
    create_book b w = (Raise (ValidationError fs), w)
    /\ (In "total_copies" fs <-> CreateBook.total_copies b < 0)
    /\ (In "available_copies" fs <-> CreateBook.available_copies b < 0).
Proof.
  intros Hneg. unfold create_book.
  exists ((if CreateBook.total_copies b <? 0 then ["total_copies"] else [])
          ++ (if CreateBook.available_copies b <? 0
              then ["available_copies"] else [])).
  split.
  - apply bind_raise. rewrite BookSchema_run.
    destruct (Z.ltb_spec (CreateBook.total_copies b) 0),
             (Z.ltb_spec (CreateBook.available_copies b) 0);
      cbn [orb]; try reflexivity. exfalso. lia.
  - destruct (Z.ltb_spec (CreateBook.total_copies b) 0),
             (Z.ltb_spec (CreateBook.available_copies b) 0);
      cbn; split; split; intros; try lia; intuition congruence.
Qed.

(** [create_book] that succeeds, read backwards. *)
Lemma create_book_inv (b : CreateBook.t) (w w' : World)
      (r : option (Json Book.t)) :
  create_book b w = (Ok r, w') ->
  0 <= CreateBook.total_copies b
  /\ 0 <= CreateBook.available_copies b
  /\ find_one (has_id (_id (new_book b w))) (book (db w)) = None
  /\ r = Some (serialize_doc (new_book b w))
  /\ w' = inserted db_book (new_book b w) w.
Proof.
  intros H. unfold create_book in H.
  inv_bind H. rewrite BookSchema_run in E.
  destruct (Z.ltb_spec (CreateBook.total_copies b) 0);
    [discriminate |].
  destruct (Z.ltb_spec (CreateBook.available_copies b) 0);
    [discriminate |].
  cbn [orb] in E. injection E as <- <-.
  inv_bind H. apply create_document_inv in E. cbv zeta in E.
  destruct E as (Hfresh & -> & ->).
  inv_oid H. rewrite parse_str_generate in E. injection E as <-.
  inv_find H. apply ret_inv in H. destruct H as [-> ->].
  cbn [docs db_book] in Hfresh.
  change (mkStored (Bson.generate (next_oid w)) (fields (new_book b w))
                   (clock w (tick w)) (clock w (tick w)))
    with (new_book b w) in *.
  split; [assumption |]. split; [assumption |]. split; [exact Hfresh |].
  split; [| reflexivity].
  cbn [db docs with_docs db_book book].
  change (serialize (find_one (has_id (_id (new_book b w)))
                              (book (db w) ++ [new_book b w]))
          = Some (serialize_doc (new_book b w))).
  now rewrite (find_one_inserted _ (new_book b w) Hfresh).
Qed.

Lemma create_book_run (b : CreateBook.t) (w : World) :
  0 <= CreateBook.total_copies b ->
  0 <= CreateBook.available_copies b ->
  find_one (has_id (Bson.generate (next_oid w))) (book (db w)) = None ->
  create_book b w
  = (Ok (Some (serialize_doc (new_book b w))),
     inserted db_book (new_book b w) w).
Proof.
  intros Ht Ha Hfresh. unfold create_book.
  assert (Hs : BookSchema b w = (Ok (fields (new_book b w)), w)).
  { rewrite BookSchema_run.
    destruct (Z.ltb_spec (CreateBook.total_copies b) 0); [lia |].
    destruct (Z.ltb_spec (CreateBook.available_copies b) 0); [lia |].
    reflexivity. }
  rewrite (bind_ok _ _ _ _ _ Hs).
  rewrite (bind_ok _ _ _ _ _ (create_document_run db_book _ w Hfresh)).
  rewrite (bind_ok _ _ _ _ _
             (to_object_id_ok _ _ _ (parse_str_generate (next_oid w)))).
  rewrite (bind_ok _ _ _ _ _ (find_one_in_run db_book _ _)).
  cbn [db docs with_docs db_book book ret].
  change (find_one (has_id (Bson.generate (next_oid w))) _)
    with (find_one (has_id (_id (new_book b w)))
                   (book (db w) ++ [new_book b w])).
  rewrite (find_one_inserted _ (new_book b w) Hfresh). reflexivity.
Qed.

(** X2: a [create_book] that succeeds appends one book that holds the
    fields of the request, touches no other collection, and answers the
    book under an identity that [get_book] then finds: asking for the
    answered [id] gives the same answer and changes nothing. *)
Theorem create_book_then_get_book (b : CreateBook.t) (w w' : World)
        (r : option (Json Book.t)) :
  create_book b w = (Ok r, w') ->
  exists j d,
    r = Some j
    /\ j = serialize_doc d
    /\ book (db w') = book (db w) ++ [d]
    /\ member (db w') = member (db w)
    /\ loan (db w') = loan (db w)
    /\ Book.title (body j) = CreateBook.title b
    /\ Book.author (body j) = CreateBook.author b
    /\ Book.isbn (body j) = CreateBook.isbn b
    /\ Book.category (body j) = CreateBook.category b
    /\ Book.total_copies (body j) = CreateBook.total_copies b
    /\ Book.available_copies (body j) = CreateBook.available_copies b
    /\ Book.tags (body j) = CreateBook.tags b
    /\ get_book (id j) w' = (Ok (Some j), w').
Proof.
  intros H. apply create_book_inv in H.
  destruct H as (_ & _ & Hfresh & -> & ->).
  exists (serialize_doc (new_book b w)), (new_book b w).
  repeat split.
  rewrite get_book_run. cbn [serialize_doc id new_book _id].
  rewrite parse_str_generate.
  cbn [inserted db docs with_docs db_book book].
  change (Bson.generate (next_oid w)) with (_id (new_book b w)).
  now rewrite (find_one_inserted _ (new_book b w) Hfresh).
Qed.

Lemma set_entries_fields (payload : UpdateBook.t) (b : Book.t) :
  fold_left (fun b e => set_entry e b)
            (UpdateBook.model_dump_exclude_none payload) b
  = Book.mk (or_else (UpdateBook.title payload) (Book.title b))
            (or_else (UpdateBook.author payload) (Book.author b))
            (or_else_opt (UpdateBook.isbn payload) (Book.isbn b))
            (or_else_opt (UpdateBook.category payload) (Book.category b))
            (or_else (UpdateBook.total_copies payload) (Book.total_copies b))
            (or_else (UpdateBook.available_copies payload)
                     (Book.available_copies b))
            (or_else_opt (UpdateBook.tags payload) (Book.tags b)).
Proof.
  destruct b.
  destruct payload as [[a |] [b |] [c |] [d |] [e |] [f |] [g |]];
    reflexivity.
Qed.

(** X3: [update_book] with a payload that names a field, on a book that
    exists, stores each field the payload names as given and keeps every
    other field, the identity and the creation time; no count is checked,
    so a negative one is stored as it is; the book answered is the book
    stored, and no member or loan is touched. *)
Theorem update_book_sets_given_fields (book_id : string)
        (payload : UpdateBook.t) (w : World) (b : ObjectId)
        (bk : Stored Book.t) :
  payload <> no_change ->
  Bson.parse book_id = Some b ->
  find_one (has_id b) (book (db w)) = Some bk ->
  exists bk' w',
    update_book book_id payload w = (Ok (Some (serialize_doc bk')), w')
    /\ find_one (has_id b) (book (db w')) = Some bk'
    /\ Book.title (fields bk')
       = or_else (UpdateBook.title payload) (Book.title (fields bk))
    /\ Book.author (fields bk')
       = or_else (UpdateBook.author payload) (Book.author (fields bk))
    /\ Book.isbn (fields bk')
       = or_else_opt (UpdateBook.isbn payload) (Book.isbn (fields bk))
    /\ Book.category (fields bk')
       = or_else_opt (UpdateBook.category payload)
                     (Book.category (fields bk))
    /\ Book.total_copies (fields bk')
       = or_else (UpdateBook.total_copies payload)
                 (Book.total_copies (fields bk))
    /\ Book.available_copies (fields bk')
       = or_else (UpdateBook.available_copies payload)
                 (Book.available_copies (fields bk))
    /\ Book.tags (fields bk')
       = or_else_opt (UpdateBook.tags payload) (Book.tags (fields bk))
    /\ _id bk' = _id bk
    /\ created_at bk' = created_at bk
    /\ member (db w') = member (db w)
    /\ loan (db w') = loan (db w).
Proof.
  intros Hne Hb Hbk.
  set (u := UpdateBook.model_dump_exclude_none payload).
  exists (set_update u (clock w (tick w)) bk).
  assert (Hrun : update_book book_id payload w
                 = (Ok (Some (serialize_doc
                                (set_update u (clock w (tick w)) bk))),
                    with_db (with_docs db_book
                               (fst (update_one (has_id b)
                                       (set_update u (clock w (tick w)))
                                       (book (db w))))
                               (db w))
                            (advance w))).
  { unfold update_book. fold u.
    destruct u as [| e u'] eqn:Hu.
    { now apply model_dump_nil in Hu. }
    rewrite (bind_ok _ _ _ _ _ (utcnow_run w)).
    rewrite (bind_ok _ _ _ _ _ (to_object_id_ok _ _ _ Hb)).
    rewrite (bind_ok _ _ _ _ _ (update_one_in_run db_book _ _ _)).
    cbn [docs db_book advance db]. rewrite update_one_count, Hbk.
    cbn [Z.eqb]. rewrite get_book_run, Hb.
    cbn [with_db db with_docs db_book book advance clock tick].
    rewrite (find_one_update_one _ b b _ (set_update_id _ _)).
    now rewrite oid_eqb_refl, Hbk. }
  eexists. split; [exact Hrun |]. split.
  { cbn [with_db db with_docs db_book book advance clock tick].
    rewrite (find_one_update_one _ b b _ (set_update_id _ _)).
    now rewrite oid_eqb_refl, Hbk. }
  cbn [set_update fields]. unfold u. rewrite set_entries_fields.
  repeat split.
Qed.

(** ** A handler that raises *)

Lemma bind_raise_inv {A B} (m : M A) (k : A -> M B) (w w' : World)
      (e : error) :
  bind m k w = (Raise e, w') ->
  m w = (Raise e, w')
  \/ exists a w1, m w = (Ok a, w1) /\ k a w1 = (Raise e, w').
Proof.
  unfold bind. destruct (m w) as [[a | e0] w1]; [eauto |].
  intros [= <- <-]. auto.
Qed.

Lemma to_object_id_db (s : string) (w w' : World) (r : result ObjectId) :
  to_object_id s w = (r, w') -> w' = w.
Proof.
  unfold to_object_id. destruct (Bson.parse s); cbn; now intros [= _ <-].
Qed.

Lemma create_document_raise {T} (c : Collection T) (data : T)
      (w w' : World) (e : error) :
  create_document c data w = (Raise e, w') -> db w' = db w.
Proof.
  unfold create_document, bind, utcnow, new_object_id, get_db.
  cbv beta iota zeta. cbn [db clock tick next_oid].
  destruct (insert_one _ _) as [c' |]; [discriminate |].
  unfold raise. now intros [= _ <-].
Qed.

Lemma with_docs_same (d : Database) :
  with_docs db_book (book d) d = d
  /\ with_docs db_member (member d) d = d
  /\ with_docs db_loan (loan d) d = d.
Proof. destruct d. repeat split. Qed.

Lemma create_book_raise (b : CreateBook.t) (w w' : World) (e : error) :
  create_book b w = (Raise e, w') -> db w' = db w.
Proof.
  intros H. unfold create_book in H.
  apply bind_raise_inv in H. destruct H as [H | (doc & w1 & E & H)].
  { rewrite BookSchema_run in H. destruct (_ || _); [| discriminate].
    now injection H as _ <-. }
  rewrite BookSchema_run in E. destruct (_ || _); [discriminate |].
  injection E as <- <-.
  apply bind_raise_inv in H. destruct H as [H | (s & w1 & E & H)].
  { now apply create_document_raise in H. }
  apply create_document_inv in E. cbv zeta in E. destruct E as (_ & -> & ->).
  unfold bind in H.
  rewrite (to_object_id_ok _ _ _ (parse_str_generate (next_oid w))) in H.
  discriminate H.
Qed.

Lemma update_book_raise (book_id : string) (payload : UpdateBook.t)
      (w w' : World) (e : error) :
  update_book book_id payload w = (Raise e, w') -> db w' = db w.
Proof.
  unfold update_book.
  destruct (UpdateBook.model_dump_exclude_none payload) as [| x u].
  { rewrite get_book_run. destruct (Bson.parse book_id) as [b |].
    - destruct (find_one (has_id b) (book (db w)));
        [discriminate | now intros [= _ <-]].
    - now intros [= _ <-]. }
  rewrite (bind_ok _ _ _ _ _ (utcnow_run w)).
  destruct (Bson.parse book_id) as [b |] eqn:Hb.
  2:{ rewrite (bind_raise _ _ _ _ _ (to_object_id_invalid _ _ Hb)).
      now intros [= _ <-]. }
  rewrite (bind_ok _ _ _ _ _ (to_object_id_ok _ _ _ Hb)).
  rewrite (bind_ok _ _ _ _ _ (update_one_in_run db_book _ _ _)).
  cbn [docs db_book advance db]. rewrite update_one_count.
  destruct (find_one (has_id b) (book (db w))) as [bk |] eqn:Hbk;
    cbn [Z.eqb].
  - rewrite get_book_run, Hb.
    cbn [with_db db with_docs db_book book advance clock tick].
    rewrite (find_one_update_one _ b b _ (set_update_id _ _)).
    rewrite oid_eqb_refl, Hbk. discriminate.
  - unfold raise. intros [= _ <-].
    cbn [with_db db]. rewrite (update_one_none _ _ _ Hbk).
    apply with_docs_same.
Qed.

Lemma delete_book_raise (book_id : string) (w w' : World) (e : error) :
  delete_book book_id w = (Raise e, w') -> w' = w.
Proof.
  rewrite delete_book_run.
  destruct (find_one (active_loan_of book_id) (loan (db w)));
    [now intros [= _ <-] |].
  destruct (Bson.parse book_id) as [b |]; [| now intros [= _ <-]].
  destruct (find_one (has_id b) (book (db w)));
    [discriminate | now intros [= _ <-]].
Qed.

Lemma create_member_raise (m : CreateMember.t) (w w' : World) (e : error) :
  create_member m w = (Raise e, w') -> db w' = db w.
Proof.
  intros H. unfold create_member in H.
  rewrite (bind_ok _ _ _ _ _ (find_one_in_run db_member _ w)) in H.
  destruct (find_one _ _); [discriminate |].
  apply bind_raise_inv in H. destruct H as [H | (s & w1 & E & H)].
  { now apply create_document_raise in H. }
  apply create_document_inv in E. cbv zeta in E. destruct E as (_ & -> & ->).
  unfold bind in H.
  rewrite (to_object_id_ok _ _ _ (parse_str_generate (next_oid w))) in H.
  discriminate H.
Qed.

Lemma borrow_book_raise (p : BorrowRequest.t) (w w' : World) (e : error) :
  borrow_book p w = (Raise e, w') -> db w' = db w.
Proof.
  intros H. pose proof H as Horig.
  destruct (Bson.parse (BorrowRequest.book_id p)) as [b |] eqn:Hb.
  2:{ unfold borrow_book in H.
      rewrite (bind_raise _ _ _ _ _ (to_object_id_invalid _ w Hb)) in H.
      now injection H as _ <-. }
  unfold borrow_book in H.
  rewrite (bind_ok _ _ _ _ _ (to_object_id_ok _ _ w Hb)) in H.
  rewrite (bind_ok _ _ _ _ _ (find_one_in_run db_book _ w)) in H.
  cbn [docs db_book] in H.
  destruct (find_one (has_id b) (book (db w))) as [bk |] eqn:Hbk.
  2:{ now injection H as _ <-. }
  destruct (Z.leb_spec (Book.available_copies (fields bk)) 0) as [| Hpos].
  { now injection H as _ <-. }
  destruct (Bson.parse (BorrowRequest.member_id p)) as [m |] eqn:Hm.
  2:{ rewrite (bind_raise _ _ _ _ _ (to_object_id_invalid _ w Hm)) in H.
      now injection H as _ <-. }
  rewrite (bind_ok _ _ _ _ _ (to_object_id_ok _ _ w Hm)) in H.
  rewrite (bind_ok _ _ _ _ _ (find_one_in_run db_member _ w)) in H.
  cbn [docs db_member] in H.
  destruct (find_one (has_id m) (member (db w))) as [mb |] eqn:Hmb.
  2:{ now injection H as _ <-. }
  rewrite (bind_ok _ _ _ _ _ (utcnow_run w)) in H.
  apply bind_raise_inv in H. destruct H as [H | (delta & w1 & E & H)].
  { unfold timedelta in H. destruct (Datetime.timedelta_days _);
      [discriminate | now injection H as _ <-]. }
  pose proof E as Hdelta. unfold timedelta in Hdelta.
  destruct (Datetime.timedelta_days _) as [delta' |] eqn:Htd;
    [| discriminate].
  injection Hdelta as -> <-.
  apply bind_raise_inv in H. destruct H as [H | (due & w1 & E1 & H)].
  { unfold datetime_add in H. destruct (Datetime.add _ _);
      [discriminate | now injection H as _ <-]. }
  pose proof E1 as Hdue. unfold datetime_add in Hdue.
  destruct (Datetime.add _ _) as [due' |] eqn:Hadd; [| discriminate].
  injection Hdue as -> <-.
  destruct (find_one (has_id (Bson.generate (next_oid w))) (loan (db w)))
    as [dup |] eqn:Hfresh.
  - apply bind_raise_inv in H. destruct H as [H | (s & w1 & E2 & H)].
    + now apply create_document_raise in H.
    + apply create_document_inv in E2. cbv zeta in E2.
      destruct E2 as (Hf & _). cbn [advance db docs db_loan next_oid] in Hf.
      congruence.
  - rewrite (borrow_book_succeeds p w b m bk mb delta due Hb Hbk Hpos
               Hm Hmb Htd Hadd Hfresh) in Horig.
    discriminate Horig.
Qed.

(** X4: [create_book], [update_book], [delete_book], [create_member] and
    [borrow_book] write nothing when they raise: whatever the error, the
    three collections are as they were. *)
Theorem raise_writes_nothing (w w' : World) (e : error) :
  (forall b, create_book b w = (Raise e, w') -> db w' = db w)
  /\ (forall book_id payload,
        update_book book_id payload w = (Raise e, w') -> db w' = db w)
  /\ (forall book_id, delete_book book_id w = (Raise e, w') -> db w' = db w)
  /\ (forall m, create_member m w = (Raise e, w') -> db w' = db w)
  /\ (forall p, borrow_book p w = (Raise e, w') -> db w' = db w).
Proof.
  split; [| split; [| split; [| split]]].
  - intros b. apply create_book_raise.
  - intros book_id payload. apply update_book_raise.
  - intros book_id H. now apply delete_book_raise in H as ->.
  - intros m. apply create_member_raise.
  - intros p. apply borrow_book_raise.
Qed.

(** ** Borrowing and returning at the edges *)

Lemma timedelta_days_in_range (d : Z) :
  - Datetime.max_delta_days <= d <= Datetime.max_delta_days ->
  Datetime.timedelta_days d = Some (d * Datetime.us_per_day).
Proof.
  intros [H1 H2]. unfold Datetime.timedelta_days.
  apply Z.leb_le in H1. apply Z.leb_le in H2. now rewrite H1, H2.
Qed.

Lemma timedelta_days_out_of_range (d : Z) :
  Datetime.max_delta_days < d -> Datetime.timedelta_days d = None.
Proof.
  intros H. unfold Datetime.timedelta_days.
  apply Z.leb_gt in H. now rewrite H, andb_false_r.
Qed.

Lemma datetime_add_in_range (t delta : Z) :
  Datetime.min <= t + delta <= Datetime.max ->
  Datetime.add t delta = Some (t + delta).
Proof.
  intros [H1 H2]. unfold Datetime.add. cbv zeta.
  apply Z.leb_le in H1. apply Z.leb_le in H2. now rewrite H1, H2.
Qed.

Lemma datetime_add_out_of_range (t delta : Z) :
  Datetime.max < t + delta \/ t + delta < Datetime.min ->
  Datetime.add t delta = None.
Proof.
  intros H. unfold Datetime.add. cbv zeta.
  destruct H as [H | H]; apply Z.leb_gt in H; rewrite H;
    [now rewrite andb_false_r | reflexivity].
Qed.

(** X5: [borrow_book] succeeds whenever the book is there with a copy
    to lend, the member is there, the due date is one the calendar has
    and the identity made up for the loan is free; it answers the loan
    it stored. *)
Theorem borrow_book_when_it_succeeds (p : BorrowRequest.t) (w : World)
        (b m : ObjectId) (bk : Stored Book.t) (mb : Stored Member.t) :
  Bson.parse (BorrowRequest.book_id p) = Some b ->
  find_one (has_id b) (book (db w)) = Some bk ->
  0 < Book.available_copies (fields bk) ->
  Bson.parse (BorrowRequest.member_id p) = Some m ->
  find_one (has_id m) (member (db w)) = Some mb ->
  BorrowRequest.days p <= Datetime.max_delta_days ->
  Datetime.min <= clock w (tick w)
                  + Z.max 1 (BorrowRequest.days p) * Datetime.us_per_day
               <= Datetime.max ->
  find_one (has_id (Bson.generate (next_oid w))) (loan (db w)) = None ->
  borrow_book p w = (Ok (Some (serialize_doc (new_loan p w))), lent b p w).
Proof.
  intros Hb Hbk Hpos Hm Hmb Hdays Hrange Hfresh.
  apply (borrow_book_succeeds p w b m bk mb
           (Z.max 1 (BorrowRequest.days p) * Datetime.us_per_day)
           (clock w (tick w)
            + Z.max 1 (BorrowRequest.days p) * Datetime.us_per_day));
    try assumption.
  - apply timedelta_days_in_range.
    unfold Datetime.max_delta_days in *. lia.
  - now apply datetime_add_in_range.
Qed.

(** X6: past its three checks [borrow_book] raises [OverflowError], and
    stores nothing, when [days] is more than a [timedelta] holds or when
    the due date falls outside the calendar. *)
Theorem borrow_book_overflow (p : BorrowRequest.t) (w : World)
        (b m : ObjectId) (bk : Stored Book.t) (mb : Stored Member.t) :
  Bson.parse (BorrowRequest.book_id p) = Some b ->
  find_one (has_id b) (book (db w)) = Some bk ->
  0 < Book.available_copies (fields bk) ->
  Bson.parse (BorrowRequest.member_id p) = Some m ->
  find_one (has_id m) (member (db w)) = Some mb ->
  Datetime.max_delta_days < BorrowRequest.days p
  \/ Datetime.max < clock w (tick w)
                    + Z.max 1 (BorrowRequest.days p) * Datetime.us_per_day
  \/ clock w (tick w)
     + Z.max 1 (BorrowRequest.days p) * Datetime.us_per_day < Datetime.min ->
  borrow_book p w = (Raise OverflowError, advance w).
Proof.
  intros Hb Hbk Hpos Hm Hmb Hover. unfold borrow_book.
  rewrite (bind_ok _ _ _ _ _ (to_object_id_ok _ _ w Hb)).
  rewrite (bind_ok _ _ _ _ _ (find_one_in_run db_book _ w)).
  cbn [docs db_book]. rewrite Hbk.
  destruct (Z.leb_spec (Book.available_copies (fields bk)) 0); [lia |].
  rewrite (bind_ok _ _ _ _ _ (to_object_id_ok _ _ w Hm)).
  rewrite (bind_ok _ _ _ _ _ (find_one_in_run db_member _ w)).
  cbn [docs db_member]. rewrite Hmb.
  rewrite (bind_ok _ _ _ _ _ (utcnow_run w)).
  destruct (Z.le_gt_cases (BorrowRequest.days p) Datetime.max_delta_days)
    as [Hle | Hgt].
  - assert (Ht : timedelta (Z.max 1 (BorrowRequest.days p)) (advance w)
                 = (Ok (Z.max 1 (BorrowRequest.days p)
                        * Datetime.us_per_day), advance w)).
    { unfold timedelta. rewrite timedelta_days_in_range; [reflexivity |].
      unfold Datetime.max_delta_days in *. lia. }
    rewrite (bind_ok _ _ _ _ _ Ht).
    apply bind_raise. unfold datetime_add.
    rewrite datetime_add_out_of_range; [reflexivity |].
    destruct Hover as [Hd | Hover]; [lia | exact Hover].
  - apply bind_raise. unfold timedelta.
    rewrite timedelta_days_out_of_range; [reflexivity |].
    unfold Datetime.max_delta_days in *. lia.
Qed.

(** X7: [return_book] on an open loan whose [book_id] is a text that is
    not an identifier marks the loan returned and only then raises
    InvalidInput: the loan stays closed, and no book gets the copy. *)
Theorem return_book_bad_book_id (payload : ReturnRequest.t) (w : World)
        (o : ObjectId) (l : Stored Loan.t) (s : string) :
  Bson.parse (ReturnRequest.loan_id payload) = Some o ->
  find_one (has_id o) (loan (db w)) = Some l ->
  Loan.returned (fields l) = false ->
  Loan.book_id (fields l) = Some s ->
  s <> "" ->
  Bson.parse s = None ->
  exists l' w',
    return_book payload w = (Raise InvalidInput, w')
    /\ find_one (has_id o) (loan (db w')) = Some l'
    /\ Loan.returned (fields l') = true
    /\ same_loan_but_returned l' l
    /\ book (db w') = book (db w).
Proof.
  intros Ho Hl Hr Hs Hne Hbad.
  rewrite (return_book_run payload w o l Ho Hl Hr). cbv zeta.
  rewrite Hs.
  assert (Ht : truthy (Some s) = Some s).
  { destruct s; [exfalso; now apply Hne | reflexivity]. }
  rewrite Ht, Hbad.
  exists (set_returned (clock w (tick w)) l), (marked_returned o w).
  split; [reflexivity |]. split; [now apply marked_returned_find |].
  split; [reflexivity |]. split; [apply set_returned_same | reflexivity].
Qed.

(** ** Members *)

Lemma create_member_run (m : CreateMember.t) (w : World) :
  create_member m w =
  match find_one (has_email (CreateMember.email m)) (member (db w)) with
  | Some e => (Ok (Some (serialize_doc e)), w)
  | None =>
      match find_one (has_id (Bson.generate (next_oid w))) (member (db w))
      with
      | Some _ => (Raise DuplicateKeyError,
                   mkWorld (db w) (clock w) (S (tick w))
                           (N.succ (next_oid w)))
      | None => (Ok (Some (serialize_doc (new_member m w))),
                 inserted db_member (new_member m w) w)
      end
  end.
Proof.
  unfold create_member.
  rewrite (bind_ok _ _ _ _ _ (find_one_in_run db_member _ w)).
  cbn [docs db_member].
  destruct (find_one (has_email _) _) as [e |]; [reflexivity |].
  destruct (find_one (has_id (Bson.generate (next_oid w))) (member (db w)))
    as [dup |] eqn:Hfresh.
  - apply bind_raise.
    unfold create_document, bind, utcnow, new_object_id, get_db.
    cbv beta iota zeta. cbn [db clock tick next_oid docs db_member].
    unfold insert_one. cbn [_id]. now rewrite Hfresh.
  - rewrite (bind_ok _ _ _ _ _ (create_document_run db_member _ w Hfresh)).
    rewrite (bind_ok _ _ _ _ _
               (to_object_id_ok _ _ _ (parse_str_generate (next_oid w)))).
    rewrite (bind_ok _ _ _ _ _ (find_one_in_run db_member _ _)).
    cbn [db docs with_docs db_member member ret].
    change (find_one (has_id (Bson.generate (next_oid w))) _)
      with (find_one (has_id (_id (new_member m w)))
                     (member (db w) ++ [new_member m w])).
    now rewrite (find_one_inserted _ (new_member m w) Hfresh).
Qed.

Lemma get_member_by_email_run (email : string) (w : World) :
  get_member_by_email email w =
  match find_one (has_email email) (member (db w)) with
  | Some e => (Ok (Some (serialize_doc e)), w)
  | None => (Raise (NotFound "Member not found"), w)
  end.
Proof.
  unfold get_member_by_email.
  rewrite (bind_ok _ _ _ _ _ (find_one_in_run db_member _ w)).
  cbn [docs db_member]. now destruct (find_one _ _).
Qed.

(** After a [create_member] that succeeds the first member with the
    email is the member answered. *)
Lemma create_member_ok_find (m : CreateMember.t) (w w1 : World)
      (r : option (Json Member.t)) :
  create_member m w = (Ok r, w1) ->
  exists e,
    find_one (has_email (CreateMember.email m)) (member (db w1)) = Some e
    /\ r = Some (serialize_doc e).
Proof.
  rewrite create_member_run.
  destruct (find_one (has_email _) (member (db w))) as [e |] eqn:He.
  - intros [= <- <-]. eauto.
  - destruct (find_one (has_id _) _); [discriminate |].
    intros [= <- <-]. exists (new_member m w). split; [| reflexivity].
    cbn [inserted db docs with_docs db_member member].
    rewrite find_one_app, He. cbn. unfold has_email. cbn.
    now rewrite String.eqb_refl.
Qed.

(** X8: a [create_member] that finds no member with the email and
    succeeds appends one member with the name, email and phone of the
    request and [is_active] set, touches no book or loan, and answers
    that member. *)
Theorem create_member_new_email (m : CreateMember.t) (w w' : World)
        (r : option (Json Member.t)) :
  (forall e, In e (member (db w)) ->
             Member.email (fields e) <> CreateMember.email m) ->
  create_member m w = (Ok r, w') ->
  exists d,
    r = Some (serialize_doc d)
    /\ member (db w') = member (db w) ++ [d]
    /\ fields d = Member.mk (CreateMember.name m) (CreateMember.email m)
                            (CreateMember.phone m) true
    /\ find_one (has_id (_id d)) (member (db w)) = None
    /\ book (db w') = book (db w)
    /\ loan (db w') = loan (db w).
Proof.
  intros Hnew. rewrite create_member_run.
  destruct (find_one (has_email _) (member (db w))) as [e |] eqn:He.
  { apply find_one_some in He. destruct He as [Hin Hp].
    apply String.eqb_eq in Hp. now apply Hnew in Hin. }
  destruct (find_one (has_id _) _) eqn:Hfresh; [discriminate |].
  intros [= <- <-]. exists (new_member m w). repeat split. exact Hfresh.
Qed.

(** X9: after a [create_member] that succeeds, the email is taken for
    good: [get_member_by_email] and every further [create_member] with
    that email, whatever name and phone it brings, answer the same member
    and change nothing. *)
Theorem create_member_idempotent (m : CreateMember.t) (w w1 : World)
        (r : option (Json Member.t)) :
  create_member m w = (Ok r, w1) ->
  get_member_by_email (CreateMember.email m) w1 = (Ok r, w1)
  /\ (forall m',
        CreateMember.email m' = CreateMember.email m ->
        create_member m' w1 = (Ok r, w1)).
Proof.
  intros H. apply create_member_ok_find in H. destruct H as (e & He & ->).
  split.
  - now rewrite get_member_by_email_run, He.
  - intros m' Hm'. now rewrite create_member_run, Hm', He.
Qed.

(** X10: [get_member_by_email] is NotFound exactly when no stored member
    has the email; otherwise it answers a stored member with that email;
    either way it changes nothing. *)
Theorem get_member_by_email_spec (email : string) (w : World) :
  ((forall e, In e (member (db w)) -> Member.email (fields e) <> email)
   <-> get_member_by_email email w
       = (Raise (NotFound "Member not found"), w))
  /\ (forall r w',
        get_member_by_email email w = (Ok r, w') ->
        w' = w
        /\ exists e, In e (member (db w))
                     /\ Member.email (fields e) = email
                     /\ r = Some (serialize_doc e)).
Proof.
  rewrite get_member_by_email_run.
  destruct (find_one (has_email email) (member (db w))) as [e |] eqn:He.
  - destruct (find_one_some _ _ _ He) as [Hin Hp].
    apply String.eqb_eq in Hp. split.
    + split; [| discriminate]. intros Hnone. now apply Hnone in Hin.
    + intros r w' [= <- <-]. split; [reflexivity |]. eauto.
  - split; [| discriminate]. split; [reflexivity |].
    intros _ e Hin Hp. pose proof (find_one_none _ _ He e Hin) as Hf.
    unfold has_email in Hf. apply String.eqb_neq in Hf. contradiction.
Qed.

(** X11: [create_member] keeps emails unique: if no two stored members
    share an email before the call, none do after it, whether it
    succeeds or raises. *)
Theorem create_member_keeps_emails_unique (m : CreateMember.t) (w : World) :
  NoDup (map (fun e => Member.email (fields e)) (member (db w))) ->
  NoDup (map (fun e => Member.email (fields e))
             (member (db (snd (create_member m w))))).
Proof.
  intros Hnd. rewrite create_member_run.
  destruct (find_one (has_email _) (member (db w))) as [e |] eqn:He;
    [exact Hnd |].
  destruct (find_one (has_id _) _); [exact Hnd |].
  cbn [snd inserted db docs with_docs db_member member].
  rewrite map_app. cbn [map new_member fields Member.email].
  apply NoDup_app; [exact Hnd | repeat constructor; intros [] |].
  intros x Hx [<- | []]. apply in_map_iff in Hx.
  destruct Hx as (e & Heq & Hin).
  pose proof (find_one_none _ _ He e Hin) as Hf. unfold has_email in Hf.
  apply String.eqb_neq in Hf. contradiction.
Qed.

(** ** Listings *)

Section SortingByText.
Context {T : Type} (key : Stored T -> string).
Implicit Types (c : list (Stored T)) (d : Stored T).

Lemma insert_asc_perm d c : Permutation (insert_asc key d c) (d :: c).
Proof.
  induction c as [| e c IH]; cbn; [reflexivity |].
  destruct (String.leb (key d) (key e)); [reflexivity |].
  rewrite IH. apply perm_swap.
Qed.

Lemma sort_asc_perm c : Permutation (sort_asc key c) c.
Proof.
  induction c as [| d c IH]; cbn; [reflexivity |].
  rewrite insert_asc_perm. now constructor.
Qed.

Lemma insert_asc_sorted d c :
  Sorted (text_le key) c -> Sorted (text_le key) (insert_asc key d c).
Proof.
  induction c as [| e c IH]; intros Hs; cbn.
  - repeat constructor.
  - apply Sorted_inv in Hs. destruct Hs as [Hs He].
    destruct (String.leb (key d) (key e)) eqn:Hde.
    + constructor; [now constructor |]. constructor. exact Hde.
    + constructor; [now apply IH |].
      assert (Hed : text_le key e d).
      { unfold text_le. destruct (String.leb_total (key d) (key e));
          congruence. }
      destruct c as [| e' c]; cbn; [now constructor |].
      destruct (String.leb (key d) (key e')); constructor;
        [exact Hed | now apply HdRel_inv in He].
Qed.

Lemma sort_asc_sorted c : Sorted (text_le key) (sort_asc key c).
Proof.
  induction c as [| d c IH]; cbn; [constructor |].
  now apply insert_asc_sorted.
Qed.

End SortingByText.

Lemma filter_all {A} (l : list A) : filter (fun _ => true) l = l.
Proof. induction l; cbn; congruence. Qed.

(** X12: [list_members] answers every stored member, once each, in
    ascending order of name, and changes nothing. *)
Theorem list_members_spec (w : World) :
  exists ls,
    list_members w = (Ok (map serialize_doc ls), w)
    /\ Permutation ls (member (db w))
    /\ Sorted (text_le (fun d => Member.name (fields d))) ls.
Proof.
  exists (sort_asc (fun d => Member.name (fields d)) (member (db w))).
  split; [| split].
  - unfold list_members, find_in. rewrite !bind_run. cbn [get_db ret].
    cbn [docs db_member]. now rewrite filter_all.
  - apply sort_asc_perm.
  - apply sort_asc_sorted.
Qed.

(** What [list_books] looks for in a book. *)
Lemma book_matches_spec (found_in : string -> bool) (d : Stored Book.t) :
  book_matches found_in d = true
  <-> found_in (Book.title (fields d)) = true
      \/ found_in (Book.author (fields d)) = true
      \/ (exists c, Book.category (fields d) = Some c /\ found_in c = true)
      \/ (exists ts t, Book.tags (fields d) = Some ts
                       /\ In t ts /\ found_in t = true).
Proof.
  unfold book_matches. rewrite !orb_true_iff.
  assert (Hc : match Book.category (fields d) with
               | Some c => found_in c
               | None => false
               end = true
               <-> exists c, Book.category (fields d) = Some c
                             /\ found_in c = true).
  { destruct (Book.category (fields d)) as [c |]; split.
    - intros H. exists c. auto.
    - intros (c' & [= <-] & H). exact H.
    - discriminate.
    - intros (c' & [=] & _). }
  assert (Ht : match Book.tags (fields d) with
               | Some ts => existsb found_in ts
               | None => false
               end = true
               <-> exists ts t, Book.tags (fields d) = Some ts
                                /\ In t ts /\ found_in t = true).
  { destruct (Book.tags (fields d)) as [ts |]; split.
    - intros H. apply existsb_exists in H. destruct H as (t & Hin & H).
      exists ts, t. auto.
    - intros (ts' & t & [= <-] & Hin & H). apply existsb_exists. eauto.
    - discriminate.
    - intros (ts' & t & [=] & _). }
  rewrite Hc, Ht. tauto.
Qed.

(** X13: [list_books] without a query, or with an empty one, answers
    every stored book; with a query the store accepts it answers exactly
    the books in which the query is found in the title, the author, the
    category or one of the tags; the books come in ascending order of
    title and nothing is changed.  A query the store rejects raises. *)
Theorem list_books_spec (regex : string -> option (string -> bool))
        (q : option string) (w : World) :
  (truthy q = None ->
   exists ls,
     list_books regex q w = (Ok (map serialize_doc ls), w)
     /\ Permutation ls (book (db w))
     /\ Sorted (text_le (fun d => Book.title (fields d))) ls)
  /\ (forall s found_in,
        truthy q = Some s ->
        regex s = Some found_in ->
        exists ls,
          list_books regex q w = (Ok (map serialize_doc ls), w)
          /\ Permutation ls (filter (book_matches found_in) (book (db w)))
          /\ (forall d,
                In d ls <->
                In d (book (db w))
                /\ (found_in (Book.title (fields d)) = true
                    \/ found_in (Book.author (fields d)) = true
                    \/ (exists c, Book.category (fields d) = Some c
                                  /\ found_in c = true)
                    \/ (exists ts t, Book.tags (fields d) = Some ts
                                     /\ In t ts /\ found_in t = true)))
          /\ Sorted (text_le (fun d => Book.title (fields d))) ls)
  /\ (forall s,
        truthy q = Some s ->
        regex s = None ->
        list_books regex q w = (Raise OperationFailure, w)).
Proof.
  split; [| split].
  - intros Hq.
    exists (sort_asc (fun d => Book.title (fields d)) (book (db w))).
    split; [| split; [apply sort_asc_perm | apply sort_asc_sorted]].
    unfold list_books, find_in, bind, get_db, ret. rewrite Hq.
    cbn [docs db_book]. now rewrite filter_all.
  - intros s found_in Hq Hre.
    set (ls := sort_asc (fun d => Book.title (fields d))
                        (filter (book_matches found_in) (book (db w)))).
    assert (Hperm : Permutation ls (filter (book_matches found_in)
                                           (book (db w))))
      by apply sort_asc_perm.
    exists ls. split; [| split; [exact Hperm | split]].
    + unfold list_books, find_in, bind, get_db, ret. now rewrite Hq, Hre.
    + intros d. rewrite <- book_matches_spec, <- filter_In. split.
      * apply (Permutation_in _ Hperm).
      * apply (Permutation_in _ (Permutation_sym Hperm)).
    + apply sort_asc_sorted.
  - intros s Hq Hre. unfold list_books. rewrite Hq, Hre.
    now apply bind_raise.
Qed.

Lemma loan_filter_spec (member_id : option string) (active : option bool)
      (l : Stored Loan.t) :
  loan_filter member_id active l = true <-> asked_for member_id active l.
Proof.
  unfold loan_filter, asked_for. rewrite andb_true_iff.
  assert (H1 : match truthy member_id with
               | Some m => String.eqb (Loan.member_id (fields l)) m
               | None => true
               end = true
               <-> match member_id with
                   | Some m => m = "" \/ Loan.member_id (fields l) = m
                   | None => True
                   end).
  { destruct member_id as [[| c m] |]; cbn [truthy].
    - split; auto.
    - rewrite String.eqb_eq. split; [auto | intros [H | H]]; congruence.
    - split; auto. }
  assert (H2 : match active with
               | Some a => Bool.eqb (Loan.returned (fields l)) (negb a)
               | None => true
               end = true
               <-> match active with
                   | Some a => Loan.returned (fields l) = negb a
                   | None => True
                   end).
  { destruct active as [a |]; [apply Bool.eqb_true_iff | split; auto]. }
  now rewrite H1, H2.
Qed.

(** X14: [list_loans] answers exactly the stored loans of the member
    asked for, when one is named by a text that is not empty, that are
    open when [active] is true and closed when it is false; they come
    newest first and nothing is changed. *)
Theorem list_loans_spec (member_id : option string) (active : option bool)
        (w : World) :
  exists ls,
    list_loans member_id active w = (Ok (map serialize_doc ls), w)
    /\ Permutation ls (filter (loan_filter member_id active) (loan (db w)))
    /\ (forall l, In l ls <->
                  In l (loan (db w)) /\ asked_for member_id active l)
    /\ StronglySorted newer ls.
Proof.
  set (ls := sort_created_desc
               (filter (loan_filter member_id active) (loan (db w)))).
  assert (Hperm : Permutation ls (filter (loan_filter member_id active)
                                         (loan (db w))))
    by apply sort_created_desc_perm.
  exists ls. split; [| split; [exact Hperm | split]].
  - unfold list_loans, find_in. now rewrite !bind_run.
  - intros l. rewrite <- loan_filter_spec, <- filter_In. split.
    + apply (Permutation_in _ Hperm).
    + apply (Permutation_in _ (Permutation_sym Hperm)).
  - apply sort_created_desc_sorted.
Qed.

Lemma enrich_inv (l : Stored Loan.t) (w w' : World) (e : Enriched.t) :
  enrich l w = (Ok e, w') -> Enriched.loan e = serialize_doc l /\ w' = w.
Proof.
  intros H. unfold enrich in H.
  inv_bind H. unfold subscript_book_id in E.
  destruct (Loan.book_id (fields l)) as [s |]; [| discriminate].
  injection E as <- <-.
  inv_oid H. inv_find H. inv_oid H. inv_find H.
  apply ret_inv in H. destruct H as [-> ->]. auto.
Qed.

Lemma for_each_enrich_inv (ls : list (Stored Loan.t)) (w w' : World)
      (r : list Enriched.t) :
  for_each enrich ls w = (Ok r, w') ->
  map Enriched.loan r = map serialize_doc ls /\ w' = w.
Proof.
  revert w w' r.
  induction ls as [| l ls IH]; intros w w' r H; cbn [for_each] in H.
  - apply ret_inv in H. destruct H as [-> ->]. auto.
  - inv_bind H. apply enrich_inv in E. destruct E as [He ->].
    inv_bind H. apply IH in E. destruct E as [Hr ->].
    apply ret_inv in H. destruct H as [-> ->]. cbn. now rewrite He, Hr.
Qed.

(** X15: the two listings of open loans agree: whenever [active_loans]
    answers, [list_loans] asked for the active loans of anyone answers
    the same loans in the same order, without the book and member
    added. *)
Theorem active_loans_agrees_with_list_loans (w w' : World)
        (r : list Enriched.t) :
  active_loans w = (Ok r, w') ->
  list_loans None (Some true) w = (Ok (map Enriched.loan r), w).
Proof.
  intros H. unfold active_loans, find_in in H. rewrite !bind_run in H.
  cbn [get_db ret docs db_loan] in H.
  apply for_each_enrich_inv in H. destruct H as [Hr _].
  unfold list_loans, find_in. rewrite !bind_run.
  cbn [get_db ret docs db_loan]. rewrite Hr.
  assert (Hf : forall c, filter (loan_filter None (Some true)) c
                         = filter not_returned c).
  { intros c. apply filter_ext. intros l.
    unfold loan_filter, not_returned. cbn.
    now destruct (Loan.returned (fields l)). }
  now rewrite Hf.
Qed.

(** ** The loans of a member *)

Lemma enrich_book_run (w : World) (l : Stored Loan.t) :
  names_a_book l ->
  exists e, enrich_book l w = (Ok e, w) /\ with_book_from w l e.
Proof.
  intros (s & b & Hs & Hb). unfold enrich_book.
  assert (Hsub : subscript_book_id l w = (Ok s, w)).
  { unfold subscript_book_id. now rewrite Hs. }
  rewrite (bind_ok _ _ _ _ _ Hsub).
  rewrite (bind_ok _ _ _ _ _ (to_object_id_ok _ _ w Hb)).
  rewrite (bind_ok _ _ _ _ _ (find_one_in_run db_book _ w)).
  cbn [docs db_book]. eexists. split; [reflexivity |].
  split; [reflexivity |]. exists s, b. cbn [BookLoan.book].
  repeat split; assumption.
Qed.

Lemma for_each_enrich_book (w : World) (ls : list (Stored Loan.t)) :
  Forall names_a_book ls ->
  exists r,
    for_each enrich_book ls w = (Ok r, w) /\ Forall2 (with_book_from w) ls r.
Proof.
  induction 1 as [| l ls Hl _ IH]; cbn [for_each].
  - exists []. split; [reflexivity | constructor].
  - destruct (enrich_book_run w l Hl) as (e & He & Hfrom).
    destruct IH as (r & Hr & Hall).
    exists (e :: r). split; [| now constructor].
    rewrite (bind_ok _ _ _ _ _ He). now rewrite (bind_ok _ _ _ _ _ Hr).
Qed.

(** [loans_by_email] once the member is found. *)
Lemma loans_by_email_run (email : string) (w : World)
      (m : Stored Member.t) :
  find_one (has_email email) (member (db w)) = Some m ->
  loans_by_email email w
  = for_each enrich_book
      (sort_created_desc
         (filter (loan_of_member (Bson.str (_id m))) (loan (db w)))) w.
Proof.
  intros Hm. unfold loans_by_email.
  rewrite (bind_ok _ _ _ _ _ (find_one_in_run db_member _ w)).
  cbn [docs db_member]. rewrite Hm.
  unfold find_in. now rewrite !bind_run.
Qed.

(** X16: [loans_by_email] is NotFound when no member has the email.
    Otherwise, the loans of the first such member being loans that name
    a book by an identifier, it answers exactly the stored loans whose
    [member_id] is the text of that member's identity, newest first,
    each with the title and author of its book as they are now, or null
    when the book is gone; it changes nothing. *)
Theorem loans_by_email_spec (email : string) (w : World) :
  ((forall e, In e (member (db w)) -> Member.email (fields e) <> email) ->
   loans_by_email email w = (Raise (NotFound "Member not found"), w))
  /\ (forall m,
        find_one (has_email email) (member (db w)) = Some m ->
        Forall names_a_book
               (filter (loan_of_member (Bson.str (_id m))) (loan (db w))) ->
        exists ls r,
          loans_by_email email w = (Ok r, w)
          /\ Permutation ls (filter (loan_of_member (Bson.str (_id m)))
                                    (loan (db w)))
          /\ (forall l, In l ls <->
                        In l (loan (db w))
                        /\ Loan.member_id (fields l) = Bson.str (_id m))
          /\ StronglySorted newer ls
          /\ Forall2 (with_book_from w) ls r).
Proof.
  split.
  - intros Hnone. unfold loans_by_email.
    rewrite (bind_ok _ _ _ _ _ (find_one_in_run db_member _ w)).
    cbn [docs db_member].
    destruct (find_one (has_email email) (member (db w))) as [e |] eqn:He;
      [| reflexivity].
    destruct (find_one_some _ _ _ He) as [Hin Hp].
    apply String.eqb_eq in Hp. now apply Hnone in Hin.
  - intros m Hm Hwf. rewrite (loans_by_email_run email w m Hm).
    set (ls := sort_created_desc
                 (filter (loan_of_member (Bson.str (_id m))) (loan (db w)))).
    assert (Hperm : Permutation ls (filter (loan_of_member (Bson.str (_id m)))
                                           (loan (db w))))
      by apply sort_created_desc_perm.
    destruct (for_each_enrich_book w ls) as (r & Hr & Hall).
    { now apply (Permutation_Forall (Permutation_sym Hperm)). }
    exists ls, r. split; [exact Hr |]. split; [exact Hperm |].
    split; [| split; [apply sort_created_desc_sorted | exact Hall]].
    intros l. split.
    + intros Hin. apply (Permutation_in _ Hperm) in Hin.
      apply filter_In in Hin. destruct Hin as [Hin Hp]. split; [exact Hin |].
      now apply String.eqb_eq in Hp.
    + intros [Hin Hp]. apply (Permutation_in _ (Permutation_sym Hperm)).
      apply filter_In. split; [exact Hin |]. now apply String.eqb_eq.
Qed.

Lemma Forall2_in_left {A B} (R : A -> B -> Prop) (l : list A) (r : list B)
      (x : A) :
  Forall2 R l r -> In x l -> exists y, In y r /\ R x y.
Proof.
  induction 1 as [| a b l r Hab _ IH]; intros Hin; [destruct Hin |].
  destruct Hin as [<- | Hin].
  - exists b. split; [now left | exact Hab].
  - destruct (IH Hin) as (y & Hy & HR). exists y. split; [now right | exact HR].
Qed.

Lemma loan_well_formed_names_a_book (l : Stored Loan.t) :
  loan_well_formed l -> names_a_book l.
Proof. now intros [H _]. Qed.

(** X17: a loan borrowed under the text of a member's identity, as the
    handlers answer it, shows in that member's [loans_by_email] right
    after, with the title and author of the book lent. *)
Theorem borrow_book_then_loans_by_email (p : BorrowRequest.t)
        (w w1 : World) (a : Json Loan.t) (email : string)
        (mb : Stored Member.t) :
  borrow_book p w = (Ok (Some a), w1) ->
  find_one (has_email email) (member (db w)) = Some mb ->
  BorrowRequest.member_id p = Bson.str (_id mb) ->
  Forall loan_well_formed (loan (db w)) ->
  exists r e bk,
    loans_by_email email w1 = (Ok r, w1)
    /\ In e r
    /\ BookLoan.loan e = a
    /\ Bson.parse (BorrowRequest.book_id p) = Some (_id bk)
    /\ In bk (book (db w))
    /\ BookLoan.book e
       = Some (Enriched.mkBook (Book.title (fields bk))
                               (Book.author (fields bk))).
Proof.
  intros Hrun Hmb Hid Hwf.
  pose proof (borrow_book_well_formed p w w1 _ Hrun Hwf) as Hwf1.
  apply borrow_book_inv in Hrun.
  destruct Hrun as (b & bk & Hb & Hbk & Hfresh & Ha & ->).
  injection Ha as ->.
  assert (Hmb1 : find_one (has_email email) (member (db (lent b p w)))
                 = Some mb) by exact Hmb.
  rewrite (loans_by_email_run email _ mb Hmb1).
  set (ls := sort_created_desc
               (filter (loan_of_member (Bson.str (_id mb)))
                       (loan (db (lent b p w))))).
  assert (Hperm : Permutation ls (filter (loan_of_member (Bson.str (_id mb)))
                                         (loan (db (lent b p w)))))
    by apply sort_created_desc_perm.
  destruct (for_each_enrich_book (lent b p w) ls) as (r & Hr & Hall).
  { apply (Permutation_Forall (Permutation_sym Hperm)).
    apply Forall_forall. intros l Hl. apply filter_In in Hl.
    destruct Hl as [Hl _]. rewrite Forall_forall in Hwf1.
    now apply loan_well_formed_names_a_book, Hwf1. }
  assert (Hin : In (new_loan p w) ls).
  { apply (Permutation_in _ (Permutation_sym Hperm)). apply filter_In.
    split.
    - cbn [lent db loan]. apply in_or_app. right. now left.
    - unfold loan_of_member. cbn [new_loan fields Loan.member_id].
      rewrite Hid. apply String.eqb_refl. }
  destruct (Forall2_in_left _ _ _ _ Hall Hin)
    as (e & He & Hloan & s & b' & Hs & Hb' & Hbook).
  cbn [new_loan fields Loan.book_id] in Hs. injection Hs as <-.
  rewrite Hb in Hb'. injection Hb' as <-.
  exists r, e, bk. split; [exact Hr |]. split; [exact He |].
  split; [exact Hloan |].
  rewrite (find_one_has_id _ _ _ Hbk).
  split; [exact Hb |]. split; [now apply find_one_some in Hbk |].
  rewrite Hbook. cbn [lent db book].
  rewrite (find_one_update_one _ b b _ (inc_available_copies_id _ _)).
  now rewrite oid_eqb_refl, Hbk.
Qed.

(** ** What the handlers keep *)

Lemma on_loan_app (b : ObjectId) (w : World) (c1 c2 : list (Stored Loan.t)) :
  loan (db w) = c1 ++ c2 ->
  on_loan b w
  = Z.of_nat (List.length
                (filter (fun l => not_returned l
                                  && names_book b (Loan.book_id (fields l)))
                        c1))
    + Z.of_nat (List.length
                  (filter (fun l => not_returned l
                                    && names_book b (Loan.book_id (fields l)))
                          c2)).
Proof.
  intros H. unfold on_loan. rewrite H, filter_app, length_app. lia.
Qed.

Lemma borrow_book_ledger (p : BorrowRequest.t) (w w' : World)
      (r : option (Json Loan.t)) (b : ObjectId) (bk : Stored Book.t) :
  borrow_book p w = (Ok r, w') ->
  find_one (has_id b) (book (db w)) = Some bk ->
  exists bk',
    find_one (has_id b) (book (db w')) = Some bk'
    /\ Book.available_copies (fields bk') + on_loan b w'
       = Book.available_copies (fields bk) + on_loan b w.
Proof.
  intros H Hbk. pose proof H as Hinv. apply borrow_book_inv in Hinv.
  destruct Hinv as (b0 & bk0 & Hb0 & _ & _ & -> & ->).
  destruct (borrow_step_book p w _ _ b bk H Hbk) as (bk' & Hbk' & Hn).
  exists bk'. split; [exact Hbk' |]. rewrite Hn.
  rewrite (on_loan_app b (lent b0 p w) (loan (db w)) [new_loan p w] eq_refl).
  unfold on_loan.
  cbn [filter serialize_doc body new_loan fields Loan.book_id
       not_returned Loan.returned negb andb].
  destruct (names_book b (Some (BorrowRequest.book_id p)));
    cbn [List.length]; lia.
Qed.

Lemma return_book_ledger (p : ReturnRequest.t) (w w' : World)
      (r : option (Json Loan.t)) (b : ObjectId) (bk : Stored Book.t) :
  return_book p w = (Ok r, w') ->
  find_one (has_id b) (book (db w)) = Some bk ->
  exists bk',
    find_one (has_id b) (book (db w')) = Some bk'
    /\ Book.available_copies (fields bk') + on_loan b w'
       = Book.available_copies (fields bk) + on_loan b w.
Proof.
  intros H Hbk.
  destruct (Bson.parse (ReturnRequest.loan_id p)) as [o |] eqn:Ho.
  2:{ unfold return_book in H.
      rewrite (bind_raise _ _ _ _ _ (to_object_id_invalid _ w Ho)) in H.
      discriminate. }
  destruct (find_one (has_id o) (loan (db w))) as [l |] eqn:Hl.
  2:{ unfold return_book in H.
      rewrite (bind_ok _ _ _ _ _ (to_object_id_ok _ _ w Ho)) in H.
      rewrite (bind_ok _ _ _ _ _ (find_one_in_run db_loan (has_id o) w)) in H.
      cbn [docs db_loan] in H. rewrite Hl in H. discriminate. }
  destruct (Loan.returned (fields l)) eqn:Hr.
  { rewrite (return_book_returned p w o l Ho Hl Hr) in H.
    injection H as <- <-. exists bk. auto. }
  assert (Hstep : r = Some (serialize_doc (set_returned (clock w (tick w)) l))
                  /\ loan (db w') = loan (db (marked_returned o w))).
  { pose proof H as H'.
    rewrite (return_book_run p w o l Ho Hl Hr) in H'. cbv zeta in H'.
    pose proof (marked_returned_find o w l Hl) as Hl1.
    destruct (truthy (Loan.book_id (fields l))) as [s |].
    - destruct (Bson.parse s) as [b0 |]; [| discriminate].
      change (loan (db (copy_given_back b0 (marked_returned o w))))
        with (loan (db (marked_returned o w))) in H'.
      rewrite Hl1 in H'. injection H' as <- <-. auto.
    - rewrite Hl1 in H'. injection H' as <- <-. auto. }
  destruct Hstep as [-> Hloans].
  destruct (return_step_book p w w' _ o l b bk Ho Hl Hr H Hbk)
    as (bk' & Hbk' & Hn).
  exists bk'. split; [exact Hbk' |]. rewrite Hn.
  cbn [serialize_doc body set_returned fields Loan.book_id].
  destruct (marked_returned_split o w l Hl) as (c1 & c2 & Hc & Hc').
  rewrite <- Hloans in Hc'.
  rewrite (on_loan_app b w' c1 (set_returned (clock w (tick w)) l :: c2) Hc').
  rewrite (on_loan_app b w c1 (l :: c2) Hc).
  cbn [filter]. unfold not_returned.
  cbn [set_returned fields Loan.returned Loan.book_id]. rewrite Hr.
  cbn [negb andb].
  destruct (names_book b (Loan.book_id (fields l))); cbn [List.length]; lia.
Qed.

(** X18: the copies of a book on the shelf and the open loans that
    name it add up to the same number before and after every
    [borrow_book] and every [return_book] that succeeds. *)
Theorem ledger_kept (w w' : World) (r : option (Json Loan.t))
        (b : ObjectId) (bk : Stored Book.t) :
  find_one (has_id b) (book (db w)) = Some bk ->
  (exists p, borrow_book p w = (Ok r, w'))
  \/ (exists p, return_book p w = (Ok r, w')) ->
  exists bk',
    find_one (has_id b) (book (db w')) = Some bk'
    /\ Book.available_copies (fields bk') + on_loan b w'
       = Book.available_copies (fields bk) + on_loan b w.
Proof.
  intros Hbk [(p & H) | (p & H)].
  - exact (borrow_book_ledger p w w' r b bk H Hbk).
  - exact (return_book_ledger p w w' r b bk H Hbk).
Qed.

Lemma update_one_first {T} (P : Stored T -> Prop) (p : Stored T -> bool)
      (f : Stored T -> Stored T) (c : list (Stored T)) :
  Forall P c ->
  (forall d, find_one p c = Some d -> P (f d)) ->
  Forall P (fst (update_one p f c)).
Proof.
  intros Hall Hf.
  destruct (find_one p c) as [d |] eqn:Hd.
  - destruct (update_one_split c p f d Hd) as (c1 & c2 & H1 & H2 & _).
    rewrite H2. rewrite H1 in Hall. apply Forall_app in Hall.
    destruct Hall as [Ha Hb]. apply Forall_app. split; [exact Ha |].
    apply Forall_cons_iff in Hb. destruct Hb as [_ Hb].
    constructor; [now apply Hf | exact Hb].
  - now rewrite (update_one_none _ _ _ Hd).
Qed.

(** X19: [borrow_book] and [return_book] never take a count below
    zero: if no stored book has a negative [available_copies] before the
    call, none has after it, whether the call succeeds or raises. *)
Theorem copies_never_negative (w : World) :
  Forall (fun d => 0 <= Book.available_copies (fields d)) (book (db w)) ->
  (forall p,
      Forall (fun d => 0 <= Book.available_copies (fields d))
             (book (db (snd (borrow_book p w)))))
  /\ (forall p,
        Forall (fun d => 0 <= Book.available_copies (fields d))
               (book (db (snd (return_book p w))))).
Proof.
  intros Hall. split.
  - intros p. destruct (borrow_book p w) as [[r | e] w'] eqn:H; cbn [snd].
    + pose proof H as Hinv. apply borrow_book_inv in Hinv.
      destruct Hinv as (b & bk & Hb & Hbk & _ & _ & ->).
      assert (Hpos : 0 < Book.available_copies (fields bk)).
      { unfold borrow_book in H.
        rewrite (bind_ok _ _ _ _ _ (to_object_id_ok _ _ w Hb)) in H.
        rewrite (bind_ok _ _ _ _ _ (find_one_in_run db_book _ w)) in H.
        cbn [docs db_book] in H. rewrite Hbk in H.
        destruct (Z.leb_spec (Book.available_copies (fields bk)) 0);
          [discriminate | assumption]. }
      cbn [lent db book]. apply update_one_first; [exact Hall |].
      intros d Hd. rewrite Hbk in Hd. injection Hd as <-. cbn. lia.
    + apply borrow_book_raise in H. now rewrite H.
  - intros p.
    destruct (Bson.parse (ReturnRequest.loan_id p)) as [o |] eqn:Ho.
    2:{ unfold return_book.
        now rewrite (bind_raise _ _ _ _ _ (to_object_id_invalid _ w Ho)). }
    destruct (find_one (has_id o) (loan (db w))) as [l |] eqn:Hl.
    2:{ unfold return_book.
        rewrite (bind_ok _ _ _ _ _ (to_object_id_ok _ _ w Ho)).
        rewrite (bind_ok _ _ _ _ _ (find_one_in_run db_loan (has_id o) w)).
        cbn [docs db_loan]. now rewrite Hl. }
    destruct (Loan.returned (fields l)) eqn:Hr.
    { now rewrite (return_book_returned p w o l Ho Hl Hr). }
    rewrite (return_book_run p w o l Ho Hl Hr). cbv zeta.
    destruct (truthy (Loan.book_id (fields l))) as [s |]; [| exact Hall].
    destruct (Bson.parse s) as [b |]; [| exact Hall].
    cbn [snd copy_given_back with_db db with_docs db_book book].
    apply update_one_forall; [| exact Hall].
    intros d Hd. cbn. lia.
Qed.

Lemma update_book_loans (book_id : string) (payload : UpdateBook.t)
      (w : World) :
  loan (db (snd (update_book book_id payload w))) = loan (db w)
  /\ member (db (snd (update_book book_id payload w))) = member (db w).
Proof.
  unfold update_book.
  destruct (UpdateBook.model_dump_exclude_none payload) as [| x u].
  { rewrite get_book_run. destruct (Bson.parse book_id) as [b |]; [| auto].
    destruct (find_one (has_id b) (book (db w))); auto. }
  rewrite (bind_ok _ _ _ _ _ (utcnow_run w)).
  destruct (Bson.parse book_id) as [b |] eqn:Hb.
  2:{ rewrite (bind_raise _ _ _ _ _ (to_object_id_invalid _ _ Hb)). auto. }
  rewrite (bind_ok _ _ _ _ _ (to_object_id_ok _ _ _ Hb)).
  rewrite (bind_ok _ _ _ _ _ (update_one_in_run db_book _ _ _)).
  destruct (_ =? 0); [auto |].
  rewrite get_book_run, Hb. destruct (find_one _ _); auto.
Qed.

Lemma handle_loans (w : World) (r : request) :
  Forall loan_well_formed (loan (db w)) ->
  Forall loan_well_formed (loan (db (handle w r))).
Proof.
  intros Hwf. destruct r as [b | book_id payload | book_id | m | p | p];
    cbn [handle].
  - destruct (create_book b w) as [[r | e] w'] eqn:H; cbn [snd].
    + apply create_book_inv in H. destruct H as (_ & _ & _ & _ & ->).
      exact Hwf.
    + apply create_book_raise in H. now rewrite H.
  - now rewrite (proj1 (update_book_loans book_id payload w)).
  - rewrite delete_book_run.
    destruct (find_one (active_loan_of book_id) (loan (db w)));
      [exact Hwf |].
    destruct (Bson.parse book_id) as [b |]; [| exact Hwf].
    destruct (find_one (has_id b) (book (db w))); exact Hwf.
  - rewrite create_member_run.
    destruct (find_one (has_email _) _); [exact Hwf |].
    destruct (find_one (has_id _) _); exact Hwf.
  - destruct (borrow_book p w) as [[r | e] w'] eqn:H; cbn [snd].
    + exact (borrow_book_well_formed p w w' r H Hwf).
    + apply borrow_book_raise in H. now rewrite H.
  - now apply return_book_well_formed.
Qed.

(** X20: whatever requests are handled, in whatever order and whether
    they succeed or raise, every stored loan still names its book and
    its member by the text of an identifier if the loans did at the
    start; so on a store that began without loans [active_loans] always
    answers. *)
Theorem loans_stay_well_formed (rs : list request) (w : World) :
  Forall loan_well_formed (loan (db w)) ->
  Forall loan_well_formed (loan (db (fold_left handle rs w)))
  /\ exists r,
       active_loans (fold_left handle rs w) = (Ok r, fold_left handle rs w).
Proof.
  revert w. induction rs as [| r rs IH]; intros w Hwf; cbn [fold_left].
  - split; [exact Hwf |].
    destruct (for_each_enrich w
                (sort_created_desc (filter not_returned (loan (db w)))))
      as (r & Hr & _).
    { apply (Permutation_Forall
               (Permutation_sym (sort_created_desc_perm _))).
      apply Forall_forall. intros l Hl. apply filter_In in Hl.
      rewrite Forall_forall in Hwf. now apply Hwf. }
    exists r. unfold active_loans, find_in. now rewrite !bind_run.
  - apply IH. now apply handle_loans.
Qed.

Lemma update_one_app_none {T} (p : Stored T -> bool)
      (f : Stored T -> Stored T) (c1 c2 : list (Stored T)) :
  find_one p c1 = None ->
  fst (update_one p f (c1 ++ c2)) = c1 ++ fst (update_one p f c2).
Proof.
  unfold find_one. induction c1 as [| d c1 IH]; cbn; [reflexivity |].
  destruct (p d); [discriminate |]. intros H. specialize (IH H).
  destruct (update_one p f (c1 ++ c2)) as [c' n]. cbn in *. now rewrite IH.
Qed.

(** [delete_book] whose book is there and has no open loan under the
    text asked. *)
Lemma delete_book_ok (book_id : string) (w : World) (b : ObjectId)
      (bk : Stored Book.t) :
  find_one (active_loan_of book_id) (loan (db w)) = None ->
  Bson.parse book_id = Some b ->
  find_one (has_id b) (book (db w)) = Some bk ->
  delete_book book_id w
  = (Ok (Deleted.mk "deleted" book_id),
     with_db (with_docs db_book (fst (delete_one (has_id b) (book (db w))))
                        (db w)) w).
Proof. intros H1 H2 H3. now rewrite delete_book_run, H1, H2, H3. Qed.

(** X21: right after a [borrow_book] that succeeds, [delete_book] under
    the text the book was borrowed under is refused; once the loan
    answered is returned, and if no other open loan is stored under that
    text, it goes through. *)
Theorem borrow_book_holds_the_book (p : BorrowRequest.t) (w w1 : World)
        (a : Json Loan.t) :
  borrow_book p w = (Ok (Some a), w1) ->
  delete_book (BorrowRequest.book_id p) w1
  = (Raise (InvalidState "Cannot delete book with active loans"), w1)
  /\ (forall r2 w2,
        find_one (active_loan_of (BorrowRequest.book_id p)) (loan (db w))
        = None ->
        return_book (ReturnRequest.mk (id a)) w1 = (Ok r2, w2) ->
        exists w3,
          delete_book (BorrowRequest.book_id p) w2
          = (Ok (Deleted.mk "deleted" (BorrowRequest.book_id p)), w3)).
Proof.
  intros H. apply borrow_book_inv in H.
  destruct H as (b & bk & Hb & Hbk & Hfresh & Ha & ->).
  injection Ha as ->. split.
  - rewrite delete_book_run.
    destruct (proj1 (find_one_exists
                       (active_loan_of (BorrowRequest.book_id p))
                       (loan (db (lent b p w))))) as (d & ->);
      [| reflexivity].
    exists (new_loan p w). split.
    + cbn [lent db loan]. apply in_or_app. right. now left.
    + apply active_loan_of_spec. split; reflexivity.
  - intros r2 w2 Hnone Hret.
    set (o := _id (new_loan p w)) in *.
    assert (Ho : Bson.parse (ReturnRequest.loan_id
                               (ReturnRequest.mk
                                  (id (serialize_doc (new_loan p w)))))
                 = Some o) by apply parse_str_generate.
    assert (Hl : find_one (has_id o) (loan (db (lent b p w)))
                 = Some (new_loan p w)).
    { cbn [lent db loan]. now apply find_one_inserted. }
    rewrite (return_book_run _ _ o _ Ho Hl eq_refl) in Hret. cbv zeta in Hret.
    cbn [new_loan fields Loan.book_id] in Hret.
    rewrite (parse_truthy _ _ Hb), Hb in Hret. injection Hret as _ <-.
    assert (Hloans : loan (db (copy_given_back b
                                 (marked_returned o (lent b p w))))
                     = loan (db w)
                       ++ [set_returned (clock w (S (S (S (tick w)))))
                                        (new_loan p w)]).
    { cbn [copy_given_back marked_returned with_db advance db with_docs
           db_book db_loan loan lent clock tick].
      rewrite (update_one_app_none _ _ _ _ Hfresh). cbn [update_one].
      unfold has_id at 1. fold o. now rewrite oid_eqb_refl. }
    assert (Hbook : exists bk',
               find_one (has_id b)
                        (book (db (copy_given_back b
                                     (marked_returned o (lent b p w)))))
               = Some bk').
    { cbn [copy_given_back marked_returned with_db advance db with_docs
           db_book db_loan book lent clock tick].
      rewrite !(find_one_update_one _ b b _ (inc_available_copies_id _ _)).
      rewrite oid_eqb_refl, Hbk. cbn [option_map]. eauto. }
    destruct Hbook as (bk' & Hbk').
    eexists. apply (delete_book_ok _ _ b bk'); [| exact Hb | exact Hbk'].
    rewrite Hloans, find_one_app, Hnone. cbn [find_one find].
    unfold active_loan_of. cbn [set_returned fields Loan.returned negb].
    now rewrite andb_false_r.
Qed.

Lemma delete_one_gone {T} (o : ObjectId) (c : list (Stored T)) :
  NoDup (map _id c) ->
  find_one (has_id o) (fst (delete_one (has_id o) c)) = None
  /\ NoDup (map _id (fst (delete_one (has_id o) c))).
Proof.
  intros Hnd.
  destruct (find_one (has_id o) c) as [d |] eqn:Hd.
  - destruct (delete_one_split c _ d Hd) as (c1 & c2 & H1 & H2 & H3).
    rewrite H2. rewrite H1, map_app in Hnd. cbn [map] in Hnd.
    pose proof (NoDup_remove_1 _ _ _ Hnd) as Hnd1.
    pose proof (NoDup_remove_2 _ _ _ Hnd) as Hnot.
    split; [| now rewrite map_app].
    destruct (find_one (has_id o) (c1 ++ c2)) as [e |] eqn:He;
      [| reflexivity].
    exfalso. apply find_one_some in He. destruct He as [Hin He].
    apply oid_eqb_eq in He. apply Hnot.
    rewrite (find_one_has_id _ _ _ Hd), <- He, <- map_app.
    now apply in_map.
  - rewrite (delete_one_none _ _ Hd). auto.
Qed.

(** X22: identities being unique among the stored books, as the store
    keeps them, a book that [delete_book] deleted is gone: [get_book]
    and [borrow_book] under any spelling of its identifier are NotFound,
    and change nothing. *)
Theorem delete_book_then_not_found (book_id : string) (w w' : World)
        (d : Deleted.t) :
  NoDup (map _id (book (db w))) ->
  delete_book book_id w = (Ok d, w') ->
  (forall s,
      Bson.parse s = Bson.parse book_id ->
      get_book s w' = (Raise (NotFound "Book not found"), w'))
  /\ (forall p,
        Bson.parse (BorrowRequest.book_id p) = Bson.parse book_id ->
        borrow_book p w' = (Raise (NotFound "Book not found"), w'))
  /\ NoDup (map _id (book (db w'))).
Proof.
  intros Hnd H. rewrite delete_book_run in H.
  destruct (find_one (active_loan_of book_id) (loan (db w))) as [act |];
    [discriminate |].
  destruct (Bson.parse book_id) as [b |] eqn:Hb; [| discriminate].
  destruct (find_one (has_id b) (book (db w))) as [bk |]; [| discriminate].
  injection H as _ <-.
  destruct (delete_one_gone b (book (db w)) Hnd) as [Hgone Hnd'].
  split; [| split].
  - intros s Hs. rewrite get_book_run, Hs.
    cbn [with_db db with_docs db_book book]. now rewrite Hgone.
  - intros p Hp. unfold borrow_book.
    rewrite (bind_ok _ _ _ _ _ (to_object_id_ok _ _ _ Hp)).
    rewrite (bind_ok _ _ _ _ _ (find_one_in_run db_book _ _)).
    cbn [docs with_db db with_docs db_book book]. now rewrite Hgone.
  - exact Hnd'.
Qed.

(** ** The further theorems at work on the small library *)

Lemma create_book_negative_count_witness :
  exists fs,
    create_book (CreateBook.mk "Emma" "Austen" None None (-1) 1 None)
                Sample.stocked
    = (Raise (ValidationError fs), Sample.stocked)
    /\ In "total_copies" fs
    /\ ~ In "available_copies" fs.
Proof.
  destruct (create_book_negative_count
              (CreateBook.mk "Emma" "Austen" None None (-1) 1 None)
              Sample.stocked)
    as (fs & Hrun & Ht & Ha).
  { left. reflexivity. }
  exists fs. split; [exact Hrun |].
  split; [apply Ht; reflexivity |].
  intros Hin. apply Ha in Hin. discriminate Hin.
Defined.

Lemma create_book_then_get_book_witness :
  create_book Sample.emma_request Sample.empty
  = (Ok (Some (serialize_doc Sample.emma)), Sample.shelved)
  /\ get_book Sample.book_id Sample.shelved
     = (Ok (Some (serialize_doc Sample.emma)), Sample.shelved).
Proof.
  assert (Hrun : create_book Sample.emma_request Sample.empty
                 = (Ok (Some (serialize_doc Sample.emma)), Sample.shelved))
    by run.
  split; [exact Hrun |].
  destruct (create_book_then_get_book Sample.emma_request Sample.empty
              Sample.shelved (Some (serialize_doc Sample.emma)) Hrun)
    as (j & d & Hj & Hd & Hb & _ & _ & _ & _ & _ & _ & _ & _ & _ & Hget).
  injection Hj as <-. exact Hget.
Defined.

Lemma update_book_sets_given_fields_witness :
  exists bk' w',
    update_book Sample.book_id
                (UpdateBook.mk None None None (Some "Novel") None
                               (Some (-2)) None)
                Sample.stocked
    = (Ok (Some (serialize_doc bk')), w')
    /\ fields bk'
       = Book.mk "Emma" "Austen" None (Some "Novel") 1 (-2) None.
Proof.
  assert (Hb : Bson.parse Sample.book_id = Some (Bson.Oid Sample.book_id))
    by run.
  assert (Hbk : find_one (has_id (Bson.Oid Sample.book_id))
                         (book (db Sample.stocked)) = Some Sample.emma)
    by run.
  destruct (update_book_sets_given_fields Sample.book_id
              (UpdateBook.mk None None None (Some "Novel") None (Some (-2))
                             None)
              Sample.stocked (Bson.Oid Sample.book_id) Sample.emma
              ltac:(discriminate) Hb Hbk)
    as (bk' & w' & Hrun & _ & H1 & H2 & H3 & H4 & H5 & H6 & H7 & _).
  exists bk', w'. split; [exact Hrun |].
  destruct bk' as [i [t a i' c tc ac tg] ca ua]. cbn in *.
  now subst.
Defined.

Lemma raise_writes_nothing_witness :
  borrow_book Sample.for_ever Sample.stocked
  = (Raise OverflowError, advance Sample.stocked)
  /\ db (advance Sample.stocked) = db Sample.stocked.
Proof.
  assert (Hrun : borrow_book Sample.for_ever Sample.stocked
                 = (Raise OverflowError, advance Sample.stocked)) by run.
  split; [exact Hrun |].
  exact (proj2 (proj2 (proj2 (proj2
           (raise_writes_nothing Sample.stocked (advance Sample.stocked)
                                 OverflowError))))
           Sample.for_ever Hrun).
Defined.

Lemma borrow_book_when_it_succeeds_witness :
  borrow_book (BorrowRequest.parse Sample.member_id Sample.book_id None)
              Sample.stocked
  = (Ok (Some (serialize_doc
                 (new_loan (BorrowRequest.parse Sample.member_id
                                                Sample.book_id None)
                           Sample.stocked))),
     lent (Bson.Oid Sample.book_id)
          (BorrowRequest.parse Sample.member_id Sample.book_id None)
          Sample.stocked).
Proof.
  assert (Hb : Bson.parse Sample.book_id = Some (Bson.Oid Sample.book_id))
    by run.
  assert (Hbk : find_one (has_id (Bson.Oid Sample.book_id))
                         (book (db Sample.stocked)) = Some Sample.emma)
    by run.
  assert (Hm : Bson.parse Sample.member_id
               = Some (Bson.Oid Sample.member_id)) by run.
  assert (Hmb : find_one (has_id (Bson.Oid Sample.member_id))
                         (member (db Sample.stocked)) = Some Sample.ada)
    by run.
  assert (Hfree : find_one (has_id (Bson.generate (next_oid Sample.stocked)))
                           (loan (db Sample.stocked)) = None) by run.
  apply (borrow_book_when_it_succeeds
           (BorrowRequest.parse Sample.member_id Sample.book_id None)
           Sample.stocked (Bson.Oid Sample.book_id)
           (Bson.Oid Sample.member_id) Sample.emma Sample.ada
           Hb Hbk eq_refl Hm Hmb).
  - vm_compute. discriminate.
  - vm_compute. split; discriminate.
  - exact Hfree.
Defined.

Lemma borrow_book_overflow_witness :
  borrow_book Sample.for_ever Sample.stocked
  = (Raise OverflowError, advance Sample.stocked).
Proof.
  assert (Hb : Bson.parse Sample.book_id = Some (Bson.Oid Sample.book_id))
    by run.
  assert (Hbk : find_one (has_id (Bson.Oid Sample.book_id))
                         (book (db Sample.stocked)) = Some Sample.emma)
    by run.
  assert (Hm : Bson.parse Sample.member_id
               = Some (Bson.Oid Sample.member_id)) by run.
  assert (Hmb : find_one (has_id (Bson.Oid Sample.member_id))
                         (member (db Sample.stocked)) = Some Sample.ada)
    by run.
  apply (borrow_book_overflow Sample.for_ever Sample.stocked
           (Bson.Oid Sample.book_id) (Bson.Oid Sample.member_id)
           Sample.emma Sample.ada Hb Hbk eq_refl Hm Hmb).
  left. reflexivity.
Defined.

Lemma return_book_bad_book_id_witness :
  exists l' w',
    return_book (ReturnRequest.mk Sample.loan_id) Sample.imported
    = (Raise InvalidInput, w')
    /\ find_one (has_id (Bson.Oid Sample.loan_id)) (loan (db w')) = Some l'
    /\ Loan.returned (fields l') = true
    /\ book (db w') = [Sample.emma].
Proof.
  assert (Ho : Bson.parse Sample.loan_id = Some (Bson.Oid Sample.loan_id))
    by run.
  assert (Hl : find_one (has_id (Bson.Oid Sample.loan_id))
                        (loan (db Sample.imported))
               = Some Sample.stray_loan) by run.
  assert (Hs : Bson.parse "Emma" = None) by run.
  destruct (return_book_bad_book_id (ReturnRequest.mk Sample.loan_id)
              Sample.imported (Bson.Oid Sample.loan_id) Sample.stray_loan
              "Emma" Ho Hl eq_refl eq_refl ltac:(discriminate) Hs)
    as (l' & w' & Hrun & Hf & Hr & _ & Hbooks).
  exists l', w'. split; [exact Hrun |]. split; [exact Hf |].
  split; [exact Hr | exact Hbooks].
Defined.

(** Whitespace in a text of 24 characters is skipped, so such a
    [book_id] is an identifier, of fewer bytes: [return_book] looks the
    book up, finds none and answers the closed loan. *)
Remark return_book_spaced_book_id :
  String.length Sample.spaced = 24%nat
  /\ Bson.parse Sample.spaced = Some (Bson.Oid "000a")
  /\ exists w',
       return_book (ReturnRequest.mk Sample.loan_id) Sample.imported_spaced
       = (Ok (Some (serialize_doc Sample.spaced_loan_back)), w')
       /\ loan (db w') = [Sample.spaced_loan_back]
       /\ book (db w') = [Sample.emma].
Proof.
  split; [reflexivity |]. split; [run |].
  eexists. split; [run |]. split; reflexivity.
Qed.

Lemma create_member_new_email_witness :
  create_member Sample.ada_request Sample.shelved
  = (Ok (Some (serialize_doc Sample.ada)), Sample.stocked)
  /\ exists d,
       member (db Sample.stocked) = member (db Sample.shelved) ++ [d]
       /\ fields d = Member.mk "Ada" "ada@example.org" None true.
Proof.
  assert (Hrun : create_member Sample.ada_request Sample.shelved
                 = (Ok (Some (serialize_doc Sample.ada)), Sample.stocked))
    by run.
  assert (Hnone : member (db Sample.shelved) = []) by run.
  split; [exact Hrun |].
  destruct (create_member_new_email Sample.ada_request Sample.shelved
              Sample.stocked (Some (serialize_doc Sample.ada)))
    as (d & _ & Hm & Hf & _).
  { rewrite Hnone. intros e []. }
  { exact Hrun. }
  exists d. split; [exact Hm | exact Hf].
Defined.

Lemma create_member_idempotent_witness :
  get_member_by_email "ada@example.org" Sample.stocked
  = (Ok (Some (serialize_doc Sample.ada)), Sample.stocked)
  /\ create_member (CreateMember.mk "Countess" "ada@example.org"
                                    (Some "555"))
                   Sample.stocked
     = (Ok (Some (serialize_doc Sample.ada)), Sample.stocked).
Proof.
  assert (Hrun : create_member Sample.ada_request Sample.shelved
                 = (Ok (Some (serialize_doc Sample.ada)), Sample.stocked))
    by run.
  destruct (create_member_idempotent Sample.ada_request Sample.shelved
              Sample.stocked (Some (serialize_doc Sample.ada)) Hrun)
    as (Hget & Hagain).
  split; [exact Hget |].
  exact (Hagain (CreateMember.mk "Countess" "ada@example.org" (Some "555"))
                eq_refl).
Defined.

Lemma get_member_by_email_spec_witness :
  get_member_by_email "bob@example.org" Sample.stocked
  = (Raise (NotFound "Member not found"), Sample.stocked)
  /\ exists e,
       In e (member (db Sample.stocked))
       /\ Member.email (fields e) = "ada@example.org"
       /\ get_member_by_email "ada@example.org" Sample.stocked
          = (Ok (Some (serialize_doc e)), Sample.stocked).
Proof.
  assert (Hm : member (db Sample.stocked) = [Sample.ada]) by run.
  assert (Hrun : get_member_by_email "ada@example.org" Sample.stocked
                 = (Ok (Some (serialize_doc Sample.ada)), Sample.stocked))
    by run.
  split.
  - apply (proj1 (get_member_by_email_spec "bob@example.org"
                    Sample.stocked)).
    rewrite Hm. intros e [<- | []]. discriminate.
  - destruct (proj2 (get_member_by_email_spec "ada@example.org"
                       Sample.stocked)
                    _ _ Hrun)
      as (_ & e & Hin & He & Hr).
    exists e. split; [exact Hin |]. split; [exact He |].
    rewrite Hrun. now rewrite Hr.
Defined.

Lemma create_member_keeps_emails_unique_witness :
  NoDup (map (fun e => Member.email (fields e))
             (member (db Sample.stocked)))
  /\ NoDup (map (fun e => Member.email (fields e))
                (member (db (snd (create_member Sample.bob_request
                                                Sample.stocked)))))
  /\ List.length (member (db (snd (create_member Sample.bob_request
                                                 Sample.stocked))))
     = 2%nat.
Proof.
  assert (Hm : member (db Sample.stocked) = [Sample.ada]) by run.
  assert (Hu : NoDup (map (fun e => Member.email (fields e))
                          (member (db Sample.stocked)))).
  { rewrite Hm. repeat constructor. intros []. }
  split; [exact Hu |].
  split; [| run].
  exact (create_member_keeps_emails_unique Sample.bob_request Sample.stocked
                                           Hu).
Defined.

Lemma list_books_spec_witness :
  exists ls,
    list_books Sample.plain_regex (Some "aUs") Sample.stocked
    = (Ok (map serialize_doc ls), Sample.stocked)
    /\ In Sample.emma ls
  /\ list_books Sample.plain_regex (Some "(") Sample.stocked
     = (Raise OperationFailure, Sample.stocked).
Proof.
  assert (Hb : book (db Sample.stocked) = [Sample.emma]) by run.
  pose proof (list_books_spec Sample.plain_regex (Some "aUs") Sample.stocked)
    as (_ & Hq & _).
  pose proof (list_books_spec Sample.plain_regex (Some "(") Sample.stocked)
    as (_ & _ & Hbad).
  destruct (Hq "aUs" (Sample.found_whatever_case "aUs") eq_refl eq_refl)
    as (ls & Hrun & _ & Hin & _).
  exists ls. split; [exact Hrun |]. split.
  - apply Hin. split; [rewrite Hb; left; reflexivity |].
    right. left. reflexivity.
  - exact (Hbad "(" eq_refl eq_refl).
Defined.

Lemma active_loans_agrees_with_list_loans_witness :
  active_loans Sample.lent_out
  = (Ok [Enriched.mk (serialize_doc Sample.loan_out)
                     (Some (book_info Sample.emma_lent))
                     (Some (member_info Sample.ada))],
     Sample.lent_out)
  /\ list_loans None (Some true) Sample.lent_out
     = (Ok [serialize_doc Sample.loan_out], Sample.lent_out).
Proof.
  assert (Hrun : active_loans Sample.lent_out
                 = (Ok [Enriched.mk (serialize_doc Sample.loan_out)
                                    (Some (book_info Sample.emma_lent))
                                    (Some (member_info Sample.ada))],
                    Sample.lent_out)) by run.
  split; [exact Hrun |].
  exact (active_loans_agrees_with_list_loans _ _ _ Hrun).
Defined.

Lemma loans_by_email_spec_witness :
  loans_by_email "bob@example.org" Sample.lent_out
  = (Raise (NotFound "Member not found"), Sample.lent_out)
  /\ exists ls r,
       loans_by_email "ada@example.org" Sample.lent_out
       = (Ok r, Sample.lent_out)
       /\ Permutation ls [Sample.loan_out]
       /\ Forall2 (with_book_from Sample.lent_out) ls r.
Proof.
  assert (Hm : member (db Sample.lent_out) = [Sample.ada]) by run.
  assert (Hf : find_one (has_email "ada@example.org")
                        (member (db Sample.lent_out)) = Some Sample.ada)
    by run.
  assert (Hl : filter (loan_of_member (Bson.str (_id Sample.ada)))
                      (loan (db Sample.lent_out)) = [Sample.loan_out])
    by run.
  split.
  - apply (proj1 (loans_by_email_spec "bob@example.org" Sample.lent_out)).
    rewrite Hm. intros e [<- | []]. discriminate.
  - destruct (proj2 (loans_by_email_spec "ada@example.org" Sample.lent_out)
                    Sample.ada Hf)
      as (ls & r & Hrun & Hperm & _ & _ & Hall).
    { rewrite Hl. repeat constructor.
      exists Sample.book_id, (Bson.Oid Sample.book_id). split; run. }
    exists ls, r. split; [exact Hrun |].
    split; [now rewrite <- Hl | exact Hall].
Defined.

Lemma borrow_book_then_loans_by_email_witness :
  exists r e,
    loans_by_email "ada@example.org" Sample.lent_out
    = (Ok r, Sample.lent_out)
    /\ In e r
    /\ BookLoan.loan e = serialize_doc Sample.loan_out
    /\ BookLoan.book e = Some (Enriched.mkBook "Emma" "Austen").
Proof.
  assert (Hrun : borrow_book (BorrowRequest.parse Sample.member_id
                                                  Sample.book_id None)
                             Sample.stocked
                 = (Ok (Some (serialize_doc Sample.loan_out)),
                    Sample.lent_out)) by run.
  assert (Hf : find_one (has_email "ada@example.org")
                        (member (db Sample.stocked)) = Some Sample.ada)
    by run.
  assert (Hb : book (db Sample.stocked) = [Sample.emma]) by run.
  assert (Hl : loan (db Sample.stocked) = []) by run.
  destruct (borrow_book_then_loans_by_email
              (BorrowRequest.parse Sample.member_id Sample.book_id None)
              Sample.stocked Sample.lent_out (serialize_doc Sample.loan_out)
              "ada@example.org" Sample.ada Hrun Hf eq_refl)
    as (r & e & bk & Hloans & Hin & He & _ & Hbk & Hinfo).
  { rewrite Hl. constructor. }
  exists r, e. split; [exact Hloans |]. split; [exact Hin |].
  split; [exact He |].
  rewrite Hb in Hbk. destruct Hbk as [<- | []]. exact Hinfo.
Defined.

Lemma ledger_kept_witness :
  on_loan (Bson.Oid Sample.book_id) Sample.stocked = 0
  /\ on_loan (Bson.Oid Sample.book_id) Sample.lent_out = 1
  /\ exists bk',
       find_one (has_id (Bson.Oid Sample.book_id))
                (book (db Sample.lent_out)) = Some bk'
       /\ Book.available_copies (fields bk') + 1
          = Book.available_copies (fields Sample.emma).
Proof.
  assert (H0 : on_loan (Bson.Oid Sample.book_id) Sample.stocked = 0) by run.
  assert (H1 : on_loan (Bson.Oid Sample.book_id) Sample.lent_out = 1) by run.
  assert (Hbk : find_one (has_id (Bson.Oid Sample.book_id))
                         (book (db Sample.stocked)) = Some Sample.emma)
    by run.
  assert (Hrun : borrow_book (BorrowRequest.parse Sample.member_id
                                                  Sample.book_id None)
                             Sample.stocked
                 = (Ok (Some (serialize_doc Sample.loan_out)),
                    Sample.lent_out)) by run.
  split; [exact H0 |]. split; [exact H1 |].
  destruct (ledger_kept Sample.stocked Sample.lent_out
              (Some (serialize_doc Sample.loan_out))
              (Bson.Oid Sample.book_id) Sample.emma Hbk)
    as (bk' & Hbk' & Hsum).
  { left. exists (BorrowRequest.parse Sample.member_id Sample.book_id None).
    exact Hrun. }
  exists bk'. split; [exact Hbk' |].
  rewrite H0, H1 in Hsum. rewrite Hsum. apply Z.add_0_r.
Defined.

Lemma copies_never_negative_witness :
  Forall (fun d => 0 <= Book.available_copies (fields d))
         (book (db Sample.lent_out))
  /\ borrow_book (BorrowRequest.parse Sample.member_id Sample.book_id None)
                 Sample.stocked
     = (Ok (Some (serialize_doc Sample.loan_out)), Sample.lent_out).
Proof.
  assert (Hb : book (db Sample.stocked) = [Sample.emma]) by run.
  assert (Hrun : borrow_book (BorrowRequest.parse Sample.member_id
                                                  Sample.book_id None)
                             Sample.stocked
                 = (Ok (Some (serialize_doc Sample.loan_out)),
                    Sample.lent_out)) by run.
  split; [| exact Hrun].
  change Sample.lent_out
    with (snd (Ok (Some (serialize_doc Sample.loan_out)), Sample.lent_out)).
  rewrite <- Hrun.
  apply (proj1 (copies_never_negative Sample.stocked
                  ltac:(rewrite Hb; repeat constructor; discriminate))).
Defined.

Lemma loans_stay_well_formed_witness :
  List.length (loan (db (fold_left handle Sample.a_day Sample.empty)))
  = 1%nat
  /\ Forall loan_well_formed
            (loan (db (fold_left handle Sample.a_day Sample.empty)))
  /\ exists r,
       active_loans (fold_left handle Sample.a_day Sample.empty)
       = (Ok r, fold_left handle Sample.a_day Sample.empty).
Proof.
  split; [run |].
  apply (loans_stay_well_formed Sample.a_day Sample.empty).
  assert (Hl : loan (db Sample.empty) = []) by reflexivity.
  rewrite Hl. constructor.
Defined.

Lemma borrow_book_holds_the_book_witness :
  delete_book Sample.book_id Sample.lent_out
  = (Raise (InvalidState "Cannot delete book with active loans"),
     Sample.lent_out)
  /\ exists w3,
       delete_book Sample.book_id Sample.given_back
       = (Ok (Deleted.mk "deleted" Sample.book_id), w3).
Proof.
  assert (Hrun : borrow_book (BorrowRequest.parse Sample.member_id
                                                  Sample.book_id None)
                             Sample.stocked
                 = (Ok (Some (serialize_doc Sample.loan_out)),
                    Sample.lent_out)) by run.
  assert (Hnone : find_one (active_loan_of Sample.book_id)
                           (loan (db Sample.stocked)) = None) by run.
  assert (Hret : return_book (ReturnRequest.mk Sample.loan_id)
                             Sample.lent_out
                 = (Ok (Some (serialize_doc Sample.loan_back)),
                    Sample.given_back)) by run.
  destruct (borrow_book_holds_the_book
              (BorrowRequest.parse Sample.member_id Sample.book_id None)
              Sample.stocked Sample.lent_out (serialize_doc Sample.loan_out)
              Hrun)
    as (Hheld & Hfree).
  split; [exact Hheld |].
  exact (Hfree _ _ Hnone Hret).
Defined.

Lemma delete_book_then_not_found_witness :
  delete_book Sample.book_id Sample.given_back
  = (Ok (Deleted.mk "deleted" Sample.book_id), Sample.cleared)
  /\ get_book Sample.book_id_upper Sample.cleared
     = (Raise (NotFound "Book not found"), Sample.cleared)
  /\ borrow_book (BorrowRequest.parse Sample.member_id Sample.book_id None)
                 Sample.cleared
     = (Raise (NotFound "Book not found"), Sample.cleared).
Proof.
  assert (Hb : book (db Sample.given_back) = [Sample.emma_back]) by run.
  assert (Hrun : delete_book Sample.book_id Sample.given_back
                 = (Ok (Deleted.mk "deleted" Sample.book_id),
                    Sample.cleared)) by run.
  assert (Hup : Bson.parse Sample.book_id_upper
                = Bson.parse Sample.book_id) by run.
  split; [exact Hrun |].
  destruct (delete_book_then_not_found Sample.book_id Sample.given_back
              Sample.cleared (Deleted.mk "deleted" Sample.book_id))
    as (Hget & Hborrow & _).
  { rewrite Hb. repeat constructor. intros []. }
  { exact Hrun. }
  split; [exact (Hget _ Hup) |].
  exact (Hborrow (BorrowRequest.parse Sample.member_id Sample.book_id None)
                 eq_refl).
Defined.

Lemma list_members_spec_witness :
  exists ls,
    list_members (Sample.after (create_member Sample.bob_request)
                               Sample.stocked)
    = (Ok (map serialize_doc ls),
       Sample.after (create_member Sample.bob_request) Sample.stocked)
    /\ In Sample.ada ls
    /\ List.length ls = 2%nat.
Proof.
  assert (Hm : exists bob,
             member (db (Sample.after (create_member Sample.bob_request)
                                      Sample.stocked))
             = [Sample.ada; bob]).
  { eexists. vm_compute. reflexivity. }
  destruct Hm as (bob & Hm).
  destruct (list_members_spec
              (Sample.after (create_member Sample.bob_request)
                            Sample.stocked))
    as (ls & Hrun & Hperm & _).
  exists ls. split; [exact Hrun |]. rewrite Hm in Hperm. split.
  - apply (Permutation_in _ (Permutation_sym Hperm)). left. reflexivity.
  - apply (Permutation_length Hperm).
Defined.

Lemma list_loans_spec_witness :
  exists ls,
    list_loans (Some Sample.member_id) (Some true) Sample.lent_out
    = (Ok (map serialize_doc ls), Sample.lent_out)
    /\ In Sample.loan_out ls
  /\ list_loans (Some Sample.member_id) (Some true) Sample.given_back
     = (Ok [], Sample.given_back).
Proof.
  assert (Hl : loan (db Sample.lent_out) = [Sample.loan_out]) by run.
  assert (Hb : loan (db Sample.given_back) = [Sample.loan_back]) by run.
  destruct (list_loans_spec (Some Sample.member_id) (Some true)
                            Sample.lent_out)
    as (ls & Hrun & _ & Hin & _).
  destruct (list_loans_spec (Some Sample.member_id) (Some true)
                            Sample.given_back)
    as (ls' & Hrun' & _ & Hin' & _).
  exists ls. split; [exact Hrun |]. split.
  - apply Hin. split; [rewrite Hl; left; reflexivity |].
    split; [right; reflexivity | reflexivity].
  - rewrite Hrun'. destruct ls' as [| l ls']; [reflexivity |].
    destruct (proj1 (Hin' l) (or_introl eq_refl)) as (Hl' & _ & Hr).
    rewrite Hb in Hl'. destruct Hl' as [<- | []]. discriminate Hr.
Defined.
